(** * download_class_dojo.py: a shallow embedding and its properties

    The script walks the ClassDojo story feed page by page ([get_items],
    [scrape]), stores the items as a JSON snapshot ([save_json],
    [load_json]), turns the items into (url, destination) pairs
    ([get_urls], [get_name_from_url]) and downloads them through a process
    pool ([download_urls], [download]).

    Python values that come out of [json.loads] are modelled by the type
    [json]; a Python [str] is a [string] whose characters are read as
    code points below 256; exceptions are the constructors of [exn];
    the network and the file system are explicit ([network], [world]).
    Floating-point numbers are not part of the model.  An [int] is
    unbounded, and its conversion to and from text is subject to the
    limit of 4300 digits that CPython sets by default. *)

From Stdlib Require Import ZArith Ascii String List Lia Bool.
From Stdlib Require Import Decimal DecimalString DecimalN DecimalPos.
From stdpp Require Import base option list strings gmap.

Local Open Scope Z_scope.

#[local] Arguments String.append !s1 s2 : simpl nomatch.

(** ** Exceptions and results *)

Inductive exn : Type :=
| KeyError
| TypeError
| AttributeError
| ValueError
| JSONDecodeError
| RequestException
| FileNotFoundError
| RecursionError
| Unsupported.

Inductive result (A : Type) : Type :=
| Ok (a : A)
| Raise (e : exn).

Arguments Ok {A} a.
Arguments Raise {A} e.

Definition bind {A B} (r : result A) (k : A -> result B) : result B :=
  match r with
  | Ok a => k a
  | Raise e => Raise e
  end.

#[global] Instance result_bind : MBind result := fun A B k r => bind r k.
#[global] Instance result_ret : MRet result := @Ok.

Definition is_ok {A} (r : result A) : bool :=
  match r with Ok _ => true | Raise _ => false end.

(** ** Python [str] operations used by the script *)

Module Str.

(** [s.split(sep)] for a one-character separator: the pieces between the
    occurrences of [sep]; never the empty list. *)
Fixpoint split (sep : ascii) (s : string) : list string :=
  match s with
  | EmptyString => [EmptyString]
  | String c s' =>
      if Ascii.eqb c sep then EmptyString :: split sep s'
      else match split sep s' with
           | h :: t => String c h :: t
           | [] => [String c EmptyString]
           end
  end.

(** [sep.join(parts)] *)
Fixpoint join (sep : string) (parts : list string) : string :=
  match parts with
  | [] => EmptyString
  | [p] => p
  | p :: ps => p +:+ sep +:+ join sep ps
  end.

(** [s.replace(old, new)] for one-character [old] and [new]. *)
Fixpoint replace (old new : ascii) (s : string) : string :=
  match s with
  | EmptyString => EmptyString
  | String c s' =>
      String (if Ascii.eqb c old then new else c) (replace old new s')
  end.

(** [parts[n:]] *)
Definition slice_from {A} (n : nat) (parts : list A) : list A := skipn n parts.

Fixpoint chars (s : string) : list ascii :=
  match s with
  | EmptyString => []
  | String c s' => c :: chars s'
  end.

Definition lower (c : ascii) : ascii :=
  let n := N_of_ascii c in
  if (N.leb 65 n && N.leb n 90)%bool then ascii_of_N (n + 32) else c.

End Str.

Definition slash : ascii := "/"%char.
Definition hyphen : ascii := "-"%char.
Definition underscore : ascii := "_"%char.

(** ** [datetime]: the two [strptime] formats and the [strftime] format

    [datetime.strptime] compiles the format into a regular expression
    (case-insensitive), takes the first match in backtracking order,
    rejects unconverted trailing data and then builds the [datetime],
    which validates the calendar fields.  The parsers below are lists of
    successes in the order in which the regular expression tries its
    alternatives. *)

Module DateTime.

Record datetime : Type := mk_datetime {
  year : Z; month : Z; day : Z;
  hour : Z; minute : Z; second : Z; microsecond : Z
}.

Definition rx (A : Type) : Type := string -> list (A * string).

Definition digit (c : ascii) : option Z :=
  let n := Z.of_N (N_of_ascii c) in
  if (48 <=? n) && (n <=? 57) then Some (n - 48) else None.

Definition one (ok : Z -> bool) : rx Z := fun s =>
  match s with
  | String c r =>
      match digit c with
      | Some d => if ok d then [(d, r)] else []
      | None => []
      end
  | EmptyString => []
  end.

Definition two (ok : Z -> Z -> bool) : rx Z := fun s =>
  match s with
  | String a (String b r) =>
      match digit a, digit b with
      | Some x, Some y => if ok x y then [(10 * x + y, r)] else []
      | _, _ => []
      end
  | _ => []
  end.

Definition alt {A} (p q : rx A) : rx A := fun s => p s ++ q s.

Definition seq {A B} (p : rx A) (k : A -> rx B) : rx B := fun s =>
  flat_map (fun '(a, r) => k a r) (p s).

Definition ret {A} (a : A) : rx A := fun s => [(a, s)].

(** A literal character of the format, matched ignoring case. *)
Definition lit (c : ascii) : rx unit := fun s =>
  match s with
  | String c' r => if Ascii.eqb (Str.lower c') (Str.lower c) then [(tt, r)] else []
  | EmptyString => []
  end.

Fixpoint lits (cs : list ascii) : rx unit :=
  match cs with
  | [] => ret tt
  | c :: cs' => seq (lit c) (fun _ => lits cs')
  end.

Definition any1 (_ : Z) : bool := true.
Definition any2 (_ _ : Z) : bool := true.

(** [%Y]: [\d\d\d\d] *)
Definition re_Y : rx Z :=
  seq (two any2) (fun hi => seq (two any2) (fun lo => ret (100 * hi + lo))).

(** [%m]: [1[0-2]|0[1-9]|[1-9]] *)
Definition re_m : rx Z :=
  alt (two (fun x y => (x =? 1) && (y <=? 2)))
 (alt (two (fun x y => (x =? 0) && (1 <=? y)))
      (one (fun x => (1 <=? x)))).

(** [%d]: [3[0-1]|[1-2]\d|0[1-9]|[1-9]| [1-9]] *)
Definition re_d : rx Z :=
  alt (two (fun x y => (x =? 3) && (y <=? 1)))
 (alt (two (fun x y => (1 <=? x) && (x <=? 2)))
 (alt (two (fun x y => (x =? 0) && (1 <=? y)))
 (alt (one (fun x => (1 <=? x)))
      (seq (lit " "%char) (fun _ => one (fun x => (1 <=? x))))))).

(** [%H]: [2[0-3]|[0-1]\d|\d] *)
Definition re_H : rx Z :=
  alt (two (fun x y => (x =? 2) && (y <=? 3)))
 (alt (two (fun x y => (x <=? 1)))
      (one any1)).

(** [%M]: [[0-5]\d|\d] *)
Definition re_M : rx Z :=
  alt (two (fun x y => (x <=? 5))) (one any1).

(** [%S]: [6[0-1]|[0-5]\d|\d] *)
Definition re_S : rx Z :=
  alt (two (fun x y => (x =? 6) && (y <=? 1)))
 (alt (two (fun x y => (x <=? 5)))
      (one any1)).

(** [%f]: [[0-9]{1,6}], greedy; the digits are padded on the right to six
    places.  [frac n scale acc] reads up to [n] more digits. *)
Fixpoint frac (n : nat) (scale acc : Z) : rx Z := fun s =>
  match n with
  | O => [(acc, s)]
  | S n' =>
      match s with
      | String c r =>
          match digit c with
          | Some d => frac n' (scale / 10) (acc + d * scale) r ++ [(acc, s)]
          | None => [(acc, s)]
          end
      | EmptyString => [(acc, s)]
      end
  end.

Definition re_f : rx Z :=
  seq (one any1) (fun d => frac 5 10000 (d * 100000)).

(** [%b]: the abbreviated month names of the C locale. *)
Definition month_abbr : list (string * Z) :=
  [("jan", 1); ("feb", 2); ("mar", 3); ("apr", 4); ("may", 5); ("jun", 6);
   ("jul", 7); ("aug", 8); ("sep", 9); ("oct", 10); ("nov", 11); ("dec", 12)].

Definition re_b : rx Z := fun s =>
  flat_map (fun '(name, m) => seq (lits (Str.chars name)) (fun _ => ret m) s)
           month_abbr.

Definition is_leap (y : Z) : bool :=
  (y mod 4 =? 0) && (negb (y mod 100 =? 0) || (y mod 400 =? 0)).

Definition days_in_month (y m : Z) : Z :=
  match m with
  | 2 => if is_leap y then 29 else 28
  | 4 | 6 | 9 | 11 => 30
  | _ => 31
  end.

(** The checks of the [datetime] constructor. *)
Definition valid (d : datetime) : bool :=
  (1 <=? year d) && (year d <=? 9999)
  && (1 <=? month d) && (month d <=? 12)
  && (1 <=? day d) && (day d <=? days_in_month (year d) (month d))
  && (hour d <=? 23) && (minute d <=? 59) && (second d <=? 59)
  && (microsecond d <=? 999999).

(** First match, then "unconverted data remains", then the constructor. *)
Definition finish (matches : list (datetime * string)) : result datetime :=
  match matches with
  | [] => Raise ValueError
  | (d, rest) :: _ =>
      match rest with
      | EmptyString => if valid d then Ok d else Raise ValueError
      | String _ _ => Raise ValueError
      end
  end.

(** ['%Y-%m-%dT%H:%M:%S.%fZ'] *)
Definition re_item : rx datetime :=
  seq re_Y (fun y => seq (lit "-"%char) (fun _ =>
  seq re_m (fun m => seq (lit "-"%char) (fun _ =>
  seq re_d (fun d => seq (lit "T"%char) (fun _ =>
  seq re_H (fun h => seq (lit ":"%char) (fun _ =>
  seq re_M (fun mi => seq (lit ":"%char) (fun _ =>
  seq re_S (fun sec => seq (lit "."%char) (fun _ =>
  seq re_f (fun us => seq (lit "Z"%char) (fun _ =>
  ret (mk_datetime y m d h mi sec us))))))))))))))).

Definition strptime_item (s : string) : result datetime := finish (re_item s).

(** ['%d-%b-%Y']; the fields that the format leaves out are zero. *)
Definition re_cutoff : rx datetime :=
  seq re_d (fun d => seq (lit "-"%char) (fun _ =>
  seq re_b (fun m => seq (lit "-"%char) (fun _ =>
  seq re_Y (fun y => ret (mk_datetime y m d 0 0 0 0)))))).

Definition strptime_cutoff (s : string) : result datetime := finish (re_cutoff s).

(** [a > b] on naive datetimes: lexicographic on the fields. *)
Definition fields (d : datetime) : list Z :=
  [year d; month d; day d; hour d; minute d; second d; microsecond d].

Fixpoint lex_gt (a b : list Z) : bool :=
  match a, b with
  | x :: a', y :: b' =>
      if y <? x then true
      else if x <? y then false
      else lex_gt a' b'
  | _ :: _, [] => true
  | [], _ => false
  end.

Definition gt (a b : datetime) : bool := lex_gt (fields a) (fields b).

(** Zero-padded decimal of width [w]. *)
Definition digit_char (d : Z) : ascii := ascii_of_N (Z.to_N (48 + d mod 10)).

Fixpoint pad (w : nat) (n : Z) : string :=
  match w with
  | O => EmptyString
  | S w' => pad w' (n / 10) +:+ String (digit_char n) EmptyString
  end.

(** The digits that the decimal of a year takes: [datetime] keeps the
    year between 1 and 9999. *)
Definition year_width (y : Z) : nat :=
  if y <? 10 then 1 else if y <? 100 then 2 else if y <? 1000 then 3 else 4.

(** [strftime('%m-%d-%Y')]: month and day with two digits, and the year
    as the C library prints it for [%Y], a plain decimal: four digits
    from the year 1000 on, fewer before, without leading zeros. *)
Definition strftime_mdY (d : datetime) : string :=
  pad 2 (month d) +:+ "-" +:+ pad 2 (day d) +:+ "-"
  +:+ pad (year_width (year d)) (year d).

End DateTime.


(** ** JSON values, as [json.loads] and [resp.json()] deliver them *)

#[local] Unset Elimination Schemes.

Inductive json : Type :=
| JNull
| JBool (b : bool)
| JInt (z : Z)
| JStr (s : string)
| JArr (l : list json)
| JObj (d : list (string * json)).

#[local] Set Elimination Schemes.

(** A [dict] keeps its keys in insertion order; a key occurs once. *)
Fixpoint json_ind' (P : json -> Prop)
    (Hnull : P JNull) (Hbool : forall b, P (JBool b))
    (Hint : forall z, P (JInt z)) (Hstr : forall s, P (JStr s))
    (Harr : forall l, Forall P l -> P (JArr l))
    (Hobj : forall d, Forall (fun kv => P (snd kv)) d -> P (JObj d))
    (j : json) {struct j} : P j :=
  match j with
  | JNull => Hnull
  | JBool b => Hbool b
  | JInt z => Hint z
  | JStr s => Hstr s
  | JArr l =>
      Harr l ((fix go (l : list json) : Forall P l :=
                 match l with
                 | [] => @List.Forall_nil _ P
                 | x :: l' =>
                     @List.Forall_cons _ P x l'
                       (json_ind' P Hnull Hbool Hint Hstr Harr Hobj x) (go l')
                 end) l)
  | JObj d =>
      Hobj d ((fix go (d : list (string * json))
                 : Forall (fun kv => P (snd kv)) d :=
                 match d with
                 | [] => @List.Forall_nil _ (fun kv => P (snd kv))
                 | kv :: d' =>
                     @List.Forall_cons _ (fun kv => P (snd kv)) kv d'
                       (json_ind' P Hnull Hbool Hint Hstr Harr Hobj (snd kv)) (go d')
                 end) d)
  end.

Fixpoint wf_json (j : json) : Prop :=
  match j with
  | JArr l => fold_right (fun x acc => wf_json x /\ acc) True l
  | JObj d =>
      NoDup (map fst d) /\ fold_right (fun kv acc => wf_json (snd kv) /\ acc) True d
  | _ => True
  end.

(** ** The Python operations on those values *)

Module Py.

(** [d[key]] on the pairs of a dict. *)
Fixpoint lookup (key : string) (d : list (string * json)) : option json :=
  match d with
  | [] => None
  | (k, v) :: d' => if String.eqb k key then Some v else lookup key d'
  end.

(** [d[key] = v]: overwrite in place, or append a new key. *)
Fixpoint setitem (key : string) (v : json) (d : list (string * json))
  : list (string * json) :=
  match d with
  | [] => [(key, v)]
  | (k, v') :: d' =>
      if String.eqb k key then (k, v) :: d' else (k, v') :: setitem key v d'
  end.

(** [bool(v)] *)
Definition truthy (v : json) : bool :=
  match v with
  | JNull => false
  | JBool b => b
  | JInt z => negb (z =? 0)
  | JStr s => negb (String.eqb s EmptyString)
  | JArr l => match l with [] => false | _ :: _ => true end
  | JObj d => match d with [] => false | _ :: _ => true end
  end.

(** [v[key]] with a string key: [KeyError] on a dict without the key,
    [TypeError] on everything that is not a dict. *)
Definition getitem (v : json) (key : string) : result json :=
  match v with
  | JObj d => match lookup key d with Some x => Ok x | None => Raise KeyError end
  | _ => Raise TypeError
  end.

(** [v.get(key, default)]: only a dict has the method. *)
Definition get (v : json) (key : string) (default : json) : result json :=
  match v with
  | JObj d => Ok (match lookup key d with Some x => x | None => default end)
  | _ => Raise AttributeError
  end.

(** [key in v.keys()] *)
Definition in_keys (key : string) (v : json) : result bool :=
  match v with
  | JObj d => Ok (match lookup key d with Some _ => true | None => false end)
  | _ => Raise AttributeError
  end.

(** The elements that [for x in v] visits. *)
Definition iter (v : json) : result (list json) :=
  match v with
  | JArr l => Ok l
  | JObj d => Ok (map (fun kv => JStr (fst kv)) d)
  | JStr s => Ok (map (fun c => JStr (String c EmptyString)) (Str.chars s))
  | _ => Raise TypeError
  end.

(** [len(v)] *)
Definition len (v : json) : result nat :=
  match v with
  | JArr l => Ok (length l)
  | JObj d => Ok (length d)
  | JStr s => Ok (String.length s)
  | _ => Raise TypeError
  end.

(** [s != v] for a string [s]: values of other types are never equal. *)
Definition str_ne (s : string) (v : json) : bool :=
  match v with
  | JStr s' => negb (String.eqb s s')
  | _ => true
  end.

(** [str(z)] for an [int]. *)
Definition int_str (z : Z) : string :=
  match z with
  | Z0 => "0"
  | Zpos p => NilEmpty.string_of_uint (Pos.to_uint p)
  | Zneg p => String "-"%char (NilEmpty.string_of_uint (Pos.to_uint p))
  end.

(** The number of decimal digits of an [int], and the most that Python
    converts between [int] and [str]: beyond
    [sys.get_int_max_str_digits()], 4300 unless configured otherwise, the
    conversion raises [ValueError], in either direction. *)
Definition int_digits (z : Z) : nat :=
  match z with
  | Z0 => 1
  | Zpos p | Zneg p => Decimal.nb_digits (Pos.to_uint p)
  end.

Definition max_str_digits : nat := 4300.

(** Every integer of [v] has few enough digits to be written. *)
Fixpoint within_limit (v : json) : bool :=
  match v with
  | JInt z => Nat.leb (int_digits z) max_str_digits
  | JArr l => forallb within_limit l
  | JObj d => forallb (fun kv => within_limit (snd kv)) d
  | _ => true
  end.

Definition hex_digit (n : N) : ascii :=
  if (n <? 10)%N then ascii_of_N (48 + n) else ascii_of_N (87 + n).

Definition hex2 (c : ascii) : string :=
  let n := N_of_ascii c in
  String (hex_digit (n / 16)) (String (hex_digit (n mod 16)) EmptyString).

Definition mem (c : ascii) (s : string) : bool :=
  existsb (Ascii.eqb c) (Str.chars s).

(** [str.isprintable] on the code points below 256. *)
Definition printable (c : ascii) : bool :=
  let n := N_of_ascii c in
  ((32 <=? n) && (n <? 127) || (161 <=? n) && negb (n =? 173))%N.

Fixpoint repr_chars (quote : ascii) (s : string) : string :=
  match s with
  | EmptyString => EmptyString
  | String c s' =>
      (if Ascii.eqb c quote || Ascii.eqb c "\"%char
       then String "\"%char (String c EmptyString)
       else if Ascii.eqb c "009"%char then "\t"
       else if Ascii.eqb c "010"%char then "\n"
       else if Ascii.eqb c "013"%char then "\r"
       else if printable c then String c EmptyString
       else "\x" +:+ hex2 c) +:+ repr_chars quote s'
  end.

(** [repr(s)] for a [str]: single quotes unless the text has a single
    quote and no double quote. *)
Definition repr_str (s : string) : string :=
  let quote :=
    if mem "'"%char s && negb (mem "034"%char s) then "034"%char else "'"%char in
  String quote (repr_chars quote s) +:+ String quote EmptyString.

Fixpoint repr (v : json) : string :=
  match v with
  | JNull => "None"
  | JBool true => "True"
  | JBool false => "False"
  | JInt z => int_str z
  | JStr s => repr_str s
  | JArr l => "[" +:+ Str.join ", " (map repr l) +:+ "]"
  | JObj d =>
      "{" +:+ Str.join ", "
               (map (fun kv => repr_str (fst kv) +:+ ": " +:+ repr (snd kv)) d)
          +:+ "}"
  end.

(** [str(v)], which is what an f-string field produces. *)
Definition str (v : json) : string :=
  match v with
  | JStr s => s
  | _ => repr v
  end.

(** How deep the lists and dicts of [v] are nested.  The interpreter
    stops a recursion at 1000 nested calls unless configured otherwise,
    and encoding or decoding a value takes a call for each level of
    nesting on top of those that the script is in: a value nested no
    deeper than [safe_nesting] leaves room for them. *)
Fixpoint nesting (v : json) : nat :=
  match v with
  | JArr l => S (List.list_max (map nesting l))
  | JObj d => S (List.list_max (map (fun kv => nesting (snd kv)) d))
  | _ => 0
  end.

Definition safe_nesting : nat := 900.

(** A field of an f-string: [str(v)], which raises [ValueError] when
    it has to write an integer beyond the digit limit. *)
Definition format (v : json) : result string :=
  if within_limit v then Ok (str v) else Raise ValueError.

End Py.

(** ** Global variables of the script

    [SESSION_COOKIES] is sent with every request; it is part of what the
    [network] below answers to. *)

Definition FEED_URL : string :=
  "https://home.classdojo.com/api/storyFeed?includePrivate=true".
Definition DESTINATION : string := "./classdojo_output".
Definition NUM_JOBS : nat := 10.
Definition AFTER_DATE : option string := Some "1-Jul-2018".

(** ** The Resolver: [get_name_from_url] and [get_urls] *)

(** A download task: the attachment's [path] value and the destination. *)
Definition task : Type := json * string.

Definition get_name_from_url (url : string) : string :=
  let parts := Str.split slash url in
  Str.replace hyphen underscore (Str.join "_" (Str.slice_from 3 parts)).

(** [datetime.strptime(v, fmt)] wants a [str]. *)
Definition strptime (parse : string -> result DateTime.datetime) (v : json)
  : result DateTime.datetime :=
  match v with
  | JStr s => parse s
  | _ => Raise TypeError
  end.

(** Lines 158-161: the file name of one attachment. *)
Definition attachment_filename (attachment url : json) : result string :=
  has_md ← Py.in_keys "metadata" attachment;
  has_fn ← (if has_md : bool
            then md ← Py.getitem attachment "metadata"; Py.in_keys "filename" md
            else Ok false);
  if has_fn : bool then
    md ← Py.getitem attachment "metadata";
    filename ← Py.getitem md "filename";
    Py.format filename
  else
    match url with
    | JStr u => Ok (get_name_from_url u)
    | _ => Raise AttributeError
    end.

(** Lines 156-163: the task of one attachment. *)
Definition attachment_task (dest group dt_str : string) (attachment : json)
  : result task :=
  url ← Py.getitem attachment "path";
  filename ← attachment_filename attachment url;
  Ok (url, dest +:+ "/" +:+ group +:+ "/" +:+ dt_str +:+ "-" +:+ filename).

(** Line 155: the loop over the attachments, appending to [urls]. *)
Fixpoint for_attachments (dest group dt_str : string)
    (attachments : list json) (urls : list task) : result (list task) :=
  match attachments with
  | [] => Ok urls
  | attachment :: rest =>
      t ← attachment_task dest group dt_str attachment;
      for_attachments dest group dt_str rest (urls ++ [t])
  end.

(** Line 151: [not after_date or (dt_item > dt)]; [dt] is [None] exactly
    when [after_date] is false. *)
Definition passes (dt : option DateTime.datetime) (dt_item : DateTime.datetime) : bool :=
  match dt with
  | None => true
  | Some d => DateTime.gt dt_item d
  end.

(** Lines 153-163: what a kept item adds to [urls]. *)
Definition keep_item (dest dt_str : string) (item : json) (urls : list task)
  : result (list task) :=
  contents ← Py.getitem item "contents";
  attachments ← Py.get contents "attachments" (JObj []);
  if Py.truthy attachments then
    header ← Py.getitem item "headerSubtext";
    group ← match header with
            | JStr h => Ok (Str.replace slash underscore h)
            | _ => Raise AttributeError
            end;
    elements ← Py.iter attachments;
    for_attachments dest group dt_str elements urls
  else Ok urls.

(** Lines 148-163: the body of the loop over the items. *)
Definition item_step (dest : string) (dt : option DateTime.datetime) (item : json)
    (urls : list task) : result (list task) :=
  time ← Py.getitem item "time";
  dt_item ← strptime DateTime.strptime_item time;
  let dt_str := DateTime.strftime_mdY dt_item in
  if passes dt dt_item then keep_item dest dt_str item urls else Ok urls.

Fixpoint for_items (dest : string) (dt : option DateTime.datetime) (items : list json)
    (urls : list task) : result (list task) :=
  match items with
  | [] => Ok urls
  | item :: rest =>
      urls' ← item_step dest dt item urls;
      for_items dest dt rest urls'
  end.

(** Lines 144-145: the cutoff is parsed only when [after_date] is true,
    that is neither [None] nor the empty string. *)
Definition parse_after_date (after_date : option string)
  : result (option DateTime.datetime) :=
  match after_date with
  | None => Ok None
  | Some EmptyString => Ok None
  | Some s => d ← DateTime.strptime_cutoff s; Ok (Some d)
  end.

(** [get_urls], with the global [DESTINATION] as the parameter [dest]. *)
Definition get_urls_to (dest : string) (items : json)
    (after_date : option string) : result (list task) :=
  dt ← parse_after_date after_date;
  elements ← Py.iter items;
  for_items dest dt elements [].

Definition get_urls : json -> option string -> result (list task) :=
  get_urls_to DESTINATION.

(** ** The [json] module: [dumps(obj, indent=4)] and [loads]

    [dumps] is the pure-Python encoder with [ensure_ascii] and the
    separators [","] and [": "] that [indent] selects; [loads] is the
    scanner with [strict] strings.  Number literals with a fraction or an
    exponent, [NaN] and [Infinity], and escapes of code points above 255
    are outside the model and reported as [Unsupported]. *)

Module Json.

Definition quote : ascii := "034"%char.
Definition backslash : ascii := "\"%char.
Definition newline : ascii := "010"%char.

(** *** Encoder *)

(** [ESCAPE_ASCII]: everything outside [' '..'~'], the quote and the
    backslash. *)
Definition escape (c : ascii) : string :=
  let n := N_of_ascii c in
  if Ascii.eqb c quote then String backslash (String quote EmptyString)
  else if Ascii.eqb c backslash then String backslash (String backslash EmptyString)
  else if (n =? 10)%N then "\n"
  else if (n =? 13)%N then "\r"
  else if (n =? 9)%N then "\t"
  else if (n =? 12)%N then "\f"
  else if (n =? 8)%N then "\b"
  else if ((32 <=? n) && (n <=? 126))%N then String c EmptyString
  else "\u00" +:+ Py.hex2 c.

Fixpoint encode_chars (s : string) : string :=
  match s with
  | EmptyString => EmptyString
  | String c s' => escape c +:+ encode_chars s'
  end.

Definition encode_string (s : string) : string :=
  String quote (encode_chars s +:+ String quote EmptyString).

Fixpoint spaces (n : nat) : string :=
  match n with
  | O => EmptyString
  | S n' => String " "%char (spaces n')
  end.

(** ['\n' + _indent * _current_indent_level] *)
Definition newline_indent (level : nat) : string :=
  String newline (spaces (4 * level)).

(** The elements after the first: separator, element, ..., then the
    closing text. *)
Fixpoint encode_rest {A} (enc : A -> string) (sep close : string)
    (xs : list A) : string :=
  match xs with
  | [] => close
  | x :: xs' => sep +:+ enc x +:+ encode_rest enc sep close xs'
  end.

Definition encode_member (enc : json -> string) (kv : string * json) : string :=
  encode_string (fst kv) +:+ ": " +:+ enc (snd kv).

Fixpoint encode (level : nat) (v : json) : string :=
  match v with
  | JNull => "null"
  | JBool true => "true"
  | JBool false => "false"
  | JInt z => Py.int_str z
  | JStr s => encode_string s
  | JArr [] => "[]"
  | JArr (x :: xs) =>
      "[" +:+ newline_indent (S level) +:+ encode (S level) x
          +:+ encode_rest (encode (S level))
                ("," +:+ newline_indent (S level))
                (newline_indent level +:+ "]") xs
  | JObj [] => "{}"
  | JObj (kv :: kvs) =>
      "{" +:+ newline_indent (S level) +:+ encode_member (encode (S level)) kv
          +:+ encode_rest (encode_member (encode (S level)))
                ("," +:+ newline_indent (S level))
                (newline_indent level +:+ "}") kvs
  end.

(** The text that [dumps(v, indent=4)] returns, when it returns. *)
Definition dumps (v : json) : string := encode 0 v.

(** [dumps(v, indent=4)]: the encoder writes an integer with
    [int.__repr__], which raises [ValueError] beyond the digit limit. *)
Definition try_dumps (v : json) : result string :=
  if Py.within_limit v then Ok (dumps v) else Raise ValueError.

(** *** Decoder *)

Definition is_ws (c : ascii) : bool :=
  let n := N_of_ascii c in
  ((n =? 32) || (n =? 9) || (n =? 10) || (n =? 13))%N.

Fixpoint skip_ws (s : string) : string :=
  match s with
  | String c r => if is_ws c then skip_ws r else s
  | EmptyString => EmptyString
  end.

Definition hex_val (c : ascii) : option N :=
  let n := N_of_ascii c in
  if ((48 <=? n) && (n <=? 57))%N then Some (n - 48)%N
  else if ((97 <=? n) && (n <=? 102))%N then Some (n - 87)%N
  else if ((65 <=? n) && (n <=? 70))%N then Some (n - 55)%N
  else None.

(** The four hexadecimal digits of a [\u] escape. *)
Definition hex4 (a b c d : ascii) : result ascii :=
  match hex_val a, hex_val b, hex_val c, hex_val d with
  | Some x, Some y, Some z, Some w =>
      let code := (((x * 16 + y) * 16 + z) * 16 + w)%N in
      if (code <? 256)%N then Ok (ascii_of_N code) else Raise Unsupported
  | _, _, _, _ => Raise JSONDecodeError
  end.

(** [BACKSLASH] *)
Definition unescape (e : ascii) : option ascii :=
  if Ascii.eqb e quote then Some quote
  else if Ascii.eqb e backslash then Some backslash
  else if Ascii.eqb e "/"%char then Some "/"%char
  else if Ascii.eqb e "b"%char then Some "008"%char
  else if Ascii.eqb e "f"%char then Some "012"%char
  else if Ascii.eqb e "n"%char then Some "010"%char
  else if Ascii.eqb e "r"%char then Some "013"%char
  else if Ascii.eqb e "t"%char then Some "009"%char
  else None.

Definition cons_char (c : ascii) (r : result (string * string))
  : result (string * string) :=
  '(t, rest) ← r; Ok (String c t, rest).

(** [scanstring] from just after the opening quote: the text and what
    follows the closing quote. *)
Fixpoint scan_string (s : string) : result (string * string) :=
  match s with
  | EmptyString => Raise JSONDecodeError
  | String c r =>
      if Ascii.eqb c quote then Ok (EmptyString, r)
      else if Ascii.eqb c backslash then
        match r with
        | EmptyString => Raise JSONDecodeError
        | String e r' =>
            if Ascii.eqb e "u"%char then
              match r' with
              | String h1 (String h2 (String h3 (String h4 r''))) =>
                  match hex4 h1 h2 h3 h4 with
                  | Ok ch => cons_char ch (scan_string r'')
                  | Raise err => Raise err
                  end
              | _ => Raise JSONDecodeError
              end
            else
              match unescape e with
              | Some ch => cons_char ch (scan_string r')
              | None => Raise JSONDecodeError
              end
        end
      else if (N_of_ascii c <? 32)%N then Raise JSONDecodeError
      else cons_char c (scan_string r)
  end.

Definition digit_cons (c : ascii) : option (uint -> uint) :=
  if Ascii.eqb c "0"%char then Some D0
  else if Ascii.eqb c "1"%char then Some D1
  else if Ascii.eqb c "2"%char then Some D2
  else if Ascii.eqb c "3"%char then Some D3
  else if Ascii.eqb c "4"%char then Some D4
  else if Ascii.eqb c "5"%char then Some D5
  else if Ascii.eqb c "6"%char then Some D6
  else if Ascii.eqb c "7"%char then Some D7
  else if Ascii.eqb c "8"%char then Some D8
  else if Ascii.eqb c "9"%char then Some D9
  else None.

Definition is_digit (c : ascii) : bool :=
  match digit_cons c with Some _ => true | None => false end.

(** [\d*] *)
Fixpoint scan_digits (s : string) : uint * string :=
  match s with
  | String c r =>
      match digit_cons c with
      | Some d => let '(u, rest) := scan_digits r in (d u, rest)
      | None => (Nil, s)
      end
  | EmptyString => (Nil, EmptyString)
  end.

(** [0|[1-9]\d*] *)
Definition scan_int (s : string) : option (uint * string) :=
  match s with
  | String c r =>
      if Ascii.eqb c "0"%char then Some (D0 Nil, r)
      else if is_digit c then Some (scan_digits s)
      else None
  | EmptyString => None
  end.

Definition starts_digit (s : string) : bool :=
  match s with String c _ => is_digit c | EmptyString => false end.

(** Whether [(\.\d+)?([eE][-+]?\d+)?] matches something: the literal is
    then a float. *)
Definition float_tail (s : string) : bool :=
  match s with
  | String c r =>
      if Ascii.eqb c "."%char then starts_digit r
      else if Ascii.eqb c "e"%char || Ascii.eqb c "E"%char then
        match r with
        | String sg r' =>
            if Ascii.eqb sg "-"%char || Ascii.eqb sg "+"%char
            then starts_digit r' else is_digit sg
        | EmptyString => false
        end
      else false
  | EmptyString => false
  end.

(** [NUMBER_RE] at the head of [s]; [None] when it does not match.  An
    integer literal is converted with [int], which raises [ValueError]
    when it has more digits than the limit. *)
Definition scan_number (s : string) : option (result (json * string)) :=
  let '(negative, digits) :=
    match s with
    | String c r => if Ascii.eqb c "-"%char then (true, r) else (false, s)
    | EmptyString => (false, s)
    end in
  match scan_int digits with
  | None => None
  | Some (u, rest) =>
      Some (if float_tail rest then Raise Unsupported
            else if Nat.ltb Py.max_str_digits (Decimal.nb_digits u)
            then Raise ValueError
            else let n := Z.of_N (N.of_uint u) in
                 Ok (JInt (if negative : bool then - n else n), rest))
  end.

(** [s.startswith(prefix)], returning the remainder. *)
Fixpoint strip_prefix (prefix s : string) : option string :=
  match prefix, s with
  | EmptyString, _ => Some s
  | String p prefix', String c s' =>
      if Ascii.eqb p c then strip_prefix prefix' s' else None
  | String _ _, EmptyString => None
  end.

(** The scalar branches of [_scan_once]. *)
Definition scan_scalar (s : string) : result (json * string) :=
  match strip_prefix "null" s with
  | Some r => Ok (JNull, r)
  | None =>
  match strip_prefix "true" s with
  | Some r => Ok (JBool true, r)
  | None =>
  match strip_prefix "false" s with
  | Some r => Ok (JBool false, r)
  | None =>
  match scan_number s with
  | Some r => r
  | None =>
      match strip_prefix "NaN" s, strip_prefix "Infinity" s,
            strip_prefix "-Infinity" s with
      | None, None, None => Raise JSONDecodeError
      | _, _, _ => Raise Unsupported
      end
  end end end end.

(** [dict(pairs)] *)
Definition dict (pairs : list (string * json)) : list (string * json) :=
  fold_left (fun d kv => Py.setitem (fst kv) (snd kv) d) pairs [].

(** [_scan_once], [JSONArray] and [JSONObject]; [fuel] bounds the number
    of nested calls and of elements, and running out of it is reported as
    [RecursionError]. *)
Fixpoint scan_once (fuel : nat) (s : string) {struct fuel}
  : result (json * string) :=
  match fuel with
  | O => Raise RecursionError
  | S fuel' =>
      match s with
      | EmptyString => Raise JSONDecodeError
      | String c r =>
          if Ascii.eqb c quote then
            '(t, rest) ← scan_string r; Ok (JStr t, rest)
          else if Ascii.eqb c "{"%char then
            match skip_ws r with
            | String c' r' =>
                if Ascii.eqb c' "}"%char then Ok (JObj [], r')
                else if Ascii.eqb c' quote then scan_members fuel' [] r'
                else Raise JSONDecodeError
            | EmptyString => Raise JSONDecodeError
            end
          else if Ascii.eqb c "["%char then
            match skip_ws r with
            | String c' r' =>
                if Ascii.eqb c' "]"%char then Ok (JArr [], r')
                else scan_elements fuel' [] (String c' r')
            | EmptyString => Raise JSONDecodeError
            end
          else scan_scalar s
      end
  end

with scan_elements (fuel : nat) (values : list json) (s : string)
    {struct fuel} : result (json * string) :=
  match fuel with
  | O => Raise RecursionError
  | S fuel' =>
      '(v, rest) ← scan_once fuel' s;
      match skip_ws rest with
      | String c r =>
          if Ascii.eqb c "]"%char then Ok (JArr (values ++ [v]), r)
          else if Ascii.eqb c ","%char
          then scan_elements fuel' (values ++ [v]) (skip_ws r)
          else Raise JSONDecodeError
      | EmptyString => Raise JSONDecodeError
      end
  end

(** [s] starts just after the opening quote of the next key. *)
with scan_members (fuel : nat) (pairs : list (string * json)) (s : string)
    {struct fuel} : result (json * string) :=
  match fuel with
  | O => Raise RecursionError
  | S fuel' =>
      '(key, rest) ← scan_string s;
      match skip_ws rest with
      | String c r =>
          if Ascii.eqb c ":"%char then
            '(v, rest') ← scan_once fuel' (skip_ws r);
            match skip_ws rest' with
            | String c' r' =>
                if Ascii.eqb c' "}"%char
                then Ok (JObj (dict (pairs ++ [(key, v)])), r')
                else if Ascii.eqb c' ","%char then
                  match skip_ws r' with
                  | String c'' r'' =>
                      if Ascii.eqb c'' quote
                      then scan_members fuel' (pairs ++ [(key, v)]) r''
                      else Raise JSONDecodeError
                  | EmptyString => Raise JSONDecodeError
                  end
                else Raise JSONDecodeError
            | EmptyString => Raise JSONDecodeError
            end
          else Raise JSONDecodeError
      | EmptyString => Raise JSONDecodeError
      end
  end.

(** [JSONDecoder.decode]: leading white space, one value, trailing
    white space, nothing else. *)
Definition loads (s : string) : result json :=
  '(v, rest) ← scan_once (S (2 * String.length s)) (skip_ws s);
  match skip_ws rest with
  | EmptyString => Ok v
  | String _ _ => Raise JSONDecodeError
  end.

(** *** Notions for the decoding proof *)

(** What may follow an encoded value: nothing, a comma or a line break. *)
Definition delimited (rest : string) : bool :=
  match rest with
  | EmptyString => true
  | String c _ => Ascii.eqb c ","%char || Ascii.eqb c newline
  end.

(** Fuel that decoding the encoded value needs: one unit per value and
    per element. *)
Fixpoint cost (j : json) : nat :=
  match j with
  | JArr l => S (sum_list (map (fun x => S (cost x)) l))
  | JObj d => S (sum_list (map (fun kv => S (cost (snd kv))) d))
  | _ => 1
  end.

Definition decodes (j : json) : Prop :=
  forall (level fuel : nat) (rest : string),
    (cost j <= fuel)%nat -> delimited rest = true ->
    scan_once fuel (encode level j +:+ rest) = Ok (j, rest).

End Json.

(** ** The outside world

    [body u] is the JSON document that the response to
    [requests.get(u, cookies=...)] carries and [content u] the bytes of
    that response, or the exception that the request raises (or, for
    [body], the decoding of a response that holds no JSON document);
    [api u] is what [resp.json()] evaluates to.  The world records, in
    order, the strings with which [requests.get] was called, and the
    regular files by path; directories are implicit, so the
    [mkdir(parents=True, exist_ok=True)] calls leave it unchanged, and a
    [Path] is the string it was built from. *)

Record network : Type := {
  body : string -> result json;
  content : string -> result string
}.

(** [resp.json()]: the decoder converts every integer literal with
    [int], so a document holding an integer beyond the digit limit makes
    it raise [ValueError]; what it returns is within the limit. *)
Definition api (net : network) (u : string) : result json :=
  data ← body net u;
  if Py.within_limit data then Ok data else Raise ValueError.

Record world : Type := {
  requests : list string;
  files : gmap string string
}.

Definition log_request (u : string) (w : world) : world :=
  {| requests := requests w ++ [u]; files := files w |}.

Definition write_file (filename text : string) (w : world) : world :=
  {| requests := requests w; files := <[filename := text]> (files w) |}.

(** ** Snapshot: [save_json] and [load_json] *)

(** Lines 68-69: the file is opened for writing, hence created or
    truncated, before [json.dumps] runs; when that raises, the file is
    left empty. *)
Definition save_json (json_content : json) (filename : string) (w : world)
  : result unit * world :=
  let w1 := write_file filename EmptyString w in
  match Json.try_dumps json_content with
  | Ok text => (Ok tt, write_file filename text w1)
  | Raise e => (Raise e, w1)
  end.

Definition load_json (filename : string) (w : world) : result json :=
  match files w !! filename with
  | Some text => Json.loads text
  | None => Raise FileNotFoundError
  end.

(** ** The Traverser: [get_items] and [scrape] *)

(** Lines 101-105 on the decoded body. *)
Definition page (data : json) : result (json * json) :=
  links ← Py.get data "_links" (JObj []);
  prev_link ← Py.get links "prev" (JObj []);
  prev ← Py.get prev_link "href" JNull;
  items ← Py.getitem data "_items";
  Ok (items, prev).

(** Lines 97-105.  The call [requests.get(url, ...)] with a string is
    recorded, whatever comes of it (for a string that is no URL, [body]
    is the exception that [requests] raises before it sends anything);
    a cursor that is not a string never makes a URL: the call raises. *)
Definition get_items (net : network) (url : json) (w : world)
  : result (json * json) * world :=
  match url with
  | JStr u =>
      let w' := log_request u w in
      match api net u with
      | Ok data => (page data, w')
      | Raise e => (Raise e, w')
      end
  | _ => (Raise RequestException, w)
  end.

(** [items.extend(new_items)] *)
Definition extend (items new_items : json) : result json :=
  match items with
  | JArr l => elements ← Py.iter new_items; Ok (JArr (l ++ elements))
  | _ => Raise AttributeError
  end.

(** Line 121: [prev and feed_url != prev] *)
Definition follows (feed_url : string) (prev : json) : bool :=
  Py.truthy prev && Py.str_ne feed_url prev.

(** Lines 121-123; [None] when [fuel] iterations were not enough. *)
Fixpoint scrape_loop (fuel : nat) (net : network) (feed_url : string)
    (items prev : json) (w : world) : option (result json * world) :=
  if follows feed_url prev then
    match fuel with
    | O => None
    | S fuel' =>
        match get_items net prev w with
        | (Ok (new_items, prev'), w') =>
            match extend items new_items with
            | Ok items' => scrape_loop fuel' net feed_url items' prev' w'
            | Raise e => Some (Raise e, w')
            end
        | (Raise e, w') => Some (Raise e, w')
        end
    end
  else Some (Ok items, w).

Definition scrape (fuel : nat) (net : network) (feed_url filename : string)
    (w : world) : option (result json * world) :=
  match get_items net (JStr feed_url) w with
  | (Ok (items, prev), w') =>
      match scrape_loop fuel net feed_url items prev w' with
      | Some (Ok items', w'') =>
          match save_json items' filename w'' with
          | (Ok _, w''') => Some (Ok items', w''')
          | (Raise e, w''') => Some (Raise e, w''')
          end
      | other => other
      end
  | (Raise e, w') => Some (Raise e, w')
  end.

(** ** The Downloader: [download] and [download_urls] *)

(** Lines 214-218: the file is opened for writing, hence created or
    truncated, before the request is made. *)
Definition download (net : network) (url : json) (filename : string)
    (w : world) : result unit * world :=
  let w1 := write_file filename EmptyString w in
  match url with
  | JStr u =>
      let w2 := log_request u w1 in
      match content net u with
      | Ok body => (Ok tt, write_file filename body w2)
      | Raise e => (Raise e, w2)
      end
  | _ => (Raise RequestException, w1)
  end.

(** The [tqdm] bar: the count and the total. *)
Record pbar : Type := { n : nat; total : nat }.

Definition update (k : nat) (bar : pbar) : pbar :=
  {| n := n bar + k; total := total bar |}.

(** The state of [download_urls]: the world, the bar, the counts the bar
    has shown so far and the outcome stored in each finished future. *)
Record pool_state : Type := {
  pool_world : world;
  bar : pbar;
  shown : list nat;
  outcomes : list (nat * result unit)
}.

(** Lines 194-198.  The pool finishes the submitted futures in some order
    [completion], a list of positions in [urls]; each download is taken to
    run to its end once it is started.  The loop over [as_completed] only
    updates the bar: the outcome of a future is never read. *)
Fixpoint as_completed (net : network) (urls : list task)
    (completion : list nat) (st : pool_state) : pool_state :=
  match completion with
  | [] => st
  | i :: rest =>
      match urls !! i with
      | Some (url, filename) =>
          let '(outcome, w') := download net url filename (pool_world st) in
          let bar' := update 1 (bar st) in
          as_completed net urls rest
            {| pool_world := w'; bar := bar';
               shown := shown st ++ [n bar'];
               outcomes := outcomes st ++ [(i, outcome)] |}
      | None => as_completed net urls rest st
      end
  end.

Definition download_urls (net : network) (urls : list task)
    (completion : list nat) (w : world) : pool_state :=
  let bar0 := {| n := 0; total := length urls |} in
  as_completed net urls completion
    {| pool_world := w; bar := bar0; shown := [n bar0]; outcomes := [] |}.

(** ** Notions used to state the properties *)

(** The parsed timestamp of an item (lines 149). *)
Definition item_time (item : json) : result DateTime.datetime :=
  time ← Py.getitem item "time";
  strptime DateTime.strptime_item time.

(** An item is later than [dt]: its timestamp parses and is strictly
    greater. *)
Definition later_than (dt : DateTime.datetime) (item : json) : bool :=
  match item_time item with
  | Ok t => DateTime.gt t dt
  | Raise _ => false
  end.

(** The tasks of one item that is kept. *)
Definition item_tasks (dest : string) (item : json) : result (list task) :=
  dt_item ← item_time item;
  keep_item dest (DateTime.strftime_mdY dt_item) item [].

(** The tasks of a list of kept items, item after item. *)
Fixpoint collect (dest : string) (kept : list json) : result (list task) :=
  match kept with
  | [] => Ok []
  | item :: rest =>
      ts ← item_tasks dest item;
      more ← collect dest rest;
      Ok (ts ++ more)
  end.

(** [cursor net feed_url k]: the cursor in hand after [k] pages of the
    chain that starts at [feed_url] were fetched. *)
Fixpoint cursor (net : network) (feed_url : string) (k : nat) : result json :=
  match k with
  | O => Ok (JStr feed_url)
  | S k' =>
      c ← cursor net feed_url k';
      match c with
      | JStr u => data ← api net u; '(_, prev) ← page data; Ok prev
      | _ => Raise RequestException
      end
  end.

(** [walk net feed_url prev urls pages]: from the cursor [prev] the loop
    of [scrape] fetches the pages at [urls], whose item arrays are
    [pages], and then stops. *)
Inductive walk (net : network) (feed_url : string)
  : json -> list string -> list (list json) -> Prop :=
| walk_stop prev :
    follows feed_url prev = false ->
    walk net feed_url prev [] []
| walk_step u data l prev urls pages :
    follows feed_url (JStr u) = true ->
    api net u = Ok data ->
    page data = Ok (JArr l, prev) ->
    walk net feed_url prev urls pages ->
    walk net feed_url (JStr u) (u :: urls) (l :: pages).

(** The cursor chain from [feed_url] ends at hop [k]: the cursor in hand
    after [k] pages is absent or null, or is the first URL again, and the
    cursors before it are URLs other than the first. *)
Definition chain_ends_at (net : network) (feed_url : string) (k : nat) : Prop :=
  (cursor net feed_url k = Ok JNull
   \/ cursor net feed_url k = Ok (JStr feed_url))
  /\ forall j : nat,
       (1 <= j < k)%nat ->
       exists u, cursor net feed_url j = Ok (JStr u)
                 /\ u <> EmptyString /\ u <> feed_url.

(** A response without cursor: [_links], [_links.prev] or
    [_links.prev.href] is absent. *)
Definition no_cursor (d : list (string * json)) : Prop :=
  Py.lookup "_links" d = None
  \/ exists links, Py.lookup "_links" d = Some (JObj links)
       /\ (Py.lookup "prev" links = None
           \/ exists prev_link, Py.lookup "prev" links = Some (JObj prev_link)
                /\ Py.lookup "href" prev_link = None).

(** Whether the loop keeps an item whose timestamp parses. *)
Definition kept (dt : option DateTime.datetime) (item : json) : bool :=
  match item_time item with
  | Ok t => passes dt t
  | Raise _ => false
  end.

(** The request that a finished task has made: one for a string URL, none
    for anything else. *)
Definition request_of (urls : list task) (i : nat) : option string :=
  match urls !! i with
  | Some (JStr u, _) => Some u
  | _ => None
  end.

(** An attachment resolves to the pair [name] of its [path] value and its
    file name. *)
Definition resolves (attachment : json) (name : json * string) : Prop :=
  Py.getitem attachment "path" = Ok (fst name)
  /\ attachment_filename attachment (fst name) = Ok (snd name).

(** [<dest>/<group>/<date>-<filename>] *)
Definition destination (dest group date filename : string) : string :=
  dest +:+ "/" +:+ group +:+ "/" +:+ date +:+ "-" +:+ filename.

(** The page at [u] decodes and [extend] adds the elements [l] for it. *)
Definition fetched_page (net : network) (u : string) (l : list json) : Prop :=
  exists data new_items prev,
    api net u = Ok data /\ page data = Ok (new_items, prev)
    /\ Py.iter new_items = Ok l.

(** The response has no [_items] key. *)
Definition lacks_items (data : json) : Prop :=
  forall fields, data = JObj fields -> Py.lookup "_items" fields = None.

(** ** Example data *)

Definition photo_url : string := "https://host/bucket/x/y/photo-1.jpg".

Definition attachment_plain (path : string) : json :=
  JObj [("path", JStr path)].

Definition attachment_named (path filename : string) : json :=
  JObj [("path", JStr path); ("metadata", JObj [("filename", JStr filename)])].

Definition feed_item (time header : string) (attachments : list json) : json :=
  JObj [("time", JStr time); ("headerSubtext", JStr header);
        ("contents", JObj [("attachments", JArr attachments)])].

Definition item_2018_01 : json :=
  feed_item "2018-01-01T00:00:00.000Z" "A" [attachment_named "https://h/b/a" "a.jpg"].
Definition item_2018_08 : json :=
  feed_item "2018-08-01T00:00:00.000Z" "A" [attachment_named "https://h/b/b" "b.jpg"].
Definition item_2019_01 : json :=
  feed_item "2019-01-01T00:00:00.000Z" "A" [attachment_named "https://h/b/c" "c.jpg"].

Definition item_two_photos : json :=
  feed_item "2018-09-01T10:00:00.000Z" "A"
    [attachment_named "https://h/b/p" "same.jpg";
     attachment_named "https://h/b/q" "same.jpg"].

Definition item_at_cutoff : json :=
  feed_item "2018-07-01T00:00:00.000000Z" "A" [attachment_plain "https://h/b/a"].

(** The integer written as 1 followed by 4300 zeros, and an item that
    carries it in a field of its own. *)
Definition oversized : Z :=
  Z.of_N (N.of_uint (Decimal.D1 (Nat.iter 4300 Decimal.D0 Decimal.Nil))).

Definition item_oversized : json :=
  JObj [("views", JInt oversized);
        ("time", JStr "2019-01-01T00:00:00.000Z");
        ("headerSubtext", JStr "A");
        ("contents",
         JObj [("attachments", JArr [attachment_named "https://h/b/c" "c.jpg"])])].

Definition empty_world : world := {| requests := []; files := ∅ |}.

Definition net_circular : network := {|
  body := fun u =>
    if String.eqb u "A" then
      Ok (JObj [("_items", JArr [JInt 1]);
                ("_links", JObj [("prev", JObj [("href", JStr "B")])])])
    else if String.eqb u "B" then
      Ok (JObj [("_items", JArr [JInt 2; JInt 3]);
                ("_links", JObj [("prev", JObj [("href", JStr "A")])])])
    else Raise RequestException;
  content := fun _ => Raise RequestException
|}.

Definition net_down : network := {|
  body := fun _ => Raise RequestException;
  content := fun _ => Raise RequestException
|}.

Definition net_empty_object : network := {|
  body := fun _ => Ok (JObj []);
  content := fun _ => Raise RequestException
|}.

Definition net_single : network := {|
  body := fun _ => Ok (JObj [("_items", JArr [JInt 1])]);
  content := fun _ => Raise RequestException
|}.

Definition net_null_links : network := {|
  body := fun _ => Ok (JObj [("_items", JArr [JInt 1]); ("_links", JNull)]);
  content := fun _ => Raise RequestException
|}.

Definition net_stuck : network := {|
  body := fun u =>
    if String.eqb u "A" then
      Ok (JObj [("_items", JArr [JInt 1]);
                ("_links", JObj [("prev", JObj [("href", JStr "B")])])])
    else
      Ok (JObj [("_items", JArr [JInt 2]);
                ("_links", JObj [("prev", JObj [("href", JStr "B")])])]);
  content := fun _ => Raise RequestException
|}.

Definition old_world : world :=
  {| requests := []; files := {["data.json" := "[]"]} |}.

Definition net_photos : network := {|
  body := fun _ => Raise RequestException;
  content := fun u =>
    if String.eqb u "p" then Ok "P"
    else if String.eqb u "q" then Ok "Q"
    else Raise RequestException
|}.

Definition two_tasks : list task :=
  [(JStr "p", "out/A/a.jpg"); (JStr "q", "out/A/b.jpg")].

Definition net_dict_items : network := {|
  body := fun _ =>
    Ok (JObj [("_items", JObj [("a", JInt 1)]);
              ("_links", JObj [("prev", JObj [("href", JStr "B")])])]);
  content := fun _ => Raise RequestException
|}.

Definition net_numeric_cursor : network := {|
  body := fun _ =>
    Ok (JObj [("_items", JArr [JInt 1]);
              ("_links", JObj [("prev", JObj [("href", JInt 5)])])]);
  content := fun _ => Raise RequestException
|}.

(** ** [main] *)

(** [input(...).upper() == 'N']: [n] and [N] are the only strings whose
    upper case is [N]. *)
Definition answers_no (answer : string) : bool :=
  String.eqb answer "N" || String.eqb answer "n".

Definition file_exists (filename : string) (w : world) : bool :=
  match files w !! filename with
  | Some _ => true
  | None => false
  end.

(** Lines 220-234.  [answer] is what the operator types at the prompt,
    which is shown only when the snapshot exists; [schedule] is the order
    in which the pool finishes the futures of a task list. *)
Definition main (fuel : nat) (net : network) (answer : string)
    (schedule : list task -> list nat) (w : world)
  : option (result unit * world) :=
  let data_file := DESTINATION +:+ "/data.json" in
  let loaded :=
    if file_exists data_file w && answers_no answer
    then Some (load_json data_file w, w)
    else scrape fuel net FEED_URL data_file w in
  match loaded with
  | None => None
  | Some (Raise e, w') => Some (Raise e, w')
  | Some (Ok items, w') =>
      match get_urls items AFTER_DATE with
      | Raise e => Some (Raise e, w')
      | Ok urls =>
          Some (Ok tt, pool_world (download_urls net urls (schedule urls) w'))
      end
  end.

(** ** Further notions *)

(** The number of occurrences of [c] in [s]. *)
Fixpoint count_char (c : ascii) (s : string) : nat :=
  match s with
  | EmptyString => 0
  | String c' s' => (if Ascii.eqb c' c then 1 else 0) + count_char c s'
  end.

(** The attachments that the loop of [get_urls] visits for an item: the
    elements of [contents.attachments] when that value is true. *)
Definition attachment_elements (item : json) : list json :=
  match Py.getitem item "contents" with
  | Ok contents =>
      match Py.get contents "attachments" (JObj []) with
      | Ok attachments =>
          if Py.truthy attachments then
            match Py.iter attachments with
            | Ok elements => elements
            | Raise _ => []
            end
          else []
      | Raise _ => []
      end
  | Raise _ => []
  end.

(** The [path] values of a list of attachments. *)
Definition paths_of (attachments : list json) : list json :=
  omap (fun a => match Py.getitem a "path" with
                 | Ok url => Some url
                 | Raise _ => None
                 end) attachments.

Definition is_dict (v : json) : bool :=
  match v with
  | JObj _ => true
  | _ => false
  end.

Definition is_list (v : json) : bool :=
  match v with
  | JArr _ => true
  | _ => false
  end.

(** What a finished download leaves in its destination file: the body of
    the response, or nothing when the request failed. *)
Definition written (net : network) (url : json) : string :=
  match url with
  | JStr u =>
      match content net u with
      | Ok body => body
      | Raise _ => EmptyString
      end
  | _ => EmptyString
  end.

(** The destination of the task at position [i]. *)
Definition destination_of (urls : list task) (i : nat) : option string :=
  snd <$> urls !! i.

(** The cursor chain from [feed_url] never stops: after any number of
    pages the cursor in hand is a URL, its page carries an item list, and
    the cursor of that page is followed. *)
Definition endless (net : network) (feed_url : string) : Prop :=
  forall k : nat,
    exists (u : string) (data : json) (l : list json) (prev : json),
      cursor net feed_url k = Ok (JStr u)
      /\ api net u = Ok data
      /\ page data = Ok (JArr l, prev)
      /\ follows feed_url prev = true.

(** Which file a destination names.  [Path] splits the text at the
    separators and drops the empty components and the [.] components; a
    file system may besides take upper and lower case for the same, and
    it resolves a [..] component.  [file_key] is the list of the
    components that remain, case folded, the backslash counted as a
    separator as some systems have it; [climbs] tells whether a
    component is [..]. *)
Definition path_components (p : string) : list string :=
  Str.split slash (Str.replace "\"%char slash p).

Definition fold_case_char (c : ascii) : ascii :=
  let n := N_of_ascii c in
  if ((65 <=? n) && (n <=? 90)
      || (192 <=? n) && (n <=? 222) && negb (n =? 215))%N
  then ascii_of_N (n + 32) else c.

Fixpoint fold_case (s : string) : string :=
  match s with
  | EmptyString => EmptyString
  | String c r => String (fold_case_char c) (fold_case r)
  end.

Definition file_key (p : string) : list string :=
  map fold_case
    (List.filter (fun c => negb (String.eqb c EmptyString)
                           && negb (String.eqb c "."))
       (path_components p)).

Definition climbs (p : string) : bool :=
  existsb (String.eqb "..") (path_components p).

(** The files once the task at position [i] has finished, and once the
    tasks at the positions [completion] have finished in that order. *)
Definition finish_task (net : network) (urls : list task)
    (fs : gmap string string) (i : nat) : gmap string string :=
  match urls !! i with
  | Some (url, filename) => <[filename := written net url]> fs
  | None => fs
  end.

Fixpoint settle (net : network) (urls : list task) (completion : list nat)
    (fs : gmap string string) : gmap string string :=
  match completion with
  | [] => fs
  | i :: rest => settle net urls rest (finish_task net urls fs i)
  end.

(** The snapshot file of [main]. *)
Definition data_file : string := DESTINATION +:+ "/data.json".

(** A text of white space only. *)
Definition blank (text : string) : bool :=
  forallb Json.is_ws (Str.chars text).

(** A world whose snapshot holds one item with one attachment. *)
Definition snapshot_world : world :=
  {| requests := [];
     files := {[data_file := Json.dumps (JArr [item_2019_01])]} |}.

(** [p] matches at the head of [s], first of all its alternatives, with
    the value [a] and the rest [r]. *)
Definition first_match {A} (p : DateTime.rx A) (s : string) (a : A) (r : string)
  : Prop :=
  exists more, p s = (a, r) :: more.

(** The text [YYYY-MM-DDTHH:MM:SS.f..fZ] of a date-time, with [k] digits
    for the fraction of the second. *)
Definition iso (k : nat) (d : DateTime.datetime) : string :=
  DateTime.pad 4 (DateTime.year d) +:+ "-"
  +:+ DateTime.pad 2 (DateTime.month d) +:+ "-"
  +:+ DateTime.pad 2 (DateTime.day d) +:+ "T"
  +:+ DateTime.pad 2 (DateTime.hour d) +:+ ":"
  +:+ DateTime.pad 2 (DateTime.minute d) +:+ ":"
  +:+ DateTime.pad 2 (DateTime.second d) +:+ "."
  +:+ DateTime.pad k (DateTime.microsecond d / 10 ^ Z.of_nat (6 - k)) +:+ "Z".

(** The fields of a [datetime] object: those the constructor accepts, none
    negative. *)
Definition in_range (d : DateTime.datetime) : bool :=
  DateTime.valid d && (0 <=? DateTime.hour d) && (0 <=? DateTime.minute d)
  && (0 <=? DateTime.second d) && (0 <=? DateTime.microsecond d).

Definition month_name (m : Z) : string :=
  match m with
  | 1 => "Jan" | 2 => "Feb" | 3 => "Mar" | 4 => "Apr" | 5 => "May" | 6 => "Jun"
  | 7 => "Jul" | 8 => "Aug" | 9 => "Sep" | 10 => "Oct" | 11 => "Nov"
  | _ => "Dec"
  end.

(** The text [D-Mon-YYYY] of a date, the day written with [w] digits. *)
Definition cutoff_text (w : nat) (d : DateTime.datetime) : string :=
  DateTime.pad w (DateTime.day d) +:+ "-" +:+ month_name (DateTime.month d)
  +:+ "-" +:+ DateTime.pad 4 (DateTime.year d).

Definition midnight (d : DateTime.datetime) : bool :=
  (DateTime.hour d =? 0) && (DateTime.minute d =? 0)
  && (DateTime.second d =? 0) && (DateTime.microsecond d =? 0).

(** A character of plain text: a line feed or printable ASCII. *)
Definition plain (c : ascii) : bool :=
  let n := N_of_ascii c in
  ((n =? 10) || (32 <=? n) && (n <=? 126))%N.

Definition plain_text (s : string) : bool := forallb plain (Str.chars s).

(** * Properties *)

(** ** Strings *)

Lemma append_nil_r (s : string) : s +:+ EmptyString = s.
Proof. induction s; simpl; congruence. Qed.

Lemma append_assoc (a b c : string) : (a +:+ b) +:+ c = a +:+ b +:+ c.
Proof. induction a; simpl; congruence. Qed.

Lemma split_nonempty (sep : ascii) (s : string) : Str.split sep s <> [].
Proof.
  destruct s as [|c s]; simpl; [discriminate|].
  destruct (Ascii.eqb c sep); [discriminate|].
  destruct (Str.split sep s); discriminate.
Qed.

Lemma split_app_sep (sep : ascii) (a t : string) :
  Py.mem sep a = false ->
  Str.split sep (a +:+ String sep t) = a :: Str.split sep t.
Proof.
  unfold Py.mem. induction a as [|c a IH]; simpl; intros H.
  - now rewrite Ascii.eqb_refl.
  - apply orb_false_iff in H as [Hc Ha].
    rewrite Ascii.eqb_sym, Hc. now rewrite (IH Ha).
Qed.

Lemma join_cons (sep p : string) (ps : list string) :
  ps <> [] -> Str.join sep (p :: ps) = p +:+ sep +:+ Str.join sep ps.
Proof. destruct ps; [congruence | reflexivity]. Qed.

Lemma join_split (old new : ascii) (s : string) :
  Str.join (String new EmptyString) (Str.split old s) = Str.replace old new s.
Proof.
  induction s as [|c s IH]; simpl; [reflexivity|].
  destruct (Ascii.eqb c old).
  - rewrite join_cons by apply split_nonempty. simpl. now rewrite IH.
  - rewrite <- IH. pose proof (split_nonempty old s) as Hne.
    destruct (Str.split old s) as [|h t]; [congruence|].
    destruct t; reflexivity.
Qed.

Lemma replace_no_old (old new : ascii) (s : string) :
  old <> new -> Py.mem old (Str.replace old new s) = false.
Proof.
  intros Hne. unfold Py.mem. induction s as [|c s IH]; simpl; [reflexivity|].
  rewrite IH, orb_false_r.
  destruct (Ascii.eqb c old) eqn:E.
  - apply Ascii.eqb_neq. exact Hne.
  - now rewrite Ascii.eqb_sym.
Qed.

Lemma replace_length (old new : ascii) (s : string) :
  String.length (Str.replace old new s) = String.length s.
Proof. induction s; simpl; congruence. Qed.

Lemma replace_get (old new : ascii) (s : string) (i : nat) :
  String.get i (Str.replace old new s)
  = option_map (fun c => if Ascii.eqb c old then new else c) (String.get i s).
Proof.
  revert i. induction s as [|c s IH]; intros [|i]; simpl; auto.
Qed.

(** The derived name is what follows the third slash of the URL, with the
    slashes and then the hyphens turned into underscores. *)
Lemma get_name_from_url_after_third_slash (a b c rest : string) :
  Py.mem slash a = false -> Py.mem slash b = false -> Py.mem slash c = false ->
  get_name_from_url (a +:+ "/" +:+ b +:+ "/" +:+ c +:+ "/" +:+ rest)
  = Str.replace hyphen underscore (Str.replace slash underscore rest).
Proof.
  intros Ha Hb Hc. unfold get_name_from_url.
  change ("/" +:+ ?x) with (String slash x).
  rewrite (split_app_sep slash a _ Ha).
  change ("/" +:+ ?x) with (String slash x).
  rewrite (split_app_sep slash b _ Hb).
  change ("/" +:+ ?x) with (String slash x).
  rewrite (split_app_sep slash c _ Hc).
  unfold Str.slice_from. simpl skipn.
  f_equal. exact (join_split slash underscore rest).
Qed.

(** ** The Resolver: accumulator and filter *)

Lemma for_attachments_acc (dest group dt_str : string) (atts : list json)
    (urls : list task) :
  for_attachments dest group dt_str atts urls
  = (for_attachments dest group dt_str atts [] ≫= fun ts => Ok (urls ++ ts)).
Proof.
  revert urls. induction atts as [|a atts IH]; intros urls; simpl.
  - now rewrite app_nil_r.
  - destruct (attachment_task dest group dt_str a) as [t|e]; simpl;
      [|reflexivity].
    rewrite (IH (urls ++ [t])), (IH [t]).
    destruct (for_attachments dest group dt_str atts []) as [ts|e']; simpl;
      [|reflexivity].
    now rewrite <- app_assoc.
Qed.

Lemma keep_item_acc (dest dt_str : string) (item : json) (urls : list task) :
  keep_item dest dt_str item urls
  = (keep_item dest dt_str item [] ≫= fun ts => Ok (urls ++ ts)).
Proof.
  unfold keep_item.
  destruct (Py.getitem item "contents") as [contents|e]; simpl; [|reflexivity].
  destruct (Py.get contents "attachments" (JObj [])) as [atts|e]; simpl;
    [|reflexivity].
  destruct (Py.truthy atts); simpl; [|now rewrite app_nil_r].
  destruct (Py.getitem item "headerSubtext") as [header|e]; simpl; [|reflexivity].
  destruct header; simpl; try reflexivity.
  destruct (Py.iter atts) as [elements|e]; simpl; [|reflexivity].
  apply for_attachments_acc.
Qed.

Lemma item_step_kept (dest : string) (dt : option DateTime.datetime)
    (item : json) (urls : list task) :
  is_ok (item_time item) = true ->
  item_step dest dt item urls
  = if kept dt item
    then item_tasks dest item ≫= fun ts => Ok (urls ++ ts)
    else Ok urls.
Proof.
  unfold item_step, kept, item_tasks, item_time.
  destruct (Py.getitem item "time") as [time|e]; simpl; [|discriminate].
  destruct (strptime DateTime.strptime_item time) as [t|e]; simpl; [|discriminate].
  intros _. destruct (passes dt t); [|reflexivity].
  apply keep_item_acc.
Qed.

Lemma for_items_collect (dest : string) (dt : option DateTime.datetime)
    (items : list json) (urls : list task) :
  Forall (fun item => is_ok (item_time item) = true) items ->
  for_items dest dt items urls
  = (collect dest (List.filter (kept dt) items) ≫= fun ts => Ok (urls ++ ts)).
Proof.
  intros Hall. revert urls.
  induction Hall as [|item items Htime _ IH]; intros urls; simpl.
  - now rewrite app_nil_r.
  - rewrite (item_step_kept _ _ _ _ Htime).
    destruct (kept dt item); simpl; [|apply IH].
    destruct (item_tasks dest item) as [ts|e]; simpl; [|reflexivity].
    rewrite IH.
    destruct (collect dest (List.filter (kept dt) items)) as [more|e]; simpl;
      [|reflexivity].
    now rewrite app_assoc.
Qed.

Lemma kept_none (items : list json) :
  Forall (fun item => is_ok (item_time item) = true) items ->
  List.filter (kept None) items = items.
Proof.
  induction 1 as [|item items Htime _ IH]; simpl; [reflexivity|].
  unfold kept at 1. destruct (item_time item); [|discriminate].
  simpl. now rewrite IH.
Qed.

Lemma kept_some (dt : DateTime.datetime) (items : list json) :
  List.filter (kept (Some dt)) items = List.filter (later_than dt) items.
Proof. reflexivity. Qed.

(** ** The JSON codec: decoding an encoded value *)

Module JsonFacts.
Import Json.

Lemma length_append (a b : string) :
  String.length (a +:+ b) = (String.length a + String.length b)%nat.
Proof. induction a; simpl; congruence. Qed.

(** One encoded character decodes to itself. *)
Lemma scan_string_escape (c : ascii) (t : string) :
  scan_string (escape c +:+ t) = cons_char c (scan_string t).
Proof.
  destruct c as [[] [] [] [] [] [] [] []]; reflexivity.
Qed.

Lemma scan_string_encode (s rest : string) :
  scan_string (encode_chars s +:+ String quote rest) = Ok (s, rest).
Proof.
  induction s as [|c s IH]; [reflexivity|].
  cbn [encode_chars]. rewrite append_assoc, scan_string_escape, IH.
  reflexivity.
Qed.

Lemma skip_ws_head (c : ascii) (r : string) :
  is_ws c = false -> skip_ws (String c r) = String c r.
Proof. intros H. simpl. now rewrite H. Qed.

Lemma skip_ws_ws (c : ascii) (r : string) :
  is_ws c = true -> skip_ws (String c r) = skip_ws r.
Proof. intros H. simpl. now rewrite H. Qed.

Lemma skip_ws_spaces (k : nat) (t : string) :
  skip_ws (spaces k +:+ t) = skip_ws t.
Proof. induction k; simpl; auto. Qed.

Lemma skip_ws_newline_indent (level : nat) (t : string) :
  skip_ws (newline_indent level +:+ t) = skip_ws t.
Proof. unfold newline_indent. simpl. apply skip_ws_spaces. Qed.

Lemma delimited_cases (rest : string) :
  delimited rest = true ->
  rest = EmptyString
  \/ (exists r, rest = String ","%char r) \/ (exists r, rest = String newline r).
Proof.
  destruct rest as [|c r]; simpl; [now left|]. intros H. right.
  apply orb_true_iff in H as [H|H]; apply Ascii.eqb_eq in H; subst; eauto.
Qed.

Lemma delimited_no_digit (rest : string) :
  delimited rest = true -> starts_digit rest = false.
Proof.
  intros H. destruct (delimited_cases rest H) as [->|[[r ->]|[r ->]]];
    reflexivity.
Qed.

Lemma delimited_no_float (rest : string) :
  delimited rest = true -> float_tail rest = false.
Proof.
  intros H. destruct (delimited_cases rest H) as [->|[[r ->]|[r ->]]];
    reflexivity.
Qed.

Lemma scan_digits_stop (rest : string) :
  starts_digit rest = false -> scan_digits rest = (Nil, rest).
Proof.
  destruct rest as [|c r]; simpl; [reflexivity|].
  unfold is_digit. now destruct (digit_cons c).
Qed.

Lemma scan_digits_uint (d : uint) (rest : string) :
  starts_digit rest = false ->
  scan_digits (NilEmpty.string_of_uint d +:+ rest) = (d, rest).
Proof.
  intros H. induction d; simpl; rewrite ?IHd; auto using scan_digits_stop.
Qed.

(** The decimal digits of a positive number do not start with a zero. *)
Lemma to_uint_head (p : positive) :
  match Pos.to_uint p with
  | Nil | D0 _ => False
  | _ => True
  end.
Proof.
  pose proof (DecimalPos.Unsigned.to_of (Pos.to_uint p)) as Hnorm.
  rewrite DecimalPos.Unsigned.of_to in Hnorm. simpl in Hnorm.
  pose proof (DecimalPos.Unsigned.to_uint_nonzero p) as Hnz.
  pose proof (DecimalPos.Unsigned.to_uint_nonnil p) as Hnn.
  destruct (Pos.to_uint p) as [|d| | | | | | | | | ]; try exact I; [congruence|].
  rewrite DecimalFacts.unorm_D0 in Hnorm.
  destruct d as [|d|d|d|d|d|d|d|d|d|d]; [now apply Hnz|..];
    match type of Hnorm with
    | _ = unorm ?u =>
        pose proof (DecimalFacts.nb_digits_unorm u ltac:(discriminate)) as Hle
    end;
    rewrite <- Hnorm in Hle; simpl in Hle; lia.
Qed.

Lemma scan_int_pos (p : positive) (rest : string) :
  starts_digit rest = false ->
  scan_int (NilEmpty.string_of_uint (Pos.to_uint p) +:+ rest)
  = Some (Pos.to_uint p, rest).
Proof.
  intros H. pose proof (to_uint_head p) as Hhead.
  destruct (Pos.to_uint p) as [|d|d|d|d|d|d|d|d|d|d]; try contradiction;
    cbn -[scan_digits]; simpl; now rewrite (scan_digits_uint d rest H).
Qed.

Lemma scan_number_int (z : Z) (rest : string) :
  Nat.leb (Py.int_digits z) Py.max_str_digits = true ->
  delimited rest = true ->
  scan_number (Py.int_str z +:+ rest) = Some (Ok (JInt z, rest)).
Proof.
  intros Hlim H.
  pose proof (delimited_no_digit rest H) as Hd.
  pose proof (delimited_no_float rest H) as Hf.
  assert (Hlt : forall u, Nat.leb (Decimal.nb_digits u) Py.max_str_digits = true ->
                Nat.ltb Py.max_str_digits (Decimal.nb_digits u) = false).
  { intros u Hu. apply Nat.ltb_ge. now apply Nat.leb_le. }
  destruct z as [|p|p]; unfold scan_number.
  - cbn [Py.int_str String.append Ascii.eqb Bool.eqb scan_int].
    rewrite Hf. now rewrite (Hlt (D0 Nil) Hlim).
  - pose proof (scan_int_pos p rest Hd) as Hscan.
    pose proof (to_uint_head p) as Hhead.
    pose proof (DecimalPos.Unsigned.of_to p) as Hval.
    pose proof (Hlt (Pos.to_uint p) Hlim) as Hok.
    unfold Py.int_str.
    destruct (Pos.to_uint p) as [|d|d|d|d|d|d|d|d|d|d]; try contradiction;
      cbn [NilEmpty.string_of_uint String.append] in *;
      cbn [Ascii.eqb Bool.eqb]; rewrite Hscan, Hf, Hok;
      unfold N.of_uint; rewrite Hval; reflexivity.
  - pose proof (scan_int_pos p rest Hd) as Hscan.
    pose proof (DecimalPos.Unsigned.of_to p) as Hval.
    pose proof (Hlt (Pos.to_uint p) Hlim) as Hok.
    unfold Py.int_str. cbn [String.append Ascii.eqb Bool.eqb].
    rewrite Hscan, Hf, Hok. unfold N.of_uint. rewrite Hval. reflexivity.
Qed.

Lemma scan_number_beyond (z : Z) (rest : string) :
  Nat.leb (Py.int_digits z) Py.max_str_digits = false ->
  delimited rest = true ->
  scan_number (Py.int_str z +:+ rest) = Some (Raise ValueError).
Proof.
  intros Hlim H.
  pose proof (delimited_no_digit rest H) as Hd.
  pose proof (delimited_no_float rest H) as Hf.
  assert (Hlt : forall u, Nat.leb (Decimal.nb_digits u) Py.max_str_digits = false ->
                Nat.ltb Py.max_str_digits (Decimal.nb_digits u) = true).
  { intros u Hu. apply Nat.ltb_lt. apply Nat.leb_gt in Hu. exact Hu. }
  destruct z as [|p|p]; unfold scan_number.
  - discriminate.
  - pose proof (scan_int_pos p rest Hd) as Hscan.
    pose proof (to_uint_head p) as Hhead.
    pose proof (Hlt (Pos.to_uint p) Hlim) as Hover.
    unfold Py.int_str.
    destruct (Pos.to_uint p) as [|d|d|d|d|d|d|d|d|d|d]; try contradiction;
      cbn [NilEmpty.string_of_uint String.append] in *;
      cbn [Ascii.eqb Bool.eqb]; rewrite Hscan, Hf, Hover; reflexivity.
  - pose proof (scan_int_pos p rest Hd) as Hscan.
    pose proof (Hlt (Pos.to_uint p) Hlim) as Hover.
    unfold Py.int_str. cbn [String.append Ascii.eqb Bool.eqb].
    rewrite Hscan, Hf, Hover. reflexivity.
Qed.

Lemma int_str_head (z : Z) :
  exists c t, Py.int_str z = String c t
    /\ (c = "-"%char \/ is_digit c = true).
Proof.
  destruct z as [|p|p]; simpl.
  - exists "0"%char, EmptyString. auto.
  - pose proof (to_uint_head p) as Hhead.
    destruct (Pos.to_uint p) as [|d|d|d|d|d|d|d|d|d|d]; try contradiction;
      simpl; eauto.
  - eauto.
Qed.

Lemma is_digit_cases (c : ascii) :
  is_digit c = true -> In c (Str.chars "0123456789").
Proof.
  unfold is_digit, digit_cons.
  repeat match goal with
         | |- context [Ascii.eqb c ?k] =>
             destruct (Ascii.eqb_spec c k) as [->|_]; [simpl; tauto|]
         end.
  discriminate.
Qed.

(** A character that can start a number literal. *)
Lemma number_head (c : ascii) :
  c = "-"%char \/ is_digit c = true ->
  forall (fuel : nat) (t : string),
    scan_once (S fuel) (String c t)
    = match scan_number (String c t) with
      | Some r => r
      | None => scan_scalar (String c t)
      end.
Proof.
  intros Hc fuel t.
  assert (Hcases : In c (Str.chars "-0123456789")).
  { destruct Hc as [->|Hc]; [simpl; auto|].
    right. now apply is_digit_cases. }
  simpl in Hcases.
  repeat (destruct Hcases as [<-|Hcases];
          [cbn [scan_once Ascii.eqb Bool.eqb quote]; unfold scan_scalar;
           cbn [strip_prefix Ascii.eqb Bool.eqb];
           now destruct (scan_number _)|]).
  contradiction.
Qed.

Lemma scan_once_int (fuel : nat) (z : Z) (rest : string) :
  Nat.leb (Py.int_digits z) Py.max_str_digits = true ->
  delimited rest = true ->
  scan_once (S fuel) (Py.int_str z +:+ rest) = Ok (JInt z, rest).
Proof.
  intros Hlim H. pose proof (scan_number_int z rest Hlim H) as Hnum.
  destruct (int_str_head z) as (c & t & Heq & Hc).
  rewrite Heq in *. cbn [String.append] in *.
  now rewrite (number_head c Hc), Hnum.
Qed.

Lemma scan_once_beyond (fuel : nat) (z : Z) (rest : string) :
  Nat.leb (Py.int_digits z) Py.max_str_digits = false ->
  delimited rest = true ->
  scan_once (S fuel) (Py.int_str z +:+ rest) = Raise ValueError.
Proof.
  intros Hlim H. pose proof (scan_number_beyond z rest Hlim H) as Hnum.
  destruct (int_str_head z) as (c & t & Heq & Hc).
  rewrite Heq in *. cbn [String.append] in *.
  now rewrite (number_head c Hc), Hnum.
Qed.

(** An encoded value starts with a character that is neither white space
    nor a closing bracket. *)
Lemma encode_head (level : nat) (j : json) :
  exists c t, encode level j = String c t
    /\ is_ws c = false /\ Ascii.eqb c "]"%char = false.
Proof.
  destruct j as [|[]|z|s|[|x xs]|[|kv kvs]]; simpl; eauto.
  destruct (int_str_head z) as (c & t & -> & [->|Hc]); [eauto|].
  exists c, t. split; [reflexivity|].
  apply is_digit_cases in Hc. simpl in Hc.
  repeat (destruct Hc as [<-|Hc]; [now split|]). contradiction.
Qed.

#[local] Arguments newline_indent : simpl never.

Lemma skip_ws_encode (level : nat) (j : json) (t : string) :
  skip_ws (encode level j +:+ t) = encode level j +:+ t.
Proof.
  destruct (encode_head level j) as (c & r & -> & Hws & _).
  cbn [String.append]. now apply skip_ws_head.
Qed.

Lemma encode_rest_app {A} (enc : A -> string) (sep close rest : string)
    (xs : list A) :
  encode_rest enc sep close xs +:+ rest
  = encode_rest enc sep (close +:+ rest) xs.
Proof.
  induction xs as [|x xs IH]; cbn [encode_rest]; [reflexivity|].
  now rewrite !append_assoc, IH.
Qed.

Lemma delimited_encode_rest {A} (enc : A -> string) (level level' : nat)
    (tail : string) (xs : list A) :
  delimited (encode_rest enc ("," +:+ newline_indent level')
               (newline_indent level +:+ tail) xs) = true.
Proof. destruct xs; reflexivity. Qed.

Lemma scan_elements_encode (level : nat) (xs : list json) :
  Forall decodes xs ->
  forall (x : json) (values : list json) (fuel : nat) (rest : string),
    decodes x ->
    (S (cost x) + sum_list (map (fun y => S (cost y)) xs) <= fuel)%nat ->
    scan_elements fuel values
      (encode (S level) x
       +:+ encode_rest (encode (S level)) ("," +:+ newline_indent (S level))
             (newline_indent level +:+ String "]"%char rest) xs)
    = Ok (JArr (values ++ x :: xs), rest).
Proof.
  induction 1 as [|y ys Hy _ IH]; intros x values fuel rest Hx Hfuel;
    (destruct fuel as [|fuel]; [simpl in Hfuel; lia|]);
    cbn [scan_elements]; simpl in Hfuel;
    (rewrite Hx; [|lia|apply delimited_encode_rest]);
    cbn [mbind result_bind bind encode_rest].
  - rewrite skip_ws_newline_indent. reflexivity.
  - rewrite !append_assoc. cbn [String.append]. 
    rewrite skip_ws_head by reflexivity.
    cbn [Ascii.eqb Bool.eqb].
    rewrite skip_ws_newline_indent, skip_ws_encode.
    rewrite IH by (assumption || lia).
    now rewrite <- app_assoc.
Qed.

Lemma encode_member_app (enc : json -> string) (kv : string * json)
    (tail : string) :
  encode_member enc kv +:+ tail
  = String quote (encode_chars (fst kv)
      +:+ String quote (String ":"%char (String " "%char (enc (snd kv) +:+ tail)))).
Proof.
  unfold encode_member, encode_string. cbn [String.append].
  now rewrite !append_assoc.
Qed.

Lemma scan_members_encode (level : nat) (kvs : list (string * json)) :
  Forall (fun kv => decodes (snd kv)) kvs ->
  forall (kv : string * json) (pairs : list (string * json)) (fuel : nat)
         (rest : string),
    decodes (snd kv) ->
    (S (cost (snd kv)) + sum_list (map (fun y => S (cost (snd y))) kvs)
     <= fuel)%nat ->
    scan_members fuel pairs
      (encode_chars (fst kv)
       +:+ String quote (String ":"%char (String " "%char
             (encode (S level) (snd kv)
              +:+ encode_rest (encode_member (encode (S level)))
                    ("," +:+ newline_indent (S level))
                    (newline_indent level +:+ String "}"%char rest) kvs))))
    = Ok (JObj (dict (pairs ++ kv :: kvs)), rest).
Proof.
  induction 1 as [|y ys Hy _ IH]; intros [k v] pairs fuel rest Hx Hfuel;
    (destruct fuel as [|fuel]; [simpl in Hfuel; lia|]);
    cbn [scan_members fst snd] in *; simpl in Hfuel;
    rewrite scan_string_encode; cbn [mbind result_bind bind];
    (rewrite skip_ws_head by reflexivity); cbn [Ascii.eqb Bool.eqb];
    (rewrite skip_ws_ws by reflexivity); rewrite skip_ws_encode;
    (rewrite Hx; [|lia|apply delimited_encode_rest]);
    cbn [mbind result_bind bind encode_rest].
  - rewrite skip_ws_newline_indent. reflexivity.
  - rewrite !append_assoc. cbn [String.append].
    rewrite skip_ws_head by reflexivity.
    cbn [Ascii.eqb Bool.eqb].
    rewrite skip_ws_newline_indent, encode_member_app.
    rewrite skip_ws_head by reflexivity.
    cbn [Ascii.eqb Bool.eqb quote].
    rewrite IH by (assumption || lia).
    now rewrite <- app_assoc.
Qed.

(** *** [dict(pairs)] of pairs with distinct keys *)

Lemma setitem_fresh (k : string) (v : json) (d : list (string * json)) :
  k ∉ map fst d -> Py.setitem k v d = d ++ [(k, v)].
Proof.
  induction d as [|[k' v'] d IH]; simpl; intros Hk; [reflexivity|].
  apply not_elem_of_cons in Hk as [Hne Hk].
  destruct (String.eqb_spec k' k) as [->|_]; [congruence|].
  now rewrite IH.
Qed.

Lemma dict_distinct_from (pairs acc : list (string * json)) :
  NoDup (map fst (acc ++ pairs)) ->
  fold_left (fun d kv => Py.setitem (fst kv) (snd kv) d) pairs acc
  = acc ++ pairs.
Proof.
  revert acc. induction pairs as [|[k v] pairs IH]; intros acc Hnd; simpl.
  - now rewrite app_nil_r.
  - rewrite setitem_fresh.
    + rewrite IH; rewrite <- app_assoc; [reflexivity | exact Hnd].
    + rewrite map_app in Hnd. apply NoDup_app in Hnd as (_ & Hdisj & _).
      intros Hin. apply (Hdisj k Hin). simpl. apply elem_of_cons. now left.
Qed.

Lemma dict_distinct (pairs : list (string * json)) :
  NoDup (map fst pairs) -> dict pairs = pairs.
Proof. intros H. unfold dict. now rewrite dict_distinct_from. Qed.

Lemma wf_json_arr (l : list json) : wf_json (JArr l) <-> Forall wf_json l.
Proof.
  induction l as [|x l IH]; simpl; [split; auto|].
  simpl in IH. rewrite Forall_cons. tauto.
Qed.

Lemma wf_json_obj (d : list (string * json)) :
  wf_json (JObj d)
  <-> NoDup (map fst d) /\ Forall (fun kv => wf_json (snd kv)) d.
Proof.
  simpl. apply and_iff_compat_l.
  induction d as [|kv d IH]; simpl; [split; auto|].
  rewrite Forall_cons. tauto.
Qed.

(** *** Decoding an encoded value gives the value back *)

Lemma within_limit_arr (l : list json) :
  Py.within_limit (JArr l) = forallb Py.within_limit l.
Proof. reflexivity. Qed.

Lemma within_limit_obj (d : list (string * json)) :
  Py.within_limit (JObj d) = forallb (fun kv => Py.within_limit (snd kv)) d.
Proof. reflexivity. Qed.

Lemma decodes_wf (j : json) :
  wf_json j -> Py.within_limit j = true -> decodes j.
Proof.
  induction j as [| b | z | s | l IH | d IH] using json_ind'; intros Hwf Hlim;
    intros level fuel rest Hfuel Hrest;
    (destruct fuel as [|fuel]; [simpl in Hfuel; lia|]).
  - reflexivity.
  - destruct b; reflexivity.
  - now apply scan_once_int.
  - cbn [encode encode_string String.append scan_once].
    rewrite Ascii.eqb_refl, append_assoc. cbn [String.append].
    now rewrite scan_string_encode.
  - apply wf_json_arr in Hwf. rewrite within_limit_arr in Hlim.
    assert (Hdec : Forall decodes l).
    { clear Hfuel. induction IH as [|x l Hx _ IHl]; [constructor|].
      apply Forall_cons in Hwf as [Hwx Hwl].
      cbn [forallb] in Hlim. apply andb_prop in Hlim as [Hlx Hll].
      constructor; auto. }
    clear IH Hwf Hlim. destruct Hdec as [|x xs Hx Hxs]; [reflexivity|].
    cbn [encode]. rewrite !append_assoc, encode_rest_app, !append_assoc.
    cbn [String.append scan_once Ascii.eqb Bool.eqb quote].
    rewrite skip_ws_newline_indent, skip_ws_encode.
    destruct (encode_head (S level) x) as (c & t & Hhead & _ & Hc).
    rewrite Hhead at 1. cbn [String.append]. rewrite Hc.
    change (String c (t +:+ ?r)) with (String c t +:+ r).
    rewrite <- Hhead.
    apply (scan_elements_encode level xs Hxs x [] fuel rest Hx).
    simpl in Hfuel. lia.
  - apply wf_json_obj in Hwf as [Hnd Hwf]. rewrite within_limit_obj in Hlim.
    assert (Hdec : Forall (fun kv => decodes (snd kv)) d).
    { clear Hfuel Hnd. induction IH as [|x l Hx _ IHl]; [constructor|].
      apply Forall_cons in Hwf as [Hwx Hwl].
      cbn [forallb] in Hlim. apply andb_prop in Hlim as [Hlx Hll].
      constructor; auto. }
    clear IH Hwf Hlim. destruct Hdec as [|kv kvs Hx Hxs]; [reflexivity|].
    cbn [encode]. rewrite !append_assoc, encode_rest_app, !append_assoc.
    rewrite encode_member_app.
    cbn [String.append scan_once Ascii.eqb Bool.eqb quote].
    rewrite skip_ws_newline_indent.
    rewrite skip_ws_head by reflexivity.
    change (Ascii.eqb quote "}"%char) with false.
    change (Ascii.eqb quote quote) with true. cbn match.
    assert (Hcost : (S (cost (snd kv))
                     + sum_list (map (fun y => S (cost (snd y))) kvs)
                     <= fuel)%nat) by (simpl in Hfuel; lia).
    pose proof (scan_members_encode level kvs Hxs kv [] fuel rest Hx Hcost)
      as Hscan.
    cbn [app] in Hscan. rewrite dict_distinct in Hscan by assumption.
    exact Hscan.
Qed.

(** *** The text is long enough to pay for the fuel *)

Lemma cost_encode_rest {A} (enc : A -> string) (size : A -> nat)
    (sep close : string) (xs : list A) :
  (1 <= String.length sep)%nat ->
  Forall (fun x => size x <= String.length (enc x))%nat xs ->
  (sum_list (map (fun x => S (size x)) xs)
   <= String.length (encode_rest enc sep close xs))%nat.
Proof.
  intros Hsep. induction 1 as [|x xs Hx _ IH]; simpl; [lia|].
  rewrite !length_append. lia.
Qed.

Lemma cost_le_length (j : json) (level : nat) :
  (cost j <= String.length (encode level j))%nat.
Proof.
  revert level.
  induction j as [| b | z | s | l IH | d IH] using json_ind'; intros level.
  - simpl. lia.
  - destruct b; simpl; lia.
  - simpl. destruct (int_str_head z) as (c & t & -> & _). simpl. lia.
  - simpl. lia.
  - destruct IH as [|x xs Hx Hxs]; [simpl; lia|].
    cbn [encode cost map]. rewrite !length_append.
    pose proof (cost_encode_rest (encode (S level)) cost
                  ("," +:+ newline_indent (S level))
                  (newline_indent level +:+ "]") xs) as Hrest.
    specialize (Hx (S level)).
    assert (Hall : Forall (fun y => cost y <= String.length (encode (S level) y))%nat xs).
    { eapply Forall_impl; [exact Hxs|]. intros y Hy. apply Hy. }
    specialize (Hrest ltac:(simpl; lia) Hall).
    simpl sum_list. simpl String.length at 1 2. lia.
  - destruct IH as [|kv kvs Hx Hxs]; [simpl; lia|].
    cbn [encode cost map]. rewrite !length_append.
    pose proof (cost_encode_rest (encode_member (encode (S level)))
                  (fun kv => cost (snd kv))
                  ("," +:+ newline_indent (S level))
                  (newline_indent level +:+ "}") kvs) as Hrest.
    specialize (Hx (S level)).
    assert (Hmem : forall y : string * json,
               (cost (snd y) <= String.length (encode (S level) (snd y)))%nat ->
               (cost (snd y)
                <= String.length (encode_member (encode (S level)) y))%nat).
    { intros y Hy. unfold encode_member. rewrite !length_append. lia. }
    assert (Hall : Forall (fun y => cost (snd y)
                     <= String.length (encode_member (encode (S level)) y))%nat kvs).
    { eapply Forall_impl; [exact Hxs|]. intros y Hy. apply Hmem, Hy. }
    specialize (Hrest ltac:(simpl; lia) Hall).
    apply Hmem in Hx.
    simpl sum_list. simpl String.length at 1 2. lia.
Qed.

(** [json.loads(json.dumps(obj, indent=4)) == obj] *)
Lemma loads_dumps (j : json) :
  wf_json j -> Py.within_limit j = true -> loads (dumps j) = Ok j.
Proof.
  intros Hwf Hlim. unfold loads, dumps.
  pose proof (skip_ws_encode 0 j EmptyString) as Hskip.
  rewrite append_nil_r in Hskip. rewrite Hskip.
  pose proof (decodes_wf j Hwf Hlim 0%nat (S (2 * String.length (encode 0 j)))
                EmptyString) as Hdec.
  rewrite append_nil_r in Hdec. rewrite Hdec.
  - reflexivity.
  - pose proof (cost_le_length j 0). lia.
  - reflexivity.
Qed.

End JsonFacts.

(** ** The digit limit: what the decoder delivers can be encoded *)

Lemma save_json_within (items : json) (filename : string) (w : world) :
  Py.within_limit items = true ->
  save_json items filename w
  = (Ok tt, write_file filename (Json.dumps items) w).
Proof.
  intros Hlim. unfold save_json, Json.try_dumps. rewrite Hlim.
  unfold write_file. cbn [requests files]. now rewrite insert_insert_eq.
Qed.

Lemma save_json_beyond (items : json) (filename : string) (w : world) :
  Py.within_limit items = false ->
  save_json items filename w
  = (Raise ValueError, write_file filename EmptyString w).
Proof.
  intros Hlim. unfold save_json, Json.try_dumps. now rewrite Hlim.
Qed.

Lemma save_json_requests (items : json) (filename : string) (w : world) :
  requests (snd (save_json items filename w)) = requests w.
Proof. unfold save_json. now destruct (Json.try_dumps items). Qed.

Lemma api_within (net : network) (u : string) (data : json) :
  api net u = Ok data -> Py.within_limit data = true.
Proof.
  unfold api. destruct (body net u) as [d|e]; [|discriminate].
  cbn [mbind result_bind bind].
  destruct (Py.within_limit d) eqn:Hlim; [|discriminate].
  now intros [= <-].
Qed.

Lemma lookup_within (key : string) (d : list (string * json)) (v : json) :
  forallb (fun kv => Py.within_limit (snd kv)) d = true ->
  Py.lookup key d = Some v -> Py.within_limit v = true.
Proof.
  induction d as [|[k x] d IH]; [discriminate|].
  cbn [forallb Py.lookup snd]. intros [Hx Hd]%andb_prop.
  destruct (String.eqb k key); [now intros [= <-] | now apply IH].
Qed.

Lemma getitem_within (v : json) (key : string) (r : json) :
  Py.within_limit v = true -> Py.getitem v key = Ok r ->
  Py.within_limit r = true.
Proof.
  destruct v; try discriminate. rewrite JsonFacts.within_limit_obj.
  intros Hlim. cbn [Py.getitem].
  destruct (Py.lookup key d) as [x|] eqn:Hlook; [|discriminate].
  intros [= <-]. exact (lookup_within _ _ _ Hlim Hlook).
Qed.

Lemma get_within (v : json) (key : string) (default r : json) :
  Py.within_limit v = true -> Py.within_limit default = true ->
  Py.get v key default = Ok r -> Py.within_limit r = true.
Proof.
  destruct v; try discriminate. rewrite JsonFacts.within_limit_obj.
  intros Hlim Hdef. cbn [Py.get].
  destruct (Py.lookup key d) as [x|] eqn:Hlook; intros [= <-];
    [exact (lookup_within _ _ _ Hlim Hlook) | exact Hdef].
Qed.

Lemma page_within (data items prev : json) :
  Py.within_limit data = true -> page data = Ok (items, prev) ->
  Py.within_limit items = true /\ Py.within_limit prev = true.
Proof.
  intros Hlim. unfold page.
  destruct (Py.get data "_links" (JObj [])) as [links|e] eqn:Hlinks;
    [|discriminate]. cbn [mbind result_bind bind].
  destruct (Py.get links "prev" (JObj [])) as [prev_link|e] eqn:Hprev;
    [|discriminate]. cbn [mbind result_bind bind].
  destruct (Py.get prev_link "href" JNull) as [href|e] eqn:Hhref;
    [|discriminate]. cbn [mbind result_bind bind].
  destruct (Py.getitem data "_items") as [its|e] eqn:Hitems; [|discriminate].
  cbn [mbind result_bind bind]. intros [= <- <-].
  pose proof (get_within data "_links" (JObj []) links Hlim eq_refl Hlinks) as H1.
  pose proof (get_within links "prev" (JObj []) prev_link H1 eq_refl Hprev) as H2.
  pose proof (get_within prev_link "href" JNull href H2 eq_refl Hhref) as H3.
  split; [exact (getitem_within _ _ _ Hlim Hitems) | exact H3].
Qed.

Lemma iter_within (v : json) (l : list json) :
  Py.within_limit v = true -> Py.iter v = Ok l ->
  forallb Py.within_limit l = true.
Proof.
  destruct v; try discriminate; cbn [Py.iter]; intros Hlim [= <-].
  - induction (Str.chars s) as [|c cs IH]; [reflexivity | exact IH].
  - exact Hlim.
  - clear Hlim. induction d as [|kv d IH]; [reflexivity | exact IH].
Qed.

Lemma extend_within (items new_items items' : json) :
  Py.within_limit items = true -> Py.within_limit new_items = true ->
  extend items new_items = Ok items' -> Py.within_limit items' = true.
Proof.
  destruct items; try discriminate. intros Hlim Hnew. cbn [extend].
  destruct (Py.iter new_items) as [elements|e] eqn:Hiter; [|discriminate].
  cbn [mbind result_bind bind]. intros [= <-].
  rewrite JsonFacts.within_limit_arr in *. rewrite forallb_app, Hlim.
  exact (iter_within _ _ Hnew Hiter).
Qed.

Lemma get_items_within (net : network) (url : json) (w w' : world)
    (items prev : json) :
  get_items net url w = (Ok (items, prev), w') ->
  Py.within_limit items = true /\ Py.within_limit prev = true.
Proof.
  destruct url as [| | |u| |]; try discriminate. cbn [get_items].
  destruct (api net u) as [data|e] eqn:Hapi; [|discriminate].
  destruct (page data) as [[its p]|e] eqn:Hpage; [|discriminate].
  intros [= <- <- _]. exact (page_within _ _ _ (api_within _ _ _ Hapi) Hpage).
Qed.

Lemma scrape_loop_within (net : network) (feed_url : string) (fuel : nat) :
  forall (items prev : json) (w : world) (items' : json) (w' : world),
    Py.within_limit items = true ->
    scrape_loop fuel net feed_url items prev w = Some (Ok items', w') ->
    Py.within_limit items' = true.
Proof.
  induction fuel as [|fuel IH]; intros items prev w items' w' Hlim Hrun;
    cbn [scrape_loop] in Hrun;
    destruct (follows feed_url prev); try discriminate;
    try (now injection Hrun as <- _).
  destruct (get_items net prev w) as [[[new_items prev']|e] w1] eqn:Hget;
    [|discriminate].
  destruct (get_items_within _ _ _ _ _ _ Hget) as [Hnew _].
  destruct (extend items new_items) as [items1|e] eqn:Hext; [|discriminate].
  exact (IH _ _ _ _ _ (extend_within _ _ _ Hlim Hnew Hext) Hrun).
Qed.

(** ** The Traverser *)

Lemma follows_spec (feed_url : string) (prev : json) :
  follows feed_url prev = false
  <-> Py.truthy prev = false \/ prev = JStr feed_url.
Proof.
  unfold follows. rewrite andb_false_iff. apply or_iff_compat_l.
  destruct prev; simpl; try (split; [discriminate | intros [=]]).
  rewrite negb_false_iff, String.eqb_eq. split; [now intros -> | now intros [=]].
Qed.

Lemma scrape_loop_stop (fuel : nat) (net : network) (feed_url : string)
    (items prev : json) (w : world) :
  follows feed_url prev = false ->
  scrape_loop fuel net feed_url items prev w = Some (Ok items, w).
Proof. intros H. destruct fuel; simpl; now rewrite H. Qed.

Lemma world_eta (w : world) :
  {| requests := requests w ++ []; files := files w |} = w.
Proof. destruct w; simpl. now rewrite app_nil_r. Qed.

Lemma scrape_loop_walk (net : network) (feed_url : string) (prev : json)
    (urls : list string) (pages : list (list json)) :
  walk net feed_url prev urls pages ->
  forall (fuel : nat) (acc : list json) (w : world),
    (length urls <= fuel)%nat ->
    scrape_loop fuel net feed_url (JArr acc) prev w
    = Some (Ok (JArr (acc ++ concat pages)),
            {| requests := requests w ++ urls; files := files w |}).
Proof.
  induction 1 as [prev Hstop | u data l prev urls pages Hgo Hapi Hpage _ IH];
    intros fuel acc w Hfuel.
  - rewrite scrape_loop_stop by assumption.
    simpl. now rewrite app_nil_r, world_eta.
  - destruct fuel as [|fuel]; [simpl in Hfuel; lia|].
    cbn [scrape_loop]. rewrite Hgo. cbn [get_items]. rewrite Hapi, Hpage.
    cbn [extend Py.iter mbind result_bind bind].
    rewrite IH by (simpl in Hfuel; lia).
    simpl. now rewrite <- !app_assoc.
Qed.

Lemma scrape_loop_success (net : network) (feed_url : string) (fuel : nat) :
  forall (acc : list json) (prev items : json) (w w' : world),
    scrape_loop fuel net feed_url (JArr acc) prev w = Some (Ok items, w') ->
    exists urls pages,
      requests w' = requests w ++ urls
      /\ files w' = files w
      /\ Forall2 (fetched_page net) urls pages
      /\ items = JArr (acc ++ concat pages).
Proof.
  induction fuel as [|fuel IH]; intros acc prev items w w' Hrun;
    cbn [scrape_loop] in Hrun;
    destruct (follows feed_url prev) eqn:Hgo; try discriminate;
    try (injection Hrun as <- <-; exists [], [];
         rewrite !app_nil_r; repeat split; constructor).
  destruct prev as [| | |u| |]; cbn [get_items] in Hrun; try discriminate.
  destruct (api net u) as [data|e] eqn:Hapi; [|discriminate].
  destruct (page data) as [[new_items prev']|e] eqn:Hpage; [|discriminate].
  cbn [extend] in Hrun.
  destruct (Py.iter new_items) as [l|e] eqn:Hiter; [|discriminate].
  cbn [mbind result_bind bind] in Hrun.
  destruct (IH _ _ _ _ _ Hrun) as (urls & pages & Hreq & Hfiles & Hpages & ->).
  exists (u :: urls), (l :: pages).
  rewrite Hreq, Hfiles. cbn [log_request requests files concat].
  rewrite <- !app_assoc.
  refine (conj eq_refl (conj eq_refl (conj _ eq_refl))).
  constructor; [|exact Hpages]. exists data, new_items, prev'. auto.
Qed.

Lemma cursor_ok_prefix (net : network) (feed_url : string) (m d : nat) (c : json) :
  cursor net feed_url (m + d) = Ok c ->
  exists c', cursor net feed_url m = Ok c'.
Proof.
  revert c. induction d as [|d IH]; intros c.
  - rewrite Nat.add_0_r. eauto.
  - rewrite Nat.add_succ_r. cbn [cursor].
    destruct (cursor net feed_url (m + d)) as [c0|e] eqn:E; [|discriminate].
    intros _. eauto.
Qed.

(** One more page of the chain: the cursor is a URL whose page decodes. *)
Lemma cursor_succ (net : network) (feed_url : string) (j : nat) (prev c : json) :
  cursor net feed_url j = Ok prev ->
  cursor net feed_url (S j) = Ok c ->
  exists u data items,
    prev = JStr u /\ api net u = Ok data /\ page data = Ok (items, c).
Proof.
  intros Hj. cbn [cursor]. rewrite Hj. cbn [mbind result_bind bind].
  destruct prev as [| | |u| |]; try discriminate.
  destruct (api net u) as [data|e] eqn:Hapi; [|discriminate]. simpl.
  destruct (page data) as [[items c']|e] eqn:Hpage; [|discriminate]. simpl.
  intros [= <-]. eauto 6.
Qed.

Lemma scrape_loop_frame (net : network) (feed_url : string) (fuel : nat) :
  forall (items prev : json) (w : world) (r : result json) (w' : world),
    scrape_loop fuel net feed_url items prev w = Some (r, w') ->
    files w' = files w /\ exists fetched, requests w' = requests w ++ fetched.
Proof.
  induction fuel as [|fuel IH]; intros items prev w r w' Hrun;
    cbn [scrape_loop] in Hrun;
    destruct (follows feed_url prev) eqn:Hgo; try discriminate;
    try (injection Hrun as <- <-; split; [reflexivity|];
         exists []; now rewrite app_nil_r).
  destruct prev as [| | |u| |]; cbn [get_items] in Hrun;
    try (injection Hrun as <- <-; split; [reflexivity|];
         exists []; now rewrite app_nil_r).
  assert (Hlog : forall r0, Some (r0, log_request u w) = Some (r, w') ->
                 files w' = files w
                 /\ exists fetched, requests w' = requests w ++ fetched).
  { intros r0 [= <- <-]. split; [reflexivity|]. now exists [u]. }
  destruct (api net u) as [data|e]; [|exact (Hlog _ Hrun)].
  destruct (page data) as [[new_items prev']|e]; [|exact (Hlog _ Hrun)].
  destruct (extend items new_items) as [items'|e]; [|exact (Hlog _ Hrun)].
  destruct (IH _ _ _ _ _ Hrun) as (Hfiles & fetched & Hreq).
  split; [exact Hfiles|]. exists (u :: fetched).
  rewrite Hreq. cbn [log_request requests]. now rewrite <- app_assoc.
Qed.

Lemma scrape_loop_chain (net : network) (feed_url : string) (d : nat) :
  forall (fuel j : nat) (items prev : json) (w : world),
    cursor net feed_url j = Ok prev ->
    (forall i c, (j <= i < j + d)%nat -> cursor net feed_url i = Ok c ->
                 follows feed_url c = true) ->
    (exists stop, cursor net feed_url (j + d) = Ok stop
                  /\ follows feed_url stop = false) ->
    (d <= fuel)%nat ->
    exists r w' fetched,
      scrape_loop fuel net feed_url items prev w = Some (r, w')
      /\ requests w' = requests w ++ fetched
      /\ (length fetched <= d)%nat
      /\ (forall i u, fetched !! i = Some u ->
            cursor net feed_url (j + i) = Ok (JStr u))
      /\ (is_ok r = true -> length fetched = d).
Proof.
  induction d as [|d IH];
    intros fuel j items prev w Hj Hgo (stop & Hstop & Hfalse) Hfuel.
  - rewrite Nat.add_0_r, Hj in Hstop. injection Hstop as <-.
    exists (Ok items), w, []. rewrite scrape_loop_stop by assumption.
    rewrite app_nil_r.
    refine (conj eq_refl (conj eq_refl (conj (le_n 0) (conj _ (fun _ => eq_refl))))).
    intros i u Hi. discriminate.
  - assert (Htrue : follows feed_url prev = true) by (apply (Hgo j); [lia|exact Hj]).
    rewrite Nat.add_succ_r, <- Nat.add_succ_l in Hstop.
    destruct (cursor_ok_prefix _ _ _ _ _ Hstop) as [c Hc].
    destruct (cursor_succ _ _ _ _ _ Hj Hc)
      as (u & data & new_items & -> & Hapi & Hpage).
    destruct fuel as [|fuel]; [lia|].
    cbn [scrape_loop]. rewrite Htrue. cbn [get_items]. rewrite Hapi, Hpage.
    destruct (extend items new_items) as [items'|e].
    + destruct (IH fuel (S j) items' c (log_request u w) Hc) as
        (r & w' & fetched & Hrun & Hreq & Hlen & Hchain & Hexact).
      { intros i c' Hi. apply Hgo. lia. }
      { exists stop. split; assumption. }
      { lia. }
      exists r, w', (u :: fetched). rewrite Hrun, Hreq.
      cbn [log_request requests]. rewrite <- app_assoc.
      refine (conj eq_refl (conj eq_refl (conj _ (conj _ _)))).
      * simpl. lia.
      * intros [|i] u' Hi; simpl in Hi.
        -- injection Hi as <-. now rewrite Nat.add_0_r.
        -- rewrite Nat.add_succ_r. apply Hchain, Hi.
      * intros Hok. simpl. now rewrite (Hexact Hok).
    + exists (Raise e), (log_request u w), [u].
      refine (conj eq_refl (conj eq_refl (conj _ (conj _ _)))).
      * simpl. lia.
      * intros [|i] u' Hi; simpl in Hi; [|discriminate].
        injection Hi as <-. now rewrite Nat.add_0_r.
      * discriminate.
Qed.

(** A cursor that the loop follows and that is a string is handed to
    [requests.get] next. *)
Lemma scrape_loop_fetches (fuel : nat) (net : network) (feed_url : string)
    (items : json) (u : string) (w : world) (r : result json) (w' : world) :
  follows feed_url (JStr u) = true ->
  scrape_loop (S fuel) net feed_url items (JStr u) w = Some (r, w') ->
  exists rest, requests w' = requests w ++ u :: rest.
Proof.
  intros Hgo Hrun. cbn [scrape_loop] in Hrun. rewrite Hgo in Hrun.
  cbn [get_items] in Hrun.
  assert (Hlog : forall r0, Some (r0, log_request u w) = Some (r, w') ->
                 exists rest, requests w' = requests w ++ u :: rest).
  { intros r0 [= <- <-]. now exists []. }
  destruct (api net u) as [data|e]; [|exact (Hlog _ Hrun)].
  destruct (page data) as [[new_items prev']|e]; [|exact (Hlog _ Hrun)].
  destruct (extend items new_items) as [items'|e]; [|exact (Hlog _ Hrun)].
  destruct (scrape_loop_frame _ _ _ _ _ _ _ _ Hrun) as (_ & fetched & Hreq).
  exists fetched. rewrite Hreq. cbn [log_request requests].
  now rewrite <- app_assoc.
Qed.

Lemma scrape_within (fuel : nat) (net : network) (feed_url filename : string)
    (w : world) (items : json) (w' : world) :
  scrape fuel net feed_url filename w = Some (Ok items, w') ->
  Py.within_limit items = true.
Proof.
  unfold scrape.
  destruct (get_items net (JStr feed_url) w) as [[[first prev]|e] w1] eqn:Hget;
    [|discriminate].
  destruct (get_items_within _ _ _ _ _ _ Hget) as [Hfirst _].
  destruct (scrape_loop fuel net feed_url first prev w1)
    as [[[items'|e] w'']|] eqn:Hloop; try discriminate.
  pose proof (scrape_loop_within _ _ _ _ _ _ _ _ Hfirst Hloop) as Hlim.
  rewrite (save_json_within _ _ _ Hlim). now intros [= <- _].
Qed.

Lemma scrape_frame (fuel : nat) (net : network) (feed_url filename : string)
    (w : world) (r : result json) (w' : world) :
  scrape fuel net feed_url filename w = Some (r, w') ->
  (exists fetched, requests w' = requests w ++ feed_url :: fetched)
  /\ files w' = match r with
                | Ok items => <[filename := Json.dumps items]> (files w)
                | Raise _ => files w
                end.
Proof.
  intros Hrun.
  unfold scrape in Hrun. cbn [get_items] in Hrun.
  assert (Hlog : forall e, Some (Raise e, log_request feed_url w) = Some (r, w') ->
                 (exists fetched, requests w' = requests w ++ feed_url :: fetched)
                 /\ files w' = match r with
                               | Ok items => <[filename := Json.dumps items]> (files w)
                               | Raise _ => files w
                               end).
  { intros e [= <- <-]. split; [now exists []|reflexivity]. }
  destruct (api net feed_url) as [data|e] eqn:Hapi; [|exact (Hlog _ Hrun)].
  destruct (page data) as [[items prev]|e] eqn:Hpage; [|exact (Hlog _ Hrun)].
  destruct (page_within _ _ _ (api_within _ _ _ Hapi) Hpage) as [Hfirst _].
  destruct (scrape_loop fuel net feed_url items prev (log_request feed_url w))
    as [[[items'|e] w'']|] eqn:Hloop; [| |discriminate];
    destruct (scrape_loop_frame _ _ _ _ _ _ _ _ Hloop) as (Hfiles & fetched & Hreq).
  - rewrite (save_json_within _ _ _
               (scrape_loop_within _ _ _ _ _ _ _ _ Hfirst Hloop)) in Hrun.
    injection Hrun as <- <-.
    cbn [write_file requests files]. rewrite Hreq, Hfiles.
    cbn [log_request requests files]. rewrite <- app_assoc.
    split; [now exists fetched | reflexivity].
  - injection Hrun as <- <-.
    rewrite Hreq, Hfiles. cbn [log_request requests files]. rewrite <- app_assoc.
    split; [now exists fetched | reflexivity].
Qed.

(** ** The Downloader *)

Lemma as_completed_spec (net : network) (urls : list task)
    (completion : list nat) :
  Forall (fun i => i < length urls)%nat completion ->
  forall st : pool_state,
    let st' := as_completed net urls completion st in
    n (bar st') = (n (bar st) + length completion)%nat
    /\ total (bar st') = total (bar st)
    /\ shown st'
       = shown st ++ map (fun k => (n (bar st) + k)%nat) (seq 1 (length completion))
    /\ map fst (outcomes st') = map fst (outcomes st) ++ completion.
Proof.
  induction 1 as [|i completion Hi _ IH]; intros st; cbn zeta.
  - simpl. rewrite !app_nil_r. repeat split; lia.
  - cbn [as_completed]. unfold task in *.
    destruct (urls !! i) as [[url filename]|] eqn:Hlook.
    2:{ apply lookup_ge_None in Hlook. lia. }
    destruct (download net url filename (pool_world st)) as [outcome w'].
    match goal with
    | |- context [as_completed net urls completion ?s] =>
        set (st1 := s);
        destruct (IH st1) as (Hn & Htotal & Hshown & Hout)
    end.
    rewrite Hn, Htotal, Hshown, Hout. subst st1.
    cbn [bar n total shown outcomes update].
    refine (conj _ (conj eq_refl (conj _ _))).
    + simpl. lia.
    + rewrite <- app_assoc. f_equal. cbn [length seq map app]. f_equal.
      rewrite <- (List.seq_shift (length completion) 1), List.map_map. apply List.map_ext. intros k. lia.
    + rewrite map_app, <- app_assoc. reflexivity.
Qed.

Lemma for_items_app (dest : string) (dt : option DateTime.datetime)
    (before after : list json) (urls : list task) :
  for_items dest dt (before ++ after) urls
  = (for_items dest dt before urls ≫= for_items dest dt after).
Proof.
  revert urls. induction before as [|item before IH]; intros urls; simpl;
    [reflexivity|].
  destruct (item_step dest dt item urls) as [urls'|e]; simpl; [apply IH|reflexivity].
Qed.

Lemma download_requests (net : network) (url : json) (filename : string)
    (w : world) :
  requests (snd (download net url filename w))
  = requests w ++ match url with JStr u => [u] | _ => [] end.
Proof.
  unfold download. destruct url; simpl; try (now rewrite app_nil_r).
  destruct (content net s); reflexivity.
Qed.

Lemma download_files_other (net : network) (url : json) (filename p : string)
    (w : world) :
  p <> filename ->
  files (snd (download net url filename w)) !! p = files w !! p.
Proof.
  intros Hp. unfold download.
  destruct url; simpl; try (now rewrite lookup_insert_ne);
    destruct (content net s); simpl; rewrite !lookup_insert_ne; auto.
Qed.

Lemma as_completed_requests (net : network) (urls : list task)
    (completion : list nat) (st : pool_state) :
  requests (pool_world (as_completed net urls completion st))
  = requests (pool_world st) ++ omap (request_of urls) completion.
Proof.
  revert st. induction completion as [|i completion IH]; intros st;
    cbn [as_completed omap list_omap].
  - now rewrite app_nil_r.
  - unfold request_of at 1. unfold task in *.
    destruct (urls !! i) as [[url filename]|] eqn:Hlook; [|apply IH].
    pose proof (download_requests net url filename (pool_world st)) as Hreq.
    destruct (download net url filename (pool_world st)) as [outcome w'].
    rewrite IH. cbn [pool_world snd] in *. rewrite Hreq.
    rewrite <- app_assoc. f_equal. now destruct url.
Qed.

Lemma as_completed_files_other (net : network) (urls : list task)
    (completion : list nat) (st : pool_state) (p : string) :
  p ∉ map snd urls ->
  files (pool_world (as_completed net urls completion st)) !! p
  = files (pool_world st) !! p.
Proof.
  intros Hp. revert st.
  induction completion as [|i completion IH]; intros st; cbn [as_completed];
    [reflexivity|].
  unfold task in *.
  destruct (urls !! i) as [[url filename]|] eqn:Hlook; [|apply IH].
  pose proof (download_files_other net url filename p (pool_world st)) as Hf.
  destruct (download net url filename (pool_world st)) as [outcome w'].
  rewrite IH. cbn [pool_world snd] in *. apply Hf.
  intros ->. apply Hp. apply list_elem_of_lookup_2 in Hlook.
  apply (list_elem_of_fmap_2 snd) in Hlook. exact Hlook.
Qed.

(** * The claims *)

(** ** C1 *)

(** C1, as stated, fails on its own example: with no metadata file name
    the URL [https://host/bucket/x/y/photo-1.jpg] gives the file name
    [bucket_x_y_photo_1.jpg], not [y_photo_1.jpg]. *)
Lemma C1_example_is_bucket_x_y_photo :
  attachment_task "out" "g" "05-10-2020" (attachment_plain photo_url)
  = Ok (JStr photo_url, "out/g/05-10-2020-bucket_x_y_photo_1.jpg")
  /\ get_name_from_url photo_url <> "y_photo_1.jpg".
Proof. split; [reflexivity | discriminate]. Qed.

(** C1 (amended): the destination of an attachment ends in
    [metadata.filename] when that is present; otherwise in the name
    derived from the URL: what follows the third slash of the URL (the
    pieces of the URL split at slashes, from the fourth piece on, joined
    with underscores) with hyphens replaced by underscores, so that
    [https://host/bucket/x/y/photo-1.jpg] gives [bucket_x_y_photo_1.jpg]. *)
Theorem C1_attachment_filename :
  (forall (dest group date : string) (fields md : list (string * json))
          (f : string) (url : json),
      Py.lookup "path" fields = Some url ->
      Py.lookup "metadata" fields = Some (JObj md) ->
      Py.lookup "filename" md = Some (JStr f) ->
      attachment_task dest group date (JObj fields)
      = Ok (url, dest +:+ "/" +:+ group +:+ "/" +:+ date +:+ "-" +:+ f))
  /\ (forall (dest group date : string) (fields : list (string * json))
             (u : string),
         Py.lookup "path" fields = Some (JStr u) ->
         Py.lookup "metadata" fields = None
         \/ (exists md, Py.lookup "metadata" fields = Some (JObj md)
               /\ Py.lookup "filename" md = None) ->
         attachment_task dest group date (JObj fields)
         = Ok (JStr u, dest +:+ "/" +:+ group +:+ "/" +:+ date +:+ "-"
                       +:+ get_name_from_url u))
  /\ (forall a b c rest : string,
         Py.mem slash a = false -> Py.mem slash b = false ->
         Py.mem slash c = false ->
         get_name_from_url (a +:+ "/" +:+ b +:+ "/" +:+ c +:+ "/" +:+ rest)
         = Str.replace hyphen underscore (Str.replace slash underscore rest))
  /\ get_name_from_url photo_url = "bucket_x_y_photo_1.jpg".
Proof.
  split; [|split; [|split]].
  - intros dest group date fields md f url Hpath Hmd Hf.
    unfold attachment_task, attachment_filename. simpl.
    rewrite Hpath. simpl. rewrite Hmd. simpl. rewrite Hf. reflexivity.
  - intros dest group date fields u Hpath [Hmd | (md & Hmd & Hf)];
      unfold attachment_task, attachment_filename; simpl;
      rewrite Hpath; simpl; rewrite Hmd; simpl; [reflexivity|].
    now rewrite Hf.
  - apply get_name_from_url_after_third_slash.
  - reflexivity.
Qed.

Lemma C1_attachment_filename_witness :
  (attachment_task "out" "g" "05-10-2020"
     (attachment_named "https://h/b/i" "img.png")
   = Ok (JStr "https://h/b/i", "out/g/05-10-2020-img.png"))
  /\ (Py.lookup "metadata" [("path", JStr photo_url)] = None
      \/ exists md, Py.lookup "metadata" [("path", JStr photo_url)]
                    = Some (JObj md)
           /\ Py.lookup "filename" md = None)
  /\ (attachment_task "out" "g" "05-10-2020" (attachment_plain photo_url)
      = Ok (JStr photo_url, "out/g/05-10-2020-bucket_x_y_photo_1.jpg"))
  /\ (Py.mem slash "https:" = false /\ Py.mem slash "" = false
      /\ Py.mem slash "host" = false)
  /\ get_name_from_url photo_url
     = Str.replace hyphen underscore
         (Str.replace slash underscore "bucket/x/y/photo-1.jpg").
Proof.
  assert (H : Py.lookup "metadata" [("path", JStr photo_url)] = None
              \/ exists md, Py.lookup "metadata" [("path", JStr photo_url)]
                            = Some (JObj md)
                   /\ Py.lookup "filename" md = None)
    by (left; reflexivity).
  refine (conj _ (conj H (conj _ (conj (conj eq_refl (conj eq_refl eq_refl)) _)))).
  - exact (proj1 C1_attachment_filename "out" "g" "05-10-2020"
             [("path", JStr "https://h/b/i");
              ("metadata", JObj [("filename", JStr "img.png")])]
             [("filename", JStr "img.png")] "img.png" (JStr "https://h/b/i")
             eq_refl eq_refl eq_refl).
  - exact (proj1 (proj2 C1_attachment_filename) "out" "g" "05-10-2020"
             [("path", JStr photo_url)] photo_url eq_refl H).
  - exact (proj1 (proj2 (proj2 C1_attachment_filename)) "https:" "" "host"
             "bucket/x/y/photo-1.jpg" eq_refl eq_refl eq_refl).
Defined.

(** ** C2 *)

(** C2: with a cutoff the Resolver produces the tasks of exactly the items
    whose timestamp is strictly later than the cutoff, in order; without a
    cutoff it produces the tasks of all items; of the items dated
    2018-01-01, 2018-08-01 and 2019-01-01 the cutoff 1-Jul-2018 keeps the
    latter two. *)
Theorem C2_cutoff_filter :
  (forall (dest : string) (items : list json) (cutoff : string)
          (dt : DateTime.datetime),
      cutoff <> EmptyString ->
      DateTime.strptime_cutoff cutoff = Ok dt ->
      Forall (fun item => is_ok (item_time item) = true) items ->
      get_urls_to dest (JArr items) (Some cutoff)
      = collect dest (List.filter (later_than dt) items))
  /\ (forall (dest : string) (items : list json) (after_date : option string),
         after_date = None \/ after_date = Some EmptyString ->
         Forall (fun item => is_ok (item_time item) = true) items ->
         get_urls_to dest (JArr items) after_date = collect dest items)
  /\ (forall dt, DateTime.strptime_cutoff "1-Jul-2018" = Ok dt ->
         List.filter (later_than dt) [item_2018_01; item_2018_08; item_2019_01]
         = [item_2018_08; item_2019_01])
  /\ get_urls (JArr [item_2018_01; item_2018_08; item_2019_01]) AFTER_DATE
     = Ok [(JStr "https://h/b/b", "./classdojo_output/A/08-01-2018-b.jpg");
           (JStr "https://h/b/c", "./classdojo_output/A/01-01-2019-c.jpg")].
Proof.
  split; [|split; [|split]].
  - intros dest items cutoff dt Hne Hdt Hall. unfold get_urls_to.
    assert (Hparse : parse_after_date (Some cutoff) = Ok (Some dt)).
    { destruct cutoff; [congruence|]. simpl. rewrite Hdt. reflexivity. }
    rewrite Hparse. simpl. rewrite (for_items_collect _ _ _ _ Hall).
    rewrite kept_some.
    now destruct (collect dest (List.filter (later_than dt) items)).
  - intros dest items after_date Hnone Hall. unfold get_urls_to.
    assert (Hparse : parse_after_date after_date = Ok None)
      by (destruct Hnone as [-> | ->]; reflexivity).
    rewrite Hparse. simpl. rewrite (for_items_collect _ _ _ _ Hall).
    rewrite (kept_none _ Hall). now destruct (collect dest items).
  - intros dt Hdt. vm_compute in Hdt. injection Hdt as <-. reflexivity.
  - reflexivity.
Qed.

Lemma C2_cutoff_filter_witness :
  "1-Jul-2018" <> EmptyString
  /\ DateTime.strptime_cutoff "1-Jul-2018"
     = Ok (DateTime.mk_datetime 2018 7 1 0 0 0 0)
  /\ Forall (fun item => is_ok (item_time item) = true)
       [item_2018_01; item_2018_08; item_2019_01]
  /\ get_urls_to "out" (JArr [item_2018_01; item_2018_08; item_2019_01])
       (Some "1-Jul-2018")
     = collect "out"
         (List.filter (later_than (DateTime.mk_datetime 2018 7 1 0 0 0 0))
            [item_2018_01; item_2018_08; item_2019_01])
  /\ get_urls_to "out" (JArr [item_2018_01; item_2018_08; item_2019_01]) None
     = collect "out" [item_2018_01; item_2018_08; item_2019_01]
  /\ List.filter (later_than (DateTime.mk_datetime 2018 7 1 0 0 0 0))
       [item_2018_01; item_2018_08; item_2019_01]
     = [item_2018_08; item_2019_01].
Proof.
  assert (H1 : "1-Jul-2018" <> EmptyString) by discriminate.
  assert (H2 : DateTime.strptime_cutoff "1-Jul-2018"
               = Ok (DateTime.mk_datetime 2018 7 1 0 0 0 0)) by reflexivity.
  assert (H3 : Forall (fun item => is_ok (item_time item) = true)
                 [item_2018_01; item_2018_08; item_2019_01])
    by (repeat constructor).
  refine (conj H1 (conj H2 (conj H3 (conj _ (conj _ _))))).
  - exact (proj1 C2_cutoff_filter "out" _ "1-Jul-2018" _ H1 H2 H3).
  - exact (proj1 (proj2 C2_cutoff_filter) "out" _ None (or_introl eq_refl) H3).
  - exact (proj1 (proj2 (proj2 C2_cutoff_filter)) _ H2).
Defined.

(** ** C3 *)

(** C3: when the cursor chain ends within [K] hops, that is when the
    cursor in hand after some [k <= K] pages is absent or null or is the
    first URL again, the cursors before it being URLs other than the
    first, the Traverser returns, having fetched at most [K] pages: the
    pages it fetched are the first of the chain, in order, none at or
    past hop [k], and all [k] of them when it returns without error.  The
    loop stops exactly when the cursor is false (absent or null, for a
    cursor that is null or a URL) or the first URL: it then makes no
    request, and otherwise the cursor is the next URL requested. *)
Theorem C3_scrape_terminates :
  (forall (net : network) (feed_url : string) (K k : nat),
      (1 <= k <= K)%nat ->
      chain_ends_at net feed_url k ->
      forall (fuel : nat) (filename : string) (w : world),
        (k <= S fuel)%nat ->
        exists r w' fetched,
          scrape fuel net feed_url filename w = Some (r, w')
          /\ requests w' = requests w ++ fetched
          /\ (length fetched <= K)%nat
          /\ (forall i u, fetched !! i = Some u ->
                (i < k)%nat /\ cursor net feed_url i = Ok (JStr u))
          /\ (is_ok r = true -> length fetched = k))
  /\ (forall (feed_url : string) (prev : json),
         follows feed_url prev = false
         <-> Py.truthy prev = false \/ prev = JStr feed_url)
  /\ (forall (feed_url : string) (prev : json),
         prev = JNull \/ (exists u, prev = JStr u /\ u <> EmptyString) ->
         (follows feed_url prev = false
          <-> prev = JNull \/ prev = JStr feed_url))
  /\ (forall (fuel : nat) (net : network) (feed_url : string)
             (items prev : json) (w : world),
         follows feed_url prev = false ->
         scrape_loop fuel net feed_url items prev w = Some (Ok items, w))
  /\ (forall (fuel : nat) (net : network) (feed_url : string)
             (items : json) (u : string) (w : world)
             (r : result json) (w' : world),
         follows feed_url (JStr u) = true ->
         scrape_loop (S fuel) net feed_url items (JStr u) w = Some (r, w') ->
         exists rest, requests w' = requests w ++ u :: rest).
Proof.
  refine (conj _ (conj follows_spec (conj _ (conj _ _)))).
  - intros net feed_url K k [Hk1 HkK] [Hend Hchain] fuel filename w Hfuel.
    destruct k as [|k]; [lia|].
    assert (Hstop : exists stop, cursor net feed_url (1 + k) = Ok stop
                                 /\ follows feed_url stop = false).
    { destruct Hend as [Hend|Hend]; eexists; (split; [exact Hend|]).
      - reflexivity.
      - apply follows_spec. now right. }
    destruct Hstop as (stop & Hstop & Hfalse).
    destruct (cursor_ok_prefix _ _ _ _ _ Hstop) as [c Hc].
    destruct (cursor_succ net feed_url 0 (JStr feed_url) c eq_refl Hc)
      as (u & data & items & [= <-] & Hapi & Hpage).
    destruct (scrape_loop_chain net feed_url k fuel 1 items c
                (log_request feed_url w) Hc)
      as (r & w' & fetched & Hrun & Hreq & Hlen & Hidx & Hexact).
    { intros i c' Hi Hci. destruct (Hchain i) as (u' & Hu' & Hne & Hfeed); [lia|].
      rewrite Hu' in Hci. injection Hci as <-.
      unfold follows. cbn [Py.truthy Py.str_ne].
      apply andb_true_intro. split; apply negb_true_iff, String.eqb_neq; congruence. }
    { exists stop. split; assumption. }
    { lia. }
    assert (Hall : forall i u, (feed_url :: fetched) !! i = Some u ->
              (i < S k)%nat /\ cursor net feed_url i = Ok (JStr u)).
    { intros [|i] u Hi; simpl in Hi.
      - injection Hi as <-. split; [lia | reflexivity].
      - split; [apply lookup_lt_Some in Hi; lia | exact (Hidx i u Hi)]. }
    unfold scrape. cbn [get_items]. rewrite Hapi, Hpage, Hrun.
    destruct r as [items'|e].
    + pose proof (save_json_requests items' filename w') as Hw.
      destruct (save_json items' filename w') as [[[]|e] w'']; cbn [snd] in Hw.
      * exists (Ok items'), w'', (feed_url :: fetched).
        rewrite Hw, Hreq. cbn [log_request requests]. rewrite <- app_assoc.
        refine (conj eq_refl (conj eq_refl (conj _ (conj Hall _)))).
        -- simpl. lia.
        -- intros _. simpl. now rewrite (Hexact eq_refl).
      * exists (Raise e), w'', (feed_url :: fetched).
        rewrite Hw, Hreq. cbn [log_request requests]. rewrite <- app_assoc.
        refine (conj eq_refl (conj eq_refl (conj _ (conj Hall _)))).
        -- simpl. lia.
        -- discriminate.
    + exists (Raise e), w', (feed_url :: fetched).
      rewrite Hreq. cbn [log_request requests]. rewrite <- app_assoc.
      refine (conj eq_refl (conj eq_refl (conj _ (conj Hall _)))).
      * simpl. lia.
      * discriminate.
  - intros feed_url prev Hshape. rewrite follows_spec.
    apply or_iff_compat_r.
    destruct Hshape as [-> | (u & -> & Hu)].
    + split; reflexivity.
    + cbn [Py.truthy]. split; [|discriminate].
      intros H. apply negb_false_iff, String.eqb_eq in H. contradiction.
  - intros. now apply scrape_loop_stop.
  - intros fuel net feed_url items u w r w'. apply scrape_loop_fetches.
Qed.

Lemma net_circular_chain : chain_ends_at net_circular "A" 2.
Proof.
  split; [right; reflexivity|].
  intros j Hj. assert (j = 1%nat) as -> by lia.
  exists "B". refine (conj eq_refl (conj _ _)); discriminate.
Qed.

Lemma C3_scrape_terminates_witness :
  chain_ends_at net_circular "A" 2
  /\ scrape 1 net_circular "A" "data.json" empty_world
     = Some (Ok (JArr [JInt 1; JInt 2; JInt 3]),
             {| requests := ["A"; "B"];
                files := {["data.json" := Json.dumps (JArr [JInt 1; JInt 2; JInt 3])]} |})
  /\ (exists r w' fetched,
        scrape 1 net_circular "A" "data.json" empty_world = Some (r, w')
        /\ requests w' = requests empty_world ++ fetched
        /\ (length fetched <= 2)%nat
        /\ (forall i u, fetched !! i = Some u ->
              (i < 2)%nat /\ cursor net_circular "A" i = Ok (JStr u))
        /\ (is_ok r = true -> length fetched = 2%nat))
  /\ scrape_loop 0 net_circular "A" (JArr []) (JStr "A") empty_world
     = Some (Ok (JArr []), empty_world).
Proof.
  refine (conj net_circular_chain (conj _ (conj _ _))).
  - vm_compute. reflexivity.
  - refine (proj1 C3_scrape_terminates net_circular "A" 2%nat 2%nat _
              net_circular_chain 1%nat "data.json" empty_world _); lia.
  - exact (proj1 (proj2 (proj2 (proj2 C3_scrape_terminates))) 0%nat
             net_circular "A" (JArr []) (JStr "A") empty_world eq_refl).
Defined.

(** ** C4 *)

Lemma length_concat_sum {A} (pages : list (list A)) :
  length (concat pages) = sum_list (map length pages).
Proof.
  induction pages as [|p pages IH]; simpl; [reflexivity|].
  now rewrite length_app, IH.
Qed.

(** C4: when the head page carries an item array, a successful [scrape]
    returns that array followed by the elements of every page the loop
    fetched, in the order of arrival; its length is the sum of the lengths
    of the pages; and the world it leaves has that same list, encoded, in
    the snapshot file.  When the pages that the loop walks carry item
    arrays and the fuel covers them, [scrape] is successful. *)
Theorem C4_scrape_concatenates :
  (forall (net : network) (feed_url filename : string) (w : world)
          (data : json) (first : list json) (prev : json)
          (urls : list string) (pages : list (list json)) (fuel : nat),
      api net feed_url = Ok data ->
      page data = Ok (JArr first, prev) ->
      walk net feed_url prev urls pages ->
      (length urls <= fuel)%nat ->
      let items := JArr (concat (first :: pages)) in
      scrape fuel net feed_url filename w
      = Some (Ok items,
              {| requests := requests w ++ feed_url :: urls;
                 files := <[filename := Json.dumps items]> (files w) |})
      /\ Py.len items = Ok (sum_list (map length (first :: pages))))
  /\ (forall (net : network) (feed_url filename : string) (w w' : world)
             (data : json) (first : list json) (prev items : json)
             (fuel : nat),
         api net feed_url = Ok data ->
         page data = Ok (JArr first, prev) ->
         scrape fuel net feed_url filename w = Some (Ok items, w') ->
         exists urls pages,
           requests w' = requests w ++ feed_url :: urls
           /\ Forall2 (fetched_page net) urls pages
           /\ items = JArr (concat (first :: pages))
           /\ Py.len items = Ok (sum_list (map length (first :: pages)))
           /\ files w' = <[filename := Json.dumps items]> (files w)).
Proof.
  split.
  - intros net feed_url filename w data first prev urls pages fuel
      Hapi Hpage Hwalk Hfuel items.
    split.
    + unfold scrape. cbn [get_items]. rewrite Hapi, Hpage.
      pose proof (scrape_loop_walk _ _ _ _ _ Hwalk fuel first
                    (log_request feed_url w) Hfuel) as Hloop.
      rewrite Hloop.
      destruct (page_within _ _ _ (api_within _ _ _ Hapi) Hpage) as [Hfirst _].
      rewrite (save_json_within _ _ _
                 (scrape_loop_within _ _ _ _ _ _ _ _ Hfirst Hloop)).
      cbn [write_file log_request requests files].
      rewrite <- app_assoc. reflexivity.
    + unfold items. cbn [Py.len]. now rewrite length_concat_sum.
  - intros net feed_url filename w w' data first prev items fuel
      Hapi Hpage Hrun.
    unfold scrape in Hrun. cbn [get_items] in Hrun.
    rewrite Hapi, Hpage in Hrun.
    destruct (scrape_loop fuel net feed_url (JArr first) prev
                (log_request feed_url w)) as [[[items'|e] w'']|] eqn:Hloop;
      try discriminate.
    destruct (page_within _ _ _ (api_within _ _ _ Hapi) Hpage) as [Hfirst _].
    rewrite (save_json_within _ _ _
               (scrape_loop_within _ _ _ _ _ _ _ _ Hfirst Hloop)) in Hrun.
    injection Hrun as <- <-.
    destruct (scrape_loop_success _ _ _ _ _ _ _ _ Hloop)
      as (urls & pages & Hreq & Hfiles & Hpages & ->).
    exists urls, pages. cbn [write_file requests files].
    rewrite Hreq, Hfiles. cbn [log_request requests files concat].
    rewrite <- app_assoc.
    refine (conj eq_refl (conj Hpages (conj eq_refl (conj _ eq_refl)))).
    cbn [Py.len]. f_equal.
    rewrite <- (length_concat_sum (first :: pages)). reflexivity.
Qed.

Lemma C4_scrape_concatenates_witness :
  let items := JArr (concat [[JInt 1]; [JInt 2; JInt 3]]) in
  let w' := {| requests := requests empty_world ++ ["A"; "B"];
               files := <["data.json" := Json.dumps items]> (files empty_world) |} in
  (scrape 1 net_circular "A" "data.json" empty_world = Some (Ok items, w')
   /\ Py.len items = Ok (sum_list (map length [[JInt 1]; [JInt 2; JInt 3]])))
  /\ exists urls pages,
       requests w' = requests empty_world ++ "A" :: urls
       /\ Forall2 (fetched_page net_circular) urls pages
       /\ items = JArr (concat ([JInt 1] :: pages))
       /\ Py.len items = Ok (sum_list (map length ([JInt 1] :: pages)))
       /\ files w' = <["data.json" := Json.dumps items]> (files empty_world).
Proof.
  intros items w'.
  assert (Hwalk : walk net_circular "A" (JStr "B") ["B"] [[JInt 2; JInt 3]]).
  { refine (walk_step net_circular "A" "B" _ [JInt 2; JInt 3] (JStr "A") [] []
              eq_refl eq_refl eq_refl _).
    apply walk_stop. reflexivity. }
  assert (Hfuel : (length ["B"] <= 1)%nat) by (simpl; lia).
  pose proof (proj1 C4_scrape_concatenates net_circular "A" "data.json"
                empty_world _ [JInt 1] (JStr "B") ["B"] [[JInt 2; JInt 3]]
                1%nat eq_refl eq_refl Hwalk Hfuel) as Hrun.
  split; [exact Hrun|].
  exact (proj2 C4_scrape_concatenates net_circular "A" "data.json"
           empty_world w' _ [JInt 1] (JStr "B") items 1%nat
           eq_refl eq_refl (proj1 Hrun)).
Defined.

(** ** C5 *)

Lemma for_attachments_resolved (dest group dt_str : string)
    (atts : list json) (names : list (json * string)) :
  Forall2 resolves atts names ->
  forall urls : list task,
    for_attachments dest group dt_str atts urls
    = Ok (urls ++ map (fun name =>
                         (fst name, destination dest group dt_str (snd name)))
                      names).
Proof.
  induction 1 as [|att name atts names [Hpath Hname] _ IH]; intros urls; simpl.
  - now rewrite app_nil_r.
  - unfold attachment_task. rewrite Hpath. simpl. rewrite Hname. simpl.
    rewrite IH, <- app_assoc. reflexivity.
Qed.

Lemma pad_length (w : nat) (k : Z) : String.length (DateTime.pad w k) = w.
Proof.
  revert k. induction w as [|w IH]; intros k; simpl; [reflexivity|].
  rewrite JsonFacts.length_append, IH. simpl. lia.
Qed.

Lemma strftime_mdY_four_digits (d : DateTime.datetime) :
  1000 <= DateTime.year d ->
  DateTime.strftime_mdY d
  = DateTime.pad 2 (DateTime.month d) +:+ "-"
    +:+ DateTime.pad 2 (DateTime.day d) +:+ "-"
    +:+ DateTime.pad 4 (DateTime.year d).
Proof.
  intros Hyear. unfold DateTime.strftime_mdY, DateTime.year_width.
  destruct (Z.ltb_spec (DateTime.year d) 10); [lia|].
  destruct (Z.ltb_spec (DateTime.year d) 100); [lia|].
  destruct (Z.ltb_spec (DateTime.year d) 1000); [lia|]. reflexivity.
Qed.

(** C5: a kept item with attachments, stamped in the year 1000 or later,
    adds for each attachment the destination
    [<output-root>/<group>/<MM-DD-YYYY>-<filename>], where the group is
    [headerSubtext] with every slash replaced by an underscore and the
    date is the month, day and year of the item's timestamp, ten
    characters in all; the item "Room A/B" of 2020-05-10 with file name
    [img.png] and root [out] gives [out/Room A_B/05-10-2020-img.png]. *)
Theorem C5_destination_path :
  (forall (dest : string) (cutoff : option DateTime.datetime)
          (fields contents : list (string * json)) (time header : string)
          (dt : DateTime.datetime) (atts : list json)
          (names : list (json * string)) (urls : list task),
      Py.lookup "time" fields = Some (JStr time) ->
      DateTime.strptime_item time = Ok dt ->
      1000 <= DateTime.year dt ->
      passes cutoff dt = true ->
      Py.lookup "contents" fields = Some (JObj contents) ->
      Py.lookup "attachments" contents = Some (JArr atts) ->
      atts <> [] ->
      Py.lookup "headerSubtext" fields = Some (JStr header) ->
      Forall2 resolves atts names ->
      let group := Str.replace slash underscore header in
      let date := DateTime.pad 2 (DateTime.month dt) +:+ "-"
                  +:+ DateTime.pad 2 (DateTime.day dt) +:+ "-"
                  +:+ DateTime.pad 4 (DateTime.year dt) in
      item_step dest cutoff (JObj fields) urls
      = Ok (urls ++ map (fun name =>
                           (fst name, dest +:+ "/" +:+ group +:+ "/" +:+ date
                                      +:+ "-" +:+ snd name))
                        names)
      /\ Py.mem slash group = false
      /\ String.length group = String.length header
      /\ (forall i, String.get i group
                    = option_map (fun c => if Ascii.eqb c slash
                                           then underscore else c)
                        (String.get i header))
      /\ String.length date = 10%nat)
  /\ get_urls_to "out"
       (JArr [feed_item "2020-05-10T00:00:00.000Z" "Room A/B"
                [attachment_named "https://h/b/i" "img.png"]]) None
     = Ok [(JStr "https://h/b/i", "out/Room A_B/05-10-2020-img.png")].
Proof.
  split; [|reflexivity].
  intros dest cutoff fields contents time header dt atts names urls
    Htime Hdt Hyear Hpass Hcontents Hatts Hne Hheader Hnames group date.
  split; [|split; [|split; [|split]]].
  - unfold item_step. simpl. rewrite Htime. simpl. rewrite Hdt. simpl.
    rewrite Hpass. unfold keep_item. simpl. rewrite Hcontents. simpl.
    rewrite Hatts. simpl. destruct atts as [|att atts]; [congruence|].
    simpl. rewrite Hheader. simpl.
    rewrite (strftime_mdY_four_digits dt Hyear).
    apply (for_attachments_resolved dest group date
             (att :: atts) names Hnames urls).
  - apply replace_no_old. discriminate.
  - apply replace_length.
  - intros i. apply replace_get.
  - unfold date. rewrite !JsonFacts.length_append, !pad_length. reflexivity.
Qed.

Lemma C5_destination_path_witness :
  item_step "out" None
    (feed_item "2020-05-10T00:00:00.000Z" "Room A/B"
       [attachment_named "https://h/b/i" "img.png"]) []
  = Ok [(JStr "https://h/b/i", "out/Room A_B/05-10-2020-img.png")].
Proof.
  refine (proj1 (proj1 C5_destination_path "out" None
            [("time", JStr "2020-05-10T00:00:00.000Z");
             ("headerSubtext", JStr "Room A/B");
             ("contents",
              JObj [("attachments",
                     JArr [attachment_named "https://h/b/i" "img.png"])])]
            [("attachments", JArr [attachment_named "https://h/b/i" "img.png"])]
            "2020-05-10T00:00:00.000Z" "Room A/B"
            (DateTime.mk_datetime 2020 5 10 0 0 0 0)
            [attachment_named "https://h/b/i" "img.png"]
            [(JStr "https://h/b/i", "img.png")] []
            eq_refl eq_refl _ eq_refl eq_refl eq_refl _ eq_refl _)).
  - discriminate.
  - discriminate.
  - repeat constructor.
Defined.

(** ** C6 *)

(** C6, as stated, fails: the destination file is opened for writing
    before the request is made, so a download whose request fails leaves
    an empty file where there was none. *)
Lemma C6_failed_download_leaves_file :
  files empty_world !! "out/A/05-10-2020-a.jpg" = None
  /\ exists w',
       download net_down (JStr "https://h/b/a.jpg") "out/A/05-10-2020-a.jpg"
         empty_world
       = (Raise RequestException, w')
       /\ files w' !! "out/A/05-10-2020-a.jpg" = Some EmptyString.
Proof.
  split; [reflexivity|]. eexists. split; reflexivity.
Qed.

(** C6 (amended): when the request of a download fails, the task aborts
    with that one request made; the destination file is left empty and no
    other file is touched; [download_urls] makes one request per finished
    task, writes nothing but destination files and goes on to the end. *)
Theorem C6_failed_download :
  (forall (net : network) (u filename : string) (w : world) (e : exn),
      content net u = Raise e ->
      download net (JStr u) filename w
      = (Raise e,
         {| requests := requests w ++ [u];
            files := <[filename := EmptyString]> (files w) |}))
  /\ (forall (net : network) (urls : list task) (completion : list nat)
             (w : world),
         let st := download_urls net urls completion w in
         requests (pool_world st)
         = requests w ++ omap (request_of urls) completion
         /\ forall p, p ∉ map snd urls ->
              files (pool_world st) !! p = files w !! p).
Proof.
  split.
  - intros net u filename w e He. unfold download. now rewrite He.
  - intros net urls completion w st. split.
    + apply as_completed_requests.
    + intros p Hp. now apply as_completed_files_other.
Qed.

Lemma C6_failed_download_witness :
  (download net_down (JStr "https://h/b/a.jpg") "out/A/05-10-2020-a.jpg"
     empty_world
   = (Raise RequestException,
      {| requests := requests empty_world ++ ["https://h/b/a.jpg"];
         files := <["out/A/05-10-2020-a.jpg" := EmptyString]>
                    (files empty_world) |}))
  /\ ("data.json"
      ∉ map snd [(JStr "https://h/b/a.jpg", "out/A/05-10-2020-a.jpg")])
  /\ files (pool_world
              (download_urls net_down
                 [(JStr "https://h/b/a.jpg", "out/A/05-10-2020-a.jpg")]
                 [0%nat] empty_world)) !! "data.json"
     = files empty_world !! "data.json".
Proof.
  assert (H : "data.json"
              ∉ map snd [(JStr "https://h/b/a.jpg", "out/A/05-10-2020-a.jpg")]).
  { simpl. rewrite elem_of_cons, elem_of_nil. intros [Heq|[]]. discriminate. }
  refine (conj _ (conj H _)).
  - exact (proj1 C6_failed_download net_down "https://h/b/a.jpg"
             "out/A/05-10-2020-a.jpg" empty_world RequestException eq_refl).
  - exact (proj2 (proj2 C6_failed_download net_down
                    [(JStr "https://h/b/a.jpg", "out/A/05-10-2020-a.jpg")]
                    [0%nat] empty_world) "data.json" H).
Defined.

(** ** C7 *)

Lemma int_digits_of_uint (u : Decimal.uint) :
  Py.int_digits (Z.of_N (N.of_uint u)) = Decimal.nb_digits (Decimal.unorm u).
Proof.
  rewrite <- DecimalN.Unsigned.to_of. now destruct (N.of_uint u).
Qed.

Lemma oversized_beyond_limit :
  Py.within_limit (JArr [item_oversized]) = false.
Proof.
  rewrite JsonFacts.within_limit_arr. cbn [forallb]. unfold item_oversized.
  rewrite JsonFacts.within_limit_obj. cbn [forallb snd].
  change (Py.within_limit (JInt oversized))
    with (Nat.leb (Py.int_digits oversized) Py.max_str_digits).
  unfold oversized. rewrite int_digits_of_uint.
  replace (Nat.leb _ Py.max_str_digits) with false by (vm_compute; reflexivity).
  reflexivity.
Qed.




(** ** C8 *)

(** C8: whatever the order in which the [N] futures finish and whatever
    their outcomes, the bar shows 0, 1, ..., [N]: each finished task adds
    exactly one, the count only grows, and it is [N] exactly once, at the
    end. *)
Theorem C8_progress_counter :
  forall (net : network) (urls : list task) (completion : list nat) (w : world),
    completion ≡ₚ seq 0 (length urls) ->
    let st := download_urls net urls completion w in
    shown st = seq 0 (S (length urls))
    /\ n (bar st) = length urls
    /\ total (bar st) = length urls
    /\ (forall i a b, shown st !! i = Some a -> shown st !! S i = Some b ->
          b = S a)
    /\ count_occ Nat.eq_dec (shown st) (length urls) = 1%nat
    /\ map fst (outcomes st) = completion.
Proof.
  intros net urls completion w Hperm st.
  assert (Hall : Forall (fun i => i < length urls)%nat completion).
  { apply Forall_forall. intros i Hi. rewrite Hperm in Hi.
    apply elem_of_seq in Hi. lia. }
  assert (Hlen : length completion = length urls).
  { rewrite Hperm. apply length_seq. }
  pose proof (as_completed_spec net urls completion Hall
                {| pool_world := w;
                   bar := {| n := 0; total := length urls |};
                   shown := [0%nat]; outcomes := [] |}) as Hspec.
  cbv zeta in Hspec.
  change (as_completed net urls completion _) with st in Hspec.
  cbn [bar n total shown outcomes map app] in Hspec.
  destruct Hspec as (Hn & Htotal & Hshown & Hout).
  assert (Hseq : shown st = seq 0 (S (length urls))).
  { rewrite Hshown, Hlen. cbn [seq app]. f_equal.
    rewrite <- (List.map_id (seq 1 (length urls))) at 2.
    apply List.map_ext. intros k. lia. }
  refine (conj Hseq (conj _ (conj Htotal (conj _ (conj _ Hout))))).
  - lia.
  - intros i a b Ha Hb. rewrite Hseq in Ha, Hb.
    apply lookup_seq in Ha as [-> _]. apply lookup_seq in Hb as [-> _]. lia.
  - rewrite Hseq. apply List.NoDup_count_occ'; [apply List.seq_NoDup|].
    apply List.in_seq. lia.
Qed.

Lemma C8_progress_counter_witness :
  [2; 0; 1]%nat
  ≡ₚ seq 0 (length [(JStr "x", "p1"); (JStr "y", "p2"); (JInt 1, "p3")])
  /\ shown (download_urls net_down
              [(JStr "x", "p1"); (JStr "y", "p2"); (JInt 1, "p3")]
              [2; 0; 1]%nat empty_world)
     = [0; 1; 2; 3]%nat.
Proof.
  assert (H : [2; 0; 1]%nat
              ≡ₚ seq 0 (length [(JStr "x", "p1"); (JStr "y", "p2"); (JInt 1, "p3")])).
  { simpl. apply (Permutation_cons_app [0; 1]%nat []). reflexivity. }
  split; [exact H|].
  exact (proj1 (C8_progress_counter net_down _ _ empty_world H)).
Defined.

(** ** C9 *)

Lemma page_lacks_items (data : json) :
  lacks_items data -> exists e, page data = Raise e.
Proof.
  intros Hlacks. unfold page.
  destruct (Py.get data "_links" (JObj [])) as [links|e]; simpl; [|eauto].
  destruct (Py.get links "prev" (JObj [])) as [prev_link|e]; simpl; [|eauto].
  destruct (Py.get prev_link "href" JNull) as [prev|e]; simpl; [|eauto].
  destruct data as [| | | | |fields]; simpl; eauto.
  rewrite (Hlacks fields eq_refl). simpl. eauto.
Qed.

Lemma page_no_cursor (fields : list (string * json)) (items : json) :
  Py.lookup "_items" fields = Some items ->
  no_cursor fields ->
  page (JObj fields) = Ok (items, JNull).
Proof.
  intros Hitems Hno. unfold page. simpl.
  destruct Hno as [Hlinks | (links & Hlinks & [Hprev | (prev_link & Hprev & Hhref)])];
    rewrite Hlinks; simpl; rewrite ?Hprev; simpl; rewrite ?Hhref; simpl;
    now rewrite Hitems.
Qed.

(** C9: a response without [_items] makes [get_items] raise ([KeyError]
    when the cursor lookup went through), which ends the traversal with
    that error and without a snapshot; a response without [_links],
    [_links.prev] or [_links.prev.href] is no error: the cursor is null
    and the traversal ends with the items fetched. *)
Theorem C9_get_items_keys :
  (forall (net : network) (u : string) (w : world) (data : json),
      api net u = Ok data ->
      lacks_items data ->
      exists e,
        get_items net (JStr u) w = (Raise e, log_request u w)
        /\ (forall fuel filename,
               scrape fuel net u filename w = Some (Raise e, log_request u w))
        /\ (forall fuel feed_url items,
               follows feed_url (JStr u) = true ->
               scrape_loop (S fuel) net feed_url items (JStr u) w
               = Some (Raise e, log_request u w)))
  /\ (forall (net : network) (u : string) (w : world)
             (fields : list (string * json)),
         api net u = Ok (JObj fields) ->
         Py.lookup "_items" fields = None ->
         no_cursor fields ->
         get_items net (JStr u) w = (Raise KeyError, log_request u w))
  /\ (forall (net : network) (u : string) (w : world)
             (fields : list (string * json)) (items : json),
         api net u = Ok (JObj fields) ->
         Py.lookup "_items" fields = Some items ->
         no_cursor fields ->
         get_items net (JStr u) w = (Ok (items, JNull), log_request u w)
         /\ (forall feed_url, follows feed_url JNull = false)
         /\ (forall fuel filename,
                scrape fuel net u filename w
                = Some (Ok items,
                        write_file filename (Json.dumps items)
                          (log_request u w)))).
Proof.
  split; [|split].
  - intros net u w data Hapi Hlacks.
    destruct (page_lacks_items data Hlacks) as [e He]. exists e.
    assert (Hget : get_items net (JStr u) w = (Raise e, log_request u w)).
    { cbn [get_items]. now rewrite Hapi, He. }
    refine (conj Hget (conj _ _)).
    + intros fuel filename. unfold scrape. now rewrite Hget.
    + intros fuel feed_url items Hgo. cbn [scrape_loop]. now rewrite Hgo, Hget.
  - intros net u w fields Hapi Hitems Hno.
    cbn [get_items]. rewrite Hapi. f_equal. unfold page. simpl.
    destruct Hno
      as [Hlinks | (links & Hlinks & [Hprev | (prev_link & Hprev & Hhref)])];
      rewrite Hlinks; simpl; rewrite ?Hprev; simpl; rewrite ?Hhref; simpl;
      now rewrite Hitems.
  - intros net u w fields items Hapi Hitems Hno.
    assert (Hget : get_items net (JStr u) w = (Ok (items, JNull), log_request u w)).
    { cbn [get_items]. now rewrite Hapi, (page_no_cursor _ _ Hitems Hno). }
    refine (conj Hget (conj (fun _ => eq_refl) _)).
    intros fuel filename. unfold scrape. rewrite Hget.
    rewrite scrape_loop_stop by reflexivity.
    destruct (get_items_within _ _ _ _ _ _ Hget) as [Hlim _].
    now rewrite (save_json_within _ _ _ Hlim).
Qed.

Lemma C9_get_items_keys_witness :
  (exists e,
      get_items net_empty_object (JStr "https://feed") empty_world
      = (Raise e, log_request "https://feed" empty_world))
  /\ get_items net_empty_object (JStr "https://feed") empty_world
     = (Raise KeyError, log_request "https://feed" empty_world)
  /\ get_items net_single (JStr "https://feed") empty_world
     = (Ok (JArr [JInt 1], JNull), log_request "https://feed" empty_world).
Proof.
  assert (Hlacks : lacks_items (JObj [])) by (intros fields [= <-]; reflexivity).
  assert (Hno : forall d, Py.lookup "_links" d = None -> no_cursor d)
    by (intros d Hd; left; exact Hd).
  refine (conj _ (conj _ _)).
  - destruct (proj1 C9_get_items_keys net_empty_object "https://feed"
                empty_world (JObj []) eq_refl Hlacks) as (e & He & _).
    exists e. exact He.
  - exact (proj1 (proj2 C9_get_items_keys) net_empty_object "https://feed"
             empty_world [] eq_refl eq_refl (Hno [] eq_refl)).
  - exact (proj1 (proj2 (proj2 C9_get_items_keys) net_single "https://feed"
             empty_world [("_items", JArr [JInt 1])] (JArr [JInt 1])
             eq_refl eq_refl (Hno [("_items", JArr [JInt 1])] eq_refl))).
Defined.

(** ** C10 *)

(** C10: an item that passes the cutoff filter has its [contents] key read
    unconditionally: without the key the Resolver raises [KeyError], which
    aborts the whole resolution; with [contents] lacking [attachments], or
    with an empty [attachments] list, the item is skipped without error
    and adds no task. *)
Theorem C10_contents_required :
  (forall (dest : string) (after_date : option string)
          (dt : option DateTime.datetime) (before after : list json)
          (fields : list (string * json)) (t : DateTime.datetime)
          (urls : list task),
      parse_after_date after_date = Ok dt ->
      for_items dest dt before [] = Ok urls ->
      item_time (JObj fields) = Ok t ->
      passes dt t = true ->
      Py.lookup "contents" fields = None ->
      item_step dest dt (JObj fields) urls = Raise KeyError
      /\ get_urls_to dest (JArr (before ++ JObj fields :: after)) after_date
         = Raise KeyError)
  /\ (forall (dest : string) (dt : option DateTime.datetime)
             (fields contents : list (string * json)) (t : DateTime.datetime)
             (urls : list task),
         item_time (JObj fields) = Ok t ->
         passes dt t = true ->
         Py.lookup "contents" fields = Some (JObj contents) ->
         Py.lookup "attachments" contents = None
         \/ Py.lookup "attachments" contents = Some (JArr []) ->
         item_step dest dt (JObj fields) urls = Ok urls).
Proof.
  split.
  - intros dest after_date dt before after fields t urls
      Hparse Hbefore Htime Hpass Hnone.
    assert (Hstep : item_step dest dt (JObj fields) urls = Raise KeyError).
    { unfold item_step. unfold item_time in Htime.
      destruct (Py.getitem (JObj fields) "time") as [time|e]; [|discriminate].
      simpl in *. rewrite Htime. simpl. rewrite Hpass.
      unfold keep_item. simpl. now rewrite Hnone. }
    split; [exact Hstep|].
    unfold get_urls_to. rewrite Hparse. simpl.
    rewrite for_items_app, Hbefore. simpl. now rewrite Hstep.
  - intros dest dt fields contents t urls Htime Hpass Hcontents Hatts.
    unfold item_step. unfold item_time in Htime.
    destruct (Py.getitem (JObj fields) "time") as [time|e]; [|discriminate].
    simpl in *. rewrite Htime. simpl. rewrite Hpass.
    unfold keep_item. simpl. rewrite Hcontents. simpl.
    destruct Hatts as [-> | ->]; reflexivity.
Qed.

Lemma C10_contents_required_witness :
  get_urls_to "out"
    (JArr ([item_2018_08]
           ++ JObj [("time", JStr "2019-01-01T00:00:00.000Z")] :: [item_2019_01]))
    (Some "1-Jul-2018")
  = Raise KeyError
  /\ item_step "out" None
       (JObj [("time", JStr "2019-01-01T00:00:00.000Z");
              ("contents", JObj [("attachments", JArr [])])]) []
     = Ok [].
Proof.
  split.
  - exact (proj2 (proj1 C10_contents_required "out" (Some "1-Jul-2018")
             (Some (DateTime.mk_datetime 2018 7 1 0 0 0 0))
             [item_2018_08] [item_2019_01]
             [("time", JStr "2019-01-01T00:00:00.000Z")]
             (DateTime.mk_datetime 2019 1 1 0 0 0 0)
             [(JStr "https://h/b/b", "out/A/08-01-2018-b.jpg")]
             eq_refl eq_refl eq_refl eq_refl eq_refl)).
  - exact (proj2 C10_contents_required "out" None
             [("time", JStr "2019-01-01T00:00:00.000Z");
              ("contents", JObj [("attachments", JArr [])])]
             [("attachments", JArr [])]
             (DateTime.mk_datetime 2019 1 1 0 0 0 0) []
             eq_refl eq_refl eq_refl (or_intror eq_refl)).
Defined.

(** * Further properties of the code *)

(** ** [get_name_from_url] *)

Lemma mem_append (c : ascii) (a b : string) :
  Py.mem c (a +:+ b) = Py.mem c a || Py.mem c b.
Proof.
  unfold Py.mem. induction a as [|x a IH]; simpl; [reflexivity|].
  now rewrite IH, orb_assoc.
Qed.

Lemma split_pieces_clean (sep : ascii) (s : string) :
  Forall (fun piece => Py.mem sep piece = false) (Str.split sep s).
Proof.
  induction s as [|c s IH]; simpl.
  - repeat constructor.
  - destruct (Ascii.eqb c sep) eqn:E.
    + constructor; [reflexivity | exact IH].
    + destruct (Str.split sep s) as [|h t]; [repeat constructor|].
      * unfold Py.mem. simpl. now rewrite Ascii.eqb_sym, E.
      * apply Forall_cons in IH as [Hh Ht]. constructor; [|exact Ht].
        unfold Py.mem in *. simpl. now rewrite Ascii.eqb_sym, E.
Qed.

Lemma join_clean (c : ascii) (sep : string) (pieces : list string) :
  Py.mem c sep = false ->
  Forall (fun piece => Py.mem c piece = false) pieces ->
  Py.mem c (Str.join sep pieces) = false.
Proof.
  intros Hsep. induction 1 as [|p ps Hp _ IH]; [reflexivity|].
  destruct ps as [|q ps]; [exact Hp|].
  change (Str.join sep (p :: q :: ps)) with (p +:+ sep +:+ Str.join sep (q :: ps)).
  now rewrite !mem_append, Hp, Hsep, IH.
Qed.

Lemma replace_keeps_clean (c old new : ascii) (s : string) :
  c <> new -> Py.mem c s = false -> Py.mem c (Str.replace old new s) = false.
Proof.
  intros Hnew. unfold Py.mem.
  induction s as [|x s IH]; simpl; [reflexivity|].
  intros H. apply orb_false_iff in H as [Hx Hs]. rewrite (IH Hs), orb_false_r.
  destruct (Ascii.eqb x old); [now apply Ascii.eqb_neq | exact Hx].
Qed.

(** X1: the name derived from a URL contains neither a slash nor a
    hyphen, whatever the URL. *)
Theorem X1_derived_name_has_no_separator :
  forall url : string,
    Py.mem slash (get_name_from_url url) = false
    /\ Py.mem hyphen (get_name_from_url url) = false.
Proof.
  intros url. unfold get_name_from_url, Str.slice_from. split.
  - apply replace_keeps_clean; [discriminate|].
    apply join_clean; [reflexivity|].
    apply Forall_drop, split_pieces_clean.
  - apply replace_no_old. discriminate.
Qed.

Lemma split_length (sep : ascii) (s : string) :
  length (Str.split sep s) = S (count_char sep s).
Proof.
  induction s as [|c s IH]; simpl; [reflexivity|].
  destruct (Ascii.eqb c sep); simpl; [now rewrite IH|].
  destruct (Str.split sep s); simpl in *; lia.
Qed.

(** X2: a URL with fewer than three slashes has the empty derived name,
    so that, without a metadata file name, the destination of such an
    attachment ends in the date and a hyphen. *)
Theorem X2_short_url_has_empty_name :
  forall url : string,
    (count_char slash url < 3)%nat ->
    get_name_from_url url = EmptyString
    /\ forall (dest group date : string) (fields : list (string * json)),
         Py.lookup "path" fields = Some (JStr url) ->
         Py.lookup "metadata" fields = None ->
         attachment_task dest group date (JObj fields)
         = Ok (JStr url, dest +:+ "/" +:+ group +:+ "/" +:+ date +:+ "-").
Proof.
  intros url Hcount.
  assert (Hname : get_name_from_url url = EmptyString).
  { unfold get_name_from_url, Str.slice_from.
    rewrite skipn_all2; [reflexivity|]. rewrite split_length. lia. }
  split; [exact Hname|].
  intros dest group date fields Hpath Hmd.
  unfold attachment_task, attachment_filename. simpl.
  rewrite Hpath. simpl. rewrite Hmd. simpl. now rewrite Hname.
Qed.

Lemma X2_short_url_has_empty_name_witness :
  (count_char slash "photo-1.jpg" < 3)%nat
  /\ get_name_from_url "photo-1.jpg" = EmptyString
  /\ attachment_task "out" "g" "05-10-2020" (attachment_plain "photo-1.jpg")
     = Ok (JStr "photo-1.jpg", "out" +:+ "/" +:+ "g" +:+ "/" +:+ "05-10-2020" +:+ "-").
Proof.
  assert (H : (count_char slash "photo-1.jpg" < 3)%nat) by (simpl; lia).
  refine (conj H (conj (proj1 (X2_short_url_has_empty_name _ H)) _)).
  exact (proj2 (X2_short_url_has_empty_name _ H) "out" "g" "05-10-2020"
           [("path", JStr "photo-1.jpg")] eq_refl eq_refl).
Defined.

(** ** [get_urls] *)

Lemma item_step_time_error (dest : string) (dt : option DateTime.datetime)
    (item : json) (urls : list task) (e : exn) :
  item_time item = Raise e -> item_step dest dt item urls = Raise e.
Proof.
  unfold item_time, item_step.
  destruct (Py.getitem item "time") as [time|e']; simpl;
    [|now intros [= ->]].
  destruct (strptime DateTime.strptime_item time); simpl;
    [discriminate | now intros [= ->]].
Qed.

(** X3: the timestamp of every item is read and parsed before the cutoff
    is looked at, so an item without [time], or with a [time] that is not
    a string in the expected format, aborts the resolution with that
    error, with or without a cutoff and whatever the item holds else. *)
Theorem X3_bad_timestamp_aborts :
  forall (dest : string) (after_date : option string)
         (dt : option DateTime.datetime) (before after : list json)
         (item : json) (urls : list task) (e : exn),
    parse_after_date after_date = Ok dt ->
    for_items dest dt before [] = Ok urls ->
    item_time item = Raise e ->
    get_urls_to dest (JArr (before ++ item :: after)) after_date = Raise e.
Proof.
  intros dest after_date dt before after item urls e Hparse Hbefore Htime.
  unfold get_urls_to. rewrite Hparse. simpl.
  rewrite for_items_app, Hbefore. simpl.
  now rewrite (item_step_time_error _ _ _ _ _ Htime).
Qed.

Lemma X3_bad_timestamp_aborts_witness :
  get_urls_to "out"
    (JArr ([item_2018_08] ++ JObj [("time", JStr "2018-08-01")] :: []))
    None
  = Raise ValueError
  /\ get_urls_to "out"
       (JArr ([] ++ JObj [("contents", JObj [])] :: [item_2018_08]))
       (Some "1-Jul-2018")
     = Raise KeyError.
Proof.
  split.
  - exact (X3_bad_timestamp_aborts "out" None None [item_2018_08] []
             (JObj [("time", JStr "2018-08-01")])
             [(JStr "https://h/b/b", "out/A/08-01-2018-b.jpg")] ValueError
             eq_refl eq_refl eq_refl).
  - exact (X3_bad_timestamp_aborts "out" (Some "1-Jul-2018")
             (Some (DateTime.mk_datetime 2018 7 1 0 0 0 0)) [] [item_2018_08]
             (JObj [("contents", JObj [])]) [] KeyError
             eq_refl eq_refl eq_refl).
Defined.

Lemma for_attachments_sources (dest group dt_str : string) (atts : list json) :
  forall urls ts : list task,
    for_attachments dest group dt_str atts urls = Ok ts ->
    map fst ts = map fst urls ++ paths_of atts
    /\ length ts = (length urls + length atts)%nat.
Proof.
  induction atts as [|att atts IH]; intros urls ts Hrun; simpl in Hrun.
  - injection Hrun as <-. simpl. rewrite app_nil_r. split; [reflexivity | lia].
  - unfold attachment_task in Hrun.
    unfold paths_of. cbn [omap list_omap]. fold (paths_of atts).
    destruct (Py.getitem att "path") as [url|e]; simpl in Hrun; [|discriminate].
    destruct (attachment_filename att url) as [name|e]; simpl in Hrun;
      [|discriminate].
    destruct (IH _ _ Hrun) as [Hsrc Hlen].
    rewrite Hsrc, Hlen, map_app, length_app, <- app_assoc. simpl.
    split; [reflexivity | lia].
Qed.

Lemma item_tasks_sources (dest : string) (item : json) (ts : list task) :
  item_tasks dest item = Ok ts ->
  map fst ts = paths_of (attachment_elements item)
  /\ length ts = length (attachment_elements item).
Proof.
  unfold item_tasks, keep_item, attachment_elements.
  destruct (item_time item) as [t|e]; simpl; [|discriminate].
  destruct (Py.getitem item "contents") as [contents|e]; simpl; [|discriminate].
  destruct (Py.get contents "attachments" (JObj [])) as [atts|e]; simpl;
    [|discriminate].
  destruct (Py.truthy atts).
  - destruct (Py.getitem item "headerSubtext") as [header|e]; simpl;
      [|discriminate].
    destruct header; simpl; try discriminate.
    destruct (Py.iter atts) as [elements|e]; simpl; [|discriminate].
    intros Hrun. apply for_attachments_sources in Hrun. exact Hrun.
  - intros [= <-]. split; reflexivity.
Qed.

Lemma collect_sources (dest : string) (kept_items : list json) :
  forall ts : list task,
    collect dest kept_items = Ok ts ->
    map fst ts
    = concat (map (fun item => paths_of (attachment_elements item)) kept_items)
    /\ length ts
       = sum_list (map (fun item => length (attachment_elements item)) kept_items).
Proof.
  unfold task in *.
  induction kept_items as [|item rest IH]; intros ts Hrun; simpl in Hrun.
  - injection Hrun as <-. split; reflexivity.
  - destruct (item_tasks dest item) as [ts1|e] eqn:Hitem; simpl in Hrun;
      [|discriminate].
    destruct (collect dest rest) as [ts2|e]; simpl in Hrun; [|discriminate].
    injection Hrun as <-.
    destruct (item_tasks_sources _ _ _ Hitem) as [Hsrc1 Hlen1].
    destruct (IH _ eq_refl) as [Hsrc2 Hlen2].
    unfold task in *.
    rewrite map_app, length_app, Hsrc1, Hsrc2, Hlen1, Hlen2.
    split; reflexivity.
Qed.

(** X4: when the Resolver succeeds, it returns one task per attachment of
    the kept items, none dropped and none merged: the source URLs are the
    [path] values of the attachments, item after item and, within an item,
    in the order of its [attachments]. *)
Theorem X4_one_task_per_attachment :
  forall (dest : string) (items : list json) (after_date : option string)
         (dt : option DateTime.datetime) (ts : list task),
    parse_after_date after_date = Ok dt ->
    Forall (fun item => is_ok (item_time item) = true) items ->
    get_urls_to dest (JArr items) after_date = Ok ts ->
    map fst ts
    = concat (map (fun item => paths_of (attachment_elements item))
                (List.filter (kept dt) items))
    /\ length ts
       = sum_list (map (fun item => length (attachment_elements item))
                     (List.filter (kept dt) items)).
Proof.
  intros dest items after_date dt ts Hparse Hall Hrun.
  unfold get_urls_to in Hrun. rewrite Hparse in Hrun. simpl in Hrun.
  rewrite (for_items_collect _ _ _ _ Hall) in Hrun.
  destruct (collect dest (List.filter (kept dt) items)) as [ts'|e] eqn:Hc;
    simpl in Hrun; [|discriminate].
  injection Hrun as <-. now apply collect_sources in Hc.
Qed.

Lemma X4_one_task_per_attachment_witness :
  parse_after_date AFTER_DATE = Ok (Some (DateTime.mk_datetime 2018 7 1 0 0 0 0))
  /\ Forall (fun item => is_ok (item_time item) = true)
       [item_2018_01; item_two_photos]
  /\ get_urls_to "out" (JArr [item_2018_01; item_two_photos]) AFTER_DATE
     = Ok [(JStr "https://h/b/p", "out/A/09-01-2018-same.jpg");
           (JStr "https://h/b/q", "out/A/09-01-2018-same.jpg")]
  /\ map fst [(JStr "https://h/b/p", "out/A/09-01-2018-same.jpg");
              (JStr "https://h/b/q", "out/A/09-01-2018-same.jpg")]
     = [JStr "https://h/b/p"; JStr "https://h/b/q"].
Proof.
  assert (H1 : parse_after_date AFTER_DATE
               = Ok (Some (DateTime.mk_datetime 2018 7 1 0 0 0 0)))
    by reflexivity.
  assert (H2 : Forall (fun item => is_ok (item_time item) = true)
                 [item_2018_01; item_two_photos]) by (repeat constructor).
  assert (H3 : get_urls_to "out" (JArr [item_2018_01; item_two_photos]) AFTER_DATE
               = Ok [(JStr "https://h/b/p", "out/A/09-01-2018-same.jpg");
                     (JStr "https://h/b/q", "out/A/09-01-2018-same.jpg")])
    by reflexivity.
  refine (conj H1 (conj H2 (conj H3 _))).
  exact (proj1 (X4_one_task_per_attachment "out" _ AFTER_DATE _ _ H1 H2 H3)).
Defined.

Lemma lex_gt_irrefl (a : list Z) : DateTime.lex_gt a a = false.
Proof.
  induction a as [|x a IH]; simpl; [reflexivity|].
  now rewrite Z.ltb_irrefl.
Qed.

Lemma lex_gt_trans (a : list Z) :
  forall b c : list Z,
    DateTime.lex_gt a b = true -> DateTime.lex_gt b c = true ->
    DateTime.lex_gt a c = true.
Proof.
  induction a as [|x a IH]; intros [|y b] [|z c]; simpl; try discriminate;
    try reflexivity.
  destruct (Z.ltb_spec y x), (Z.ltb_spec x y), (Z.ltb_spec z y),
    (Z.ltb_spec y z), (Z.ltb_spec z x), (Z.ltb_spec x z);
    try lia; try discriminate; try reflexivity.
  apply IH.
Qed.

(** X5: the cutoff test is strict and monotone: an item stamped exactly at
    the cutoff is not kept, and an item that a cutoff keeps is kept by
    every earlier cutoff. *)
Theorem X5_cutoff_strict_and_monotone :
  (forall (item : json) (dt : DateTime.datetime),
      item_time item = Ok dt -> later_than dt item = false)
  /\ (forall (earlier later : DateTime.datetime) (items : list json)
             (item : json),
         DateTime.gt later earlier = true ->
         In item (List.filter (later_than later) items) ->
         In item (List.filter (later_than earlier) items)).
Proof.
  split.
  - intros item dt Htime. unfold later_than. rewrite Htime.
    apply lex_gt_irrefl.
  - intros earlier later items item Hgt Hin.
    apply List.filter_In in Hin as [Hin Hlater].
    apply List.filter_In. split; [exact Hin|].
    unfold later_than in *. destruct (item_time item) as [t|e]; [|discriminate].
    exact (lex_gt_trans _ _ _ Hlater Hgt).
Qed.

Lemma X5_cutoff_strict_and_monotone_witness :
  item_time item_at_cutoff = Ok (DateTime.mk_datetime 2018 7 1 0 0 0 0)
  /\ later_than (DateTime.mk_datetime 2018 7 1 0 0 0 0) item_at_cutoff = false
  /\ DateTime.gt (DateTime.mk_datetime 2018 7 1 0 0 0 0)
       (DateTime.mk_datetime 2018 1 1 0 0 0 0) = true
  /\ In item_2018_08
       (List.filter (later_than (DateTime.mk_datetime 2018 7 1 0 0 0 0))
          [item_2018_01; item_2018_08])
  /\ In item_2018_08
       (List.filter (later_than (DateTime.mk_datetime 2018 1 1 0 0 0 0))
          [item_2018_01; item_2018_08]).
Proof.
  assert (H1 : item_time item_at_cutoff
               = Ok (DateTime.mk_datetime 2018 7 1 0 0 0 0)) by reflexivity.
  assert (H2 : DateTime.gt (DateTime.mk_datetime 2018 7 1 0 0 0 0)
                 (DateTime.mk_datetime 2018 1 1 0 0 0 0) = true) by reflexivity.
  assert (H3 : In item_2018_08
                 (List.filter (later_than (DateTime.mk_datetime 2018 7 1 0 0 0 0))
                    [item_2018_01; item_2018_08])) by (left; reflexivity).
  refine (conj H1 (conj _ (conj H2 (conj H3 _)))).
  - exact (proj1 X5_cutoff_strict_and_monotone _ _ H1).
  - exact (proj2 X5_cutoff_strict_and_monotone _ _ _ _ H2 H3).
Defined.

(** X6: [headerSubtext] is read only for a kept item whose [attachments]
    value is true, and then before any attachment is looked at: without
    the key the Resolver raises [KeyError], and a value that is not a
    string raises [AttributeError]. *)
Theorem X6_header_needed_with_attachments :
  forall (dest : string) (dt : option DateTime.datetime)
         (fields contents : list (string * json)) (atts : json)
         (t : DateTime.datetime) (urls : list task),
    item_time (JObj fields) = Ok t ->
    passes dt t = true ->
    Py.lookup "contents" fields = Some (JObj contents) ->
    Py.lookup "attachments" contents = Some atts ->
    Py.truthy atts = true ->
    (Py.lookup "headerSubtext" fields = None ->
     item_step dest dt (JObj fields) urls = Raise KeyError)
    /\ (forall header,
           Py.lookup "headerSubtext" fields = Some header ->
           (forall s, header <> JStr s) ->
           item_step dest dt (JObj fields) urls = Raise AttributeError).
Proof.
  intros dest dt fields contents atts t urls Htime Hpass Hcontents Hatts Htrue.
  assert (Hstep : item_step dest dt (JObj fields) urls
                  = keep_item dest (DateTime.strftime_mdY t) (JObj fields) urls).
  { unfold item_step. unfold item_time in Htime.
    destruct (Py.getitem (JObj fields) "time") as [time|e]; [|discriminate].
    simpl in *. rewrite Htime. simpl. now rewrite Hpass. }
  rewrite Hstep. unfold keep_item. simpl. rewrite Hcontents. simpl.
  rewrite Hatts, Htrue. split.
  - intros Hnone. now rewrite Hnone.
  - intros header Hheader Hnot. rewrite Hheader. simpl.
    destruct header; try reflexivity. now destruct (Hnot s).
Qed.

Lemma X6_header_needed_with_attachments_witness :
  item_step "out" None
    (JObj [("time", JStr "2019-01-01T00:00:00.000Z");
           ("contents", JObj [("attachments", JArr [JInt 7])])]) []
  = Raise KeyError
  /\ item_step "out" None
       (JObj [("time", JStr "2019-01-01T00:00:00.000Z");
              ("headerSubtext", JNull);
              ("contents", JObj [("attachments", JArr [JInt 7])])]) []
     = Raise AttributeError.
Proof.
  split.
  - exact (proj1 (X6_header_needed_with_attachments "out" None
             [("time", JStr "2019-01-01T00:00:00.000Z");
              ("contents", JObj [("attachments", JArr [JInt 7])])]
             [("attachments", JArr [JInt 7])] (JArr [JInt 7])
             (DateTime.mk_datetime 2019 1 1 0 0 0 0) []
             eq_refl eq_refl eq_refl eq_refl eq_refl) eq_refl).
  - refine (proj2 (X6_header_needed_with_attachments "out" None
             [("time", JStr "2019-01-01T00:00:00.000Z");
              ("headerSubtext", JNull);
              ("contents", JObj [("attachments", JArr [JInt 7])])]
             [("attachments", JArr [JInt 7])] (JArr [JInt 7])
             (DateTime.mk_datetime 2019 1 1 0 0 0 0) []
             eq_refl eq_refl eq_refl eq_refl eq_refl) JNull eq_refl _).
    intros s. discriminate.
Defined.

Lemma for_attachments_app (dest group dt_str : string)
    (before after : list json) (urls : list task) :
  for_attachments dest group dt_str (before ++ after) urls
  = (for_attachments dest group dt_str before urls
     ≫= for_attachments dest group dt_str after).
Proof.
  revert urls. induction before as [|att before IH]; intros urls; simpl;
    [reflexivity|].
  destruct (attachment_task dest group dt_str att); simpl; [apply IH|reflexivity].
Qed.

(** X7: every attachment of a kept item must be a dict with a [path] key:
    the first one that is not makes the Resolver raise ([KeyError] for a
    dict without [path], [TypeError] for anything that is not a dict), even
    when its [metadata.filename] is present and whatever comes after. *)
Theorem X7_attachment_needs_path :
  forall (dest : string) (dt : option DateTime.datetime)
         (fields contents : list (string * json)) (header : string)
         (t : DateTime.datetime) (before after : list json) (att : json)
         (names : list (json * string)) (urls : list task) (e : exn),
    item_time (JObj fields) = Ok t ->
    passes dt t = true ->
    Py.lookup "contents" fields = Some (JObj contents) ->
    Py.lookup "attachments" contents = Some (JArr (before ++ att :: after)) ->
    Py.lookup "headerSubtext" fields = Some (JStr header) ->
    Forall2 resolves before names ->
    Py.getitem att "path" = Raise e ->
    item_step dest dt (JObj fields) urls = Raise e
    /\ (is_dict att = true -> e = KeyError)
    /\ (is_dict att = false -> e = TypeError).
Proof.
  intros dest dt fields contents header t before after att names urls e
    Htime Hpass Hcontents Hatts Hheader Hnames Hpath.
  split.
  - unfold item_step. unfold item_time in Htime.
    destruct (Py.getitem (JObj fields) "time") as [time|e']; [|discriminate].
    simpl in *. rewrite Htime. simpl. rewrite Hpass.
    unfold keep_item. simpl. rewrite Hcontents. simpl. rewrite Hatts.
    assert (Htrue : Py.truthy (JArr (before ++ att :: after)) = true)
      by (simpl; now destruct before).
    rewrite Htrue, Hheader. simpl.
    rewrite for_attachments_app, (for_attachments_resolved _ _ _ _ _ Hnames).
    simpl. unfold attachment_task. now rewrite Hpath.
  - destruct att; simpl in Hpath; split; intros Hd; try discriminate;
      try (now injection Hpath as <-).
    destruct (Py.lookup "path" d); [discriminate | now injection Hpath as <-].
Qed.

Lemma X7_attachment_needs_path_witness :
  item_step "out" None
    (feed_item "2019-01-01T00:00:00.000Z" "A"
       ([attachment_plain "https://h/b/a"]
        ++ JObj [("metadata", JObj [("filename", JStr "x.jpg")])] :: [])) []
  = Raise KeyError
  /\ item_step "out" None
       (feed_item "2019-01-01T00:00:00.000Z" "A"
          ([] ++ JStr "https://h/b/a" :: [])) []
     = Raise TypeError.
Proof.
  split.
  - refine (proj1 (X7_attachment_needs_path "out" None
              [("time", JStr "2019-01-01T00:00:00.000Z");
               ("headerSubtext", JStr "A");
               ("contents",
                JObj [("attachments",
                       JArr ([attachment_plain "https://h/b/a"]
                             ++ JObj [("metadata",
                                       JObj [("filename", JStr "x.jpg")])]
                                :: []))])]
              [("attachments",
                JArr ([attachment_plain "https://h/b/a"]
                      ++ JObj [("metadata", JObj [("filename", JStr "x.jpg")])]
                         :: []))]
              "A" (DateTime.mk_datetime 2019 1 1 0 0 0 0)
              [attachment_plain "https://h/b/a"] []
              (JObj [("metadata", JObj [("filename", JStr "x.jpg")])])
              [(JStr "https://h/b/a", "b_a")] [] KeyError
              eq_refl eq_refl eq_refl eq_refl eq_refl _ eq_refl)).
    repeat constructor.
  - refine (proj1 (X7_attachment_needs_path "out" None
              [("time", JStr "2019-01-01T00:00:00.000Z");
               ("headerSubtext", JStr "A");
               ("contents",
                JObj [("attachments", JArr ([] ++ JStr "https://h/b/a" :: []))])]
              [("attachments", JArr ([] ++ JStr "https://h/b/a" :: []))]
              "A" (DateTime.mk_datetime 2019 1 1 0 0 0 0)
              [] [] (JStr "https://h/b/a") [] [] TypeError
              eq_refl eq_refl eq_refl eq_refl eq_refl _ eq_refl)).
    constructor.
Defined.

(** X8: the Resolver wants a list of items.  Anything else yields no task
    at all: an empty dict or an empty string is walked as an empty feed,
    and every other value raises [TypeError] (a dict or a string at its
    first key or character, which has no [time]; the rest because they
    cannot be iterated). *)
Theorem X8_items_must_be_a_list :
  forall (dest : string) (items : json) (after_date : option string)
         (dt : option DateTime.datetime),
    parse_after_date after_date = Ok dt ->
    is_list items = false ->
    get_urls_to dest items after_date
    = match Py.len items with
      | Ok O => Ok []
      | _ => Raise TypeError
      end.
Proof.
  intros dest items after_date dt Hdt Hlist. unfold get_urls_to.
  rewrite Hdt. cbn [mbind result_bind bind].
  destruct items as [| b | z | s | l | d]; try reflexivity; try discriminate.
  - destruct s; reflexivity.
  - destruct d as [|[k v] d]; reflexivity.
Qed.

Lemma X8_items_must_be_a_list_witness :
  get_urls_to "out" (JObj [("_items", JArr [item_2019_01])]) (Some "1-Jul-2018")
  = Raise TypeError
  /\ get_urls_to "out" (JObj []) None = Ok [].
Proof.
  split.
  - exact (X8_items_must_be_a_list "out" (JObj [("_items", JArr [item_2019_01])])
             (Some "1-Jul-2018")
             (Some (DateTime.mk_datetime 2018 7 1 0 0 0 0)) eq_refl eq_refl).
  - exact (X8_items_must_be_a_list "out" (JObj []) None None eq_refl eq_refl).
Defined.

Lemma item_step_acc (dest : string) (dt : option DateTime.datetime)
    (item : json) (urls : list task) :
  item_step dest dt item urls
  = (item_step dest dt item [] ≫= fun ts => Ok (urls ++ ts)).
Proof.
  unfold item_step.
  destruct (Py.getitem item "time") as [time|e]; simpl; [|reflexivity].
  destruct (strptime DateTime.strptime_item time) as [t|e]; simpl; [|reflexivity].
  destruct (passes dt t); [apply keep_item_acc | simpl; now rewrite app_nil_r].
Qed.

Lemma for_items_acc (dest : string) (dt : option DateTime.datetime)
    (items : list json) (urls : list task) :
  for_items dest dt items urls
  = (for_items dest dt items [] ≫= fun ts => Ok (urls ++ ts)).
Proof.
  revert urls. induction items as [|item items IH]; intros urls; simpl.
  - now rewrite app_nil_r.
  - rewrite (item_step_acc dest dt item urls).
    destruct (item_step dest dt item []) as [ts|e]; simpl; [|reflexivity].
    rewrite (IH (urls ++ ts)), (IH ts).
    destruct (for_items dest dt items []) as [more|e]; simpl; [|reflexivity].
    now rewrite app_assoc.
Qed.

(** X9: the Resolver works item by item, left to right, and nothing but
    the task list is carried from one item to the next: on two feeds put
    end to end it gives the tasks of the first followed by the tasks of
    the second, and fails with the first error met in that order. *)
Theorem X9_resolver_distributes_over_append :
  forall (dest : string) (first second : list json) (after_date : option string),
    get_urls_to dest (JArr (first ++ second)) after_date
    = (ts1 ← get_urls_to dest (JArr first) after_date;
       ts2 ← get_urls_to dest (JArr second) after_date;
       Ok (ts1 ++ ts2)).
Proof.
  intros dest first second after_date. unfold get_urls_to.
  destruct (parse_after_date after_date) as [dt|e]; [|reflexivity].
  cbn [mbind result_bind bind Py.iter].
  rewrite for_items_app.
  destruct (for_items dest dt first []) as [ts1|e]; [|reflexivity].
  cbn [mbind result_bind bind]. apply for_items_acc.
Qed.

(** X10: [get_items] reads the cursor before the items, through a chain of
    [get] calls that only a dict answers: when the body is not a dict, or
    [_links] or [_links.prev] is present with a value that is not a dict
    (a JSON [null], say), the call raises [AttributeError] after its
    request, whether or not [_items] is there. *)
Theorem X10_links_must_be_dicts :
  forall (net : network) (u : string) (w : world) (data : json),
    api net u = Ok data ->
    is_dict data = false
    \/ (exists fields links,
          data = JObj fields
          /\ Py.lookup "_links" fields = Some links
          /\ (is_dict links = false
              \/ exists l prev,
                   links = JObj l /\ Py.lookup "prev" l = Some prev
                   /\ is_dict prev = false)) ->
    get_items net (JStr u) w = (Raise AttributeError, log_request u w).
Proof.
  intros net u w data Hapi Hbad. cbn [get_items]. rewrite Hapi. f_equal.
  destruct Hbad as [Hdata | (fields & links & -> & Hlinks & Hbad)].
  - destruct data; try reflexivity. discriminate.
  - unfold page. cbn [Py.get]. rewrite Hlinks. cbn [mbind result_bind bind].
    destruct Hbad as [Hnd | (l & prev & -> & Hprev & Hnd)].
    + destruct links; try reflexivity. discriminate.
    + cbn [Py.get]. rewrite Hprev. cbn [mbind result_bind bind].
      destruct prev; try reflexivity. discriminate.
Qed.

Lemma X10_links_must_be_dicts_witness :
  get_items net_null_links (JStr "A") empty_world
  = (Raise AttributeError, log_request "A" empty_world).
Proof.
  refine (X10_links_must_be_dicts net_null_links "A" empty_world
            (JObj [("_items", JArr [JInt 1]); ("_links", JNull)]) eq_refl _).
  right. exists [("_items", JArr [JInt 1]); ("_links", JNull)], JNull.
  refine (conj eq_refl (conj eq_refl _)). left. reflexivity.
Defined.

(** X11: whatever the feed answers, a [scrape] that returns has requested
    the feed URL first and has written at most one file: the snapshot,
    holding the encoded result, when the traversal succeeded, and nothing
    when it failed, so that an earlier snapshot survives a failed
    traversal unchanged. *)
Theorem X11_scrape_writes_only_the_snapshot :
  forall (fuel : nat) (net : network) (feed_url filename : string)
         (w : world) (r : result json) (w' : world),
    scrape fuel net feed_url filename w = Some (r, w') ->
    (exists fetched, requests w' = requests w ++ feed_url :: fetched)
    /\ files w' = match r with
                  | Ok items => <[filename := Json.dumps items]> (files w)
                  | Raise _ => files w
                  end.
Proof. intros fuel net feed_url filename w r w'. apply scrape_frame. Qed.

Lemma X11_scrape_writes_only_the_snapshot_witness :
  scrape 3 net_down "A" "data.json" old_world
  = Some (Raise RequestException, log_request "A" old_world)
  /\ (exists fetched,
        requests (log_request "A" old_world)
        = requests old_world ++ "A" :: fetched)
  /\ files (log_request "A" old_world) = files old_world.
Proof.
  refine (conj eq_refl _).
  exact (X11_scrape_writes_only_the_snapshot 3 net_down "A" "data.json"
           old_world (Raise RequestException) (log_request "A" old_world)
           eq_refl).
Defined.

Lemma scrape_loop_endless (net : network) (feed_url : string) :
  endless net feed_url ->
  forall (fuel k : nat) (acc : list json) (prev : json) (w : world),
    cursor net feed_url (S k) = Ok prev ->
    scrape_loop fuel net feed_url (JArr acc) prev w = None.
Proof.
  intros Hendless. induction fuel as [|fuel IH]; intros k acc prev w Hk.
  - destruct (Hendless k) as (u & data & l & prev' & Hc & Hapi & Hpage & Hgo).
    cbn [cursor] in Hk. rewrite Hc in Hk. cbn [mbind result_bind bind] in Hk.
    rewrite Hapi in Hk. cbn [mbind result_bind bind] in Hk. rewrite Hpage in Hk.
    cbn [mbind result_bind bind] in Hk. injection Hk as <-.
    cbn [scrape_loop]. now rewrite Hgo.
  - pose proof Hk as Hk'.
    destruct (Hendless k) as (u & data & l & prev' & Hc & Hapi & Hpage & Hgo).
    cbn [cursor] in Hk. rewrite Hc in Hk. cbn [mbind result_bind bind] in Hk.
    rewrite Hapi in Hk. cbn [mbind result_bind bind] in Hk. rewrite Hpage in Hk.
    cbn [mbind result_bind bind] in Hk. injection Hk as <-.
    destruct (Hendless (S k)) as (u1 & data1 & l1 & prev1 & Hc1 & Hapi1 & Hpage1 & Hgo1).
    rewrite Hc1 in Hk'. injection Hk' as <-.
    cbn [scrape_loop]. rewrite Hgo. cbn [get_items]. rewrite Hapi1, Hpage1.
    cbn [extend Py.iter mbind result_bind bind].
    apply (IH (S k)).
    cbn [cursor]. cbn [cursor] in Hc1. rewrite Hc1.
    cbn [mbind result_bind bind]. rewrite Hapi1. cbn [mbind result_bind bind].
    rewrite Hpage1. reflexivity.
Qed.

(** X12: the loop of [scrape] has no bound of its own.  When every cursor
    of the chain is a URL whose page carries an item list and a cursor
    that is true and differs from the feed URL (a feed whose circle closes
    on another URL than the first, say), [scrape] never returns: no
    number of iterations is enough, and no snapshot is written. *)
Theorem X12_scrape_never_returns_on_endless_chain :
  forall (net : network) (feed_url : string),
    endless net feed_url ->
    forall (fuel : nat) (filename : string) (w : world),
      scrape fuel net feed_url filename w = None.
Proof.
  intros net feed_url Hendless fuel filename w.
  destruct (Hendless 0%nat) as (u & data & l & prev & Hc & Hapi & Hpage & Hgo).
  cbn [cursor] in Hc. injection Hc as <-.
  unfold scrape. cbn [get_items]. rewrite Hapi, Hpage.
  rewrite (scrape_loop_endless net feed_url Hendless fuel 0 l prev); [reflexivity|].
  cbn [cursor mbind result_bind bind]. rewrite Hapi.
  cbn [mbind result_bind bind]. now rewrite Hpage.
Qed.

Lemma cursor_step (net : network) (feed_url : string) (k : nat) :
  cursor net feed_url (S k)
  = (c ← cursor net feed_url k;
     match c with
     | JStr u => data ← api net u; '(_, prev) ← page data; Ok prev
     | _ => Raise RequestException
     end).
Proof. reflexivity. Qed.

Lemma net_stuck_cursor (k : nat) : cursor net_stuck "A" (S k) = Ok (JStr "B").
Proof.
  induction k as [|k IH]; [reflexivity|]. rewrite cursor_step, IH. reflexivity.
Qed.

Lemma net_stuck_endless : endless net_stuck "A".
Proof.
  intros [|k].
  - exists "A", (JObj [("_items", JArr [JInt 1]);
                       ("_links", JObj [("prev", JObj [("href", JStr "B")])])]),
      [JInt 1], (JStr "B").
    repeat split.
  - exists "B", (JObj [("_items", JArr [JInt 2]);
                       ("_links", JObj [("prev", JObj [("href", JStr "B")])])]),
      [JInt 2], (JStr "B").
    rewrite net_stuck_cursor. repeat split.
Qed.

Lemma X12_scrape_never_returns_on_endless_chain_witness :
  endless net_stuck "A"
  /\ scrape 1000 net_stuck "A" "data.json" empty_world = None.
Proof.
  refine (conj net_stuck_endless _).
  exact (X12_scrape_never_returns_on_endless_chain net_stuck "A"
           net_stuck_endless 1000 "data.json" empty_world).
Defined.

Lemma download_files (net : network) (url : json) (filename : string)
    (w : world) :
  files (snd (download net url filename w))
  = <[filename := written net url]> (files w).
Proof.
  unfold download, written. destruct url; try reflexivity.
  destruct (content net s); cbn [snd files write_file log_request];
    [apply insert_insert_eq | reflexivity].
Qed.

Lemma as_completed_files (net : network) (urls : list task)
    (completion : list nat) (st : pool_state) :
  files (pool_world (as_completed net urls completion st))
  = settle net urls completion (files (pool_world st)).
Proof.
  revert st. induction completion as [|i completion IH]; intros st;
    cbn [as_completed settle]; [reflexivity|].
  unfold finish_task. unfold task in *.
  destruct (urls !! i) as [[url filename]|] eqn:Hlook; [|apply IH].
  pose proof (download_files net url filename (pool_world st)) as Hf.
  destruct (download net url filename (pool_world st)) as [outcome w'].
  rewrite IH. cbn [pool_world snd] in *. now rewrite Hf.
Qed.

Lemma distinct_destinations (urls : list task) (i j : nat) (u1 u2 : json)
    (f : string) :
  NoDup (map snd urls) ->
  urls !! i = Some (u1, f) -> urls !! j = Some (u2, f) -> i = j.
Proof.
  intros Hnd Hi Hj. change (map snd urls) with (snd <$> urls) in Hnd.
  apply (NoDup_lookup _ i j f Hnd); rewrite list_lookup_fmap; unfold task in *.
  - now rewrite Hi.
  - now rewrite Hj.
Qed.

Lemma settle_keeps (net : network) (urls : list task) (f v : string)
    (completion : list nat) :
  forall fs : gmap string string,
    (forall j url, j ∈ completion -> urls !! j = Some (url, f) ->
                   written net url = v) ->
    fs !! f = Some v ->
    settle net urls completion fs !! f = Some v.
Proof.
  induction completion as [|j completion IH]; intros fs Hsame Hfs;
    cbn [settle]; [exact Hfs|].
  apply IH.
  - intros j' url Hj'. apply Hsame. now right.
  - unfold finish_task. unfold task in *.
    destruct (urls !! j) as [[url' f']|] eqn:Hj; [|exact Hfs].
    destruct (decide (f' = f)) as [->|Hne].
    + rewrite (Hsame j url' (list_elem_of_here _ _) Hj). apply lookup_insert_eq.
    + now rewrite lookup_insert_ne.
Qed.

Lemma settle_lookup (net : network) (urls : list task) (i : nat) (url : json)
    (f : string) (completion : list nat) :
  NoDup (map snd urls) ->
  urls !! i = Some (url, f) ->
  i ∈ completion ->
  forall fs : gmap string string,
    settle net urls completion fs !! f = Some (written net url).
Proof.
  intros Hnd Hi. induction completion as [|j completion IH]; intros Hin fs.
  - now apply elem_of_nil in Hin.
  - destruct (decide (i ∈ completion)) as [Hin'|Hout]; [now apply IH|].
    apply elem_of_cons in Hin as [<-|Hin]; [|contradiction].
    cbn [settle]. apply settle_keeps.
    + intros j url' _ Hj.
      assert (j = i) as -> by exact (distinct_destinations _ _ _ _ _ _ Hnd Hj Hi).
      unfold task in *. congruence.
    + unfold finish_task. unfold task in *. rewrite Hi. apply lookup_insert_eq.
Qed.

Lemma finish_task_comm (net : network) (urls : list task) (i j : nat)
    (fs : gmap string string) :
  NoDup (map snd urls) ->
  finish_task net urls (finish_task net urls fs i) j
  = finish_task net urls (finish_task net urls fs j) i.
Proof.
  intros Hnd. unfold finish_task. unfold task in *.
  destruct (urls !! i) as [[u1 f1]|] eqn:Hi, (urls !! j) as [[u2 f2]|] eqn:Hj;
    try reflexivity.
  destruct (decide (f1 = f2)) as [->|Hne].
  - assert (i = j) as -> by exact (distinct_destinations _ _ _ _ _ _ Hnd Hi Hj).
    unfold task in *. congruence.
  - now apply insert_insert_ne.
Qed.

Lemma settle_permutation (net : network) (urls : list task)
    (c1 c2 : list nat) :
  NoDup (map snd urls) -> c1 ≡ₚ c2 ->
  forall fs : gmap string string,
    settle net urls c1 fs = settle net urls c2 fs.
Proof.
  intros Hnd. induction 1 as [|i c1 c2 _ IH|i j c| c1 c2 c3 _ IH1 _ IH2];
    intros fs; cbn [settle].
  - reflexivity.
  - apply IH.
  - now rewrite finish_task_comm.
  - now rewrite IH1.
Qed.

Lemma distinct_keys (urls : list task) :
  NoDup (map (fun t => file_key (snd t)) urls) -> NoDup (map snd urls).
Proof.
  intros Hnd. change (map snd urls) with (snd <$> urls).
  apply (NoDup_fmap_1 file_key). rewrite <- list_fmap_compose. exact Hnd.
Qed.



Lemma download_content_ext (net net' : network) (url : json)
    (filename : string) (w : world) :
  (forall u, content net' u = content net u) ->
  download net' url filename w = download net url filename w.
Proof.
  intros Hext. unfold download. destruct url; try reflexivity. now rewrite Hext.
Qed.

Lemma as_completed_content_ext (net net' : network) (urls : list task)
    (completion : list nat) :
  (forall u, content net' u = content net u) ->
  forall st : pool_state,
    as_completed net' urls completion st = as_completed net urls completion st.
Proof.
  intros Hext. induction completion as [|i completion IH]; intros st;
    cbn [as_completed]; [reflexivity|].
  unfold task in *. destruct (urls !! i) as [[url filename]|]; [|apply IH].
  rewrite (download_content_ext net net' url filename _ Hext).
  destruct (download net url filename (pool_world st)) as [outcome w'].
  apply IH.
Qed.

(** X14: when the snapshot exists and the operator answers [n] or [N],
    [main] works from the snapshot alone.  Its outcome does not depend on
    what the feed would answer nor on how long a traversal would run, it
    always returns, a failure (of loading or resolving) leaves the world
    as it was, and on success the only requests made are those of the
    download tasks resolved from the snapshot. *)
Theorem X14_main_reuse_ignores_the_feed :
  forall (fuel fuel' : nat) (net net' : network) (answer : string)
         (schedule : list task -> list nat) (w : world),
    file_exists data_file w = true ->
    answers_no answer = true ->
    (forall u, content net' u = content net u) ->
    main fuel' net' answer schedule w = main fuel net answer schedule w
    /\ exists (r : result unit) (w' : world),
         main fuel net answer schedule w = Some (r, w')
         /\ (forall e, r = Raise e -> w' = w)
         /\ (r = Ok tt ->
             exists urls,
               (load_json data_file w ≫= fun items => get_urls items AFTER_DATE)
               = Ok urls
               /\ requests w' = requests w ++ omap (request_of urls) (schedule urls)).
Proof.
  intros fuel fuel' net net' answer schedule w Hfile Hno Hext.
  unfold main. fold data_file. rewrite Hfile, Hno. cbn [andb].
  destruct (load_json data_file w) as [items|e]; cbn [mbind result_bind bind].
  2:{ split; [reflexivity|]. exists (Raise e), w.
      refine (conj eq_refl (conj (fun _ _ => eq_refl) _)). discriminate. }
  destruct (get_urls items AFTER_DATE) as [urls|e].
  2:{ split; [reflexivity|]. exists (Raise e), w.
      refine (conj eq_refl (conj (fun _ _ => eq_refl) _)). discriminate. }
  split.
  - unfold download_urls. now rewrite (as_completed_content_ext net net' _ _ Hext).
  - eexists _, _. refine (conj eq_refl (conj _ _)); [discriminate|].
    intros _. exists urls. split; [reflexivity|].
    unfold download_urls. now rewrite as_completed_requests.
Qed.

Lemma X14_main_reuse_ignores_the_feed_witness :
  file_exists data_file snapshot_world = true
  /\ answers_no "n" = true
  /\ main 0 net_down "n" (fun urls => List.seq 0 (length urls)) snapshot_world
     = main 7 net_circular "n" (fun urls => List.seq 0 (length urls))
         snapshot_world.
Proof.
  refine (conj eq_refl (conj eq_refl _)).
  exact (proj1 (X14_main_reuse_ignores_the_feed 7 0 net_circular net_down "n"
                  (fun urls => List.seq 0 (length urls)) snapshot_world
                  eq_refl eq_refl (fun _ => eq_refl))).
Defined.

(** X15: in every other case (no snapshot, or any answer but [n] and [N],
    such as [no] or the empty line) [main] traverses the feed: it returns
    exactly when [scrape] does, and the first request it makes is the one
    for [FEED_URL]. *)
Theorem X15_main_rescrape_starts_at_the_feed :
  forall (fuel : nat) (net : network) (answer : string)
         (schedule : list task -> list nat) (w : world),
    file_exists data_file w = false \/ answers_no answer = false ->
    (main fuel net answer schedule w = None
     <-> scrape fuel net FEED_URL data_file w = None)
    /\ (forall (r : result unit) (w' : world),
           main fuel net answer schedule w = Some (r, w') ->
           exists rest, requests w' = requests w ++ FEED_URL :: rest).
Proof.
  intros fuel net answer schedule w Hmode.
  assert (Hcond : file_exists data_file w && answers_no answer = false)
    by (apply andb_false_iff; exact Hmode).
  unfold main. fold data_file. rewrite Hcond.
  destruct (scrape fuel net FEED_URL data_file w) as [[[items|e] w1]|] eqn:Hscrape.
  - destruct (scrape_frame _ _ _ _ _ _ _ Hscrape) as [[fetched Hreq] _].
    destruct (get_urls items AFTER_DATE) as [urls|e].
    + split; [split; discriminate|]. intros r w' [= <- <-].
      unfold download_urls. rewrite as_completed_requests. cbn [pool_world].
      rewrite Hreq, <- app_assoc. cbn [app]. eauto.
    + split; [split; discriminate|]. intros r w' [= <- <-]. eauto.
  - destruct (scrape_frame _ _ _ _ _ _ _ Hscrape) as [[fetched Hreq] _].
    split; [split; discriminate|]. intros r w' [= <- <-]. eauto.
  - split; [split; reflexivity|]. discriminate.
Qed.

Lemma X15_main_rescrape_starts_at_the_feed_witness :
  answers_no "no" = false
  /\ exists rest,
       requests (log_request FEED_URL snapshot_world)
       = requests snapshot_world ++ FEED_URL :: rest.
Proof.
  refine (conj eq_refl _).
  exact (proj2 (X15_main_rescrape_starts_at_the_feed 3 net_down "no"
                  (fun urls => List.seq 0 (length urls)) snapshot_world
                  (or_intror eq_refl))
           (Raise RequestException) (log_request FEED_URL snapshot_world)
           eq_refl).
Defined.

Lemma skip_ws_blank (text : string) :
  blank text = true -> Json.skip_ws text = EmptyString.
Proof.
  unfold blank. induction text as [|c text IH]; [reflexivity|].
  cbn [Str.chars forallb Json.skip_ws]. intros [Hc Hrest]%andb_prop.
  rewrite Hc. now apply IH.
Qed.

(** X16: a snapshot file that is empty or holds white space only is
    rejected by [load_json] with [JSONDecodeError], and [main], told to
    reuse it, stops there, having requested and written nothing. *)
Theorem X16_blank_snapshot_is_rejected :
  forall (text : string),
    blank text = true ->
    Json.loads text = Raise JSONDecodeError
    /\ (forall (filename : string) (w : world),
           files w !! filename = Some text ->
           load_json filename w = Raise JSONDecodeError)
    /\ (forall (fuel : nat) (net : network) (answer : string)
               (schedule : list task -> list nat) (w : world),
           files w !! data_file = Some text ->
           answers_no answer = true ->
           main fuel net answer schedule w = Some (Raise JSONDecodeError, w)).
Proof.
  intros text Hblank.
  assert (Hloads : Json.loads text = Raise JSONDecodeError).
  { unfold Json.loads. rewrite (skip_ws_blank _ Hblank). reflexivity. }
  assert (Hload : forall filename w, files w !! filename = Some text ->
                  load_json filename w = Raise JSONDecodeError).
  { intros filename w Hfile. unfold load_json. now rewrite Hfile. }
  refine (conj Hloads (conj Hload _)).
  intros fuel net answer schedule w Hfile Hno.
  unfold main. fold data_file. unfold file_exists.
  rewrite Hfile, Hno. cbn [andb]. now rewrite (Hload _ _ Hfile).
Qed.

Lemma X16_blank_snapshot_is_rejected_witness :
  blank (String "010"%char EmptyString) = true
  /\ Json.loads (String "010"%char EmptyString) = Raise JSONDecodeError.
Proof.
  refine (conj eq_refl _).
  exact (proj1 (X16_blank_snapshot_is_rejected (String "010"%char EmptyString)
                  eq_refl)).
Defined.

(** X17: what the Resolver does with an attachment whose [metadata] is not
    the usual one.  A [metadata.filename] of any type is used, formatted
    as [str()] formats it (a JSON [null] gives the file name [None]),
    which raises [ValueError] only for a value that holds an integer
    beyond the digit limit; a [metadata] value that is not a dict raises
    [AttributeError]; and without a usable [metadata.filename] a [path]
    that is not a string raises [AttributeError]. *)
Theorem X17_metadata_edge_cases :
  (forall (dest group date : string) (fields md : list (string * json))
          (v url : json),
      Py.lookup "path" fields = Some url ->
      Py.lookup "metadata" fields = Some (JObj md) ->
      Py.lookup "filename" md = Some v ->
      attachment_task dest group date (JObj fields)
      = if Py.within_limit v
        then Ok (url, destination dest group date (Py.str v))
        else Raise ValueError)
  /\ (forall (dest group date : string) (fields : list (string * json))
             (md url : json),
         Py.lookup "path" fields = Some url ->
         Py.lookup "metadata" fields = Some md ->
         is_dict md = false ->
         attachment_task dest group date (JObj fields) = Raise AttributeError)
  /\ (forall (dest group date : string) (fields : list (string * json))
             (url : json),
         Py.lookup "path" fields = Some url ->
         Py.lookup "metadata" fields = None
         \/ (exists md, Py.lookup "metadata" fields = Some (JObj md)
               /\ Py.lookup "filename" md = None) ->
         (forall u, url <> JStr u) ->
         attachment_task dest group date (JObj fields) = Raise AttributeError).
Proof.
  refine (conj _ (conj _ _)).
  - intros dest group date fields md v url Hpath Hmd Hfn.
    unfold attachment_task, attachment_filename. cbn [Py.getitem Py.in_keys].
    rewrite Hpath, Hmd. cbn [mbind result_bind bind Py.in_keys Py.getitem].
    rewrite Hfn. cbn [mbind result_bind bind]. unfold Py.format.
    now destruct (Py.within_limit v).
  - intros dest group date fields md url Hpath Hmd Hnd.
    unfold attachment_task, attachment_filename. cbn [Py.getitem Py.in_keys].
    rewrite Hpath, Hmd. cbn [mbind result_bind bind].
    destruct md; try reflexivity. discriminate.
  - intros dest group date fields url Hpath Hmd Hurl.
    unfold attachment_task, attachment_filename. cbn [Py.getitem Py.in_keys].
    rewrite Hpath. destruct Hmd as [Hmd | (md & Hmd & Hfn)]; rewrite Hmd;
      cbn [mbind result_bind bind Py.in_keys Py.getitem]; try rewrite Hfn;
      cbn [mbind result_bind bind];
      (destruct url; try reflexivity; now destruct (Hurl s)).
Qed.

Lemma X17_metadata_edge_cases_witness :
  attachment_task "out" "A" "01-01-2019"
    (JObj [("path", JStr "https://h/b/a");
           ("metadata", JObj [("filename", JNull)])])
  = Ok (JStr "https://h/b/a", "out/A/01-01-2019-None")
  /\ attachment_task "out" "A" "01-01-2019"
       (JObj [("path", JStr "https://h/b/a"); ("metadata", JNull)])
     = Raise AttributeError
  /\ attachment_task "out" "A" "01-01-2019" (JObj [("path", JNull)])
     = Raise AttributeError.
Proof.
  refine (conj _ (conj _ _)).
  - exact (proj1 X17_metadata_edge_cases "out" "A" "01-01-2019"
             [("path", JStr "https://h/b/a");
              ("metadata", JObj [("filename", JNull)])]
             [("filename", JNull)] JNull (JStr "https://h/b/a")
             eq_refl eq_refl eq_refl).
  - exact (proj1 (proj2 X17_metadata_edge_cases) "out" "A" "01-01-2019"
             [("path", JStr "https://h/b/a"); ("metadata", JNull)]
             JNull (JStr "https://h/b/a") eq_refl eq_refl eq_refl).
  - refine (proj2 (proj2 X17_metadata_edge_cases) "out" "A" "01-01-2019"
              [("path", JNull)] JNull eq_refl (or_introl eq_refl) _).
    intros u. discriminate.
Defined.

(** ** The two date formats *)

Module DateTimeFacts.
Import DateTime.

Lemma seq_first {A B} (p : rx A) (k : A -> rx B) s a r b r' :
  first_match p s a r -> first_match (k a) r b r' ->
  first_match (seq p k) s b r'.
Proof.
  intros [more Hp] [more' Hk]. unfold first_match, DateTime.seq. rewrite Hp.
  cbn [flat_map]. rewrite Hk. eexists. reflexivity.
Qed.

Lemma digit_digit_char (d : Z) : digit (digit_char d) = Some (d mod 10).
Proof.
  unfold digit_char.
  assert (H : 0 <= d mod 10 < 10) by (apply Z.mod_pos_bound; lia).
  destruct (d mod 10) as [|p|p]; [reflexivity| |lia].
  do 9 (destruct p as [p|p|]; try lia; try reflexivity).
Qed.

Lemma below (P : Z -> Prop) (bound : nat) :
  (forall k : nat, (k < bound)%nat -> P (Z.of_nat k)) ->
  forall n, 0 <= n < Z.of_nat bound -> P n.
Proof.
  intros H n Hn. rewrite <- (Z2Nat.id n) by lia. apply H. lia.
Qed.

Ltac enumerate n bound :=
  pattern n; apply (below _ bound); [|lia];
  let k := fresh "k" in let Hk := fresh "Hk" in
  intros k Hk;
  repeat (destruct k as [|k];
          [intros; first [eexists; reflexivity | exfalso; lia]
          | try (exfalso; lia)]).

Lemma two_pad (n : Z) (rest : string) :
  0 <= n < 100 -> first_match (two any2) (pad 2 n +:+ rest) n rest.
Proof. intros Hn. assert (Hb := Hn). revert Hn. enumerate n 100%nat. Qed.

Lemma re_m_pad (n : Z) (rest : string) :
  1 <= n <= 12 -> first_match re_m (pad 2 n +:+ rest) n rest.
Proof. intros Hn. assert (Hb := Hn). revert Hn. enumerate n 13%nat. Qed.

Lemma re_d_pad (n : Z) (rest : string) :
  1 <= n <= 31 -> first_match re_d (pad 2 n +:+ rest) n rest.
Proof. intros Hn. assert (Hb := Hn). revert Hn. enumerate n 32%nat. Qed.

Lemma re_H_pad (n : Z) (rest : string) :
  0 <= n <= 23 -> first_match re_H (pad 2 n +:+ rest) n rest.
Proof. intros Hn. assert (Hb := Hn). revert Hn. enumerate n 24%nat. Qed.

Lemma re_M_pad (n : Z) (rest : string) :
  0 <= n <= 59 -> first_match re_M (pad 2 n +:+ rest) n rest.
Proof. intros Hn. assert (Hb := Hn). revert Hn. enumerate n 60%nat. Qed.

Lemma re_S_pad (n : Z) (rest : string) :
  0 <= n <= 59 -> first_match re_S (pad 2 n +:+ rest) n rest.
Proof. intros Hn. assert (Hb := Hn). revert Hn. enumerate n 60%nat. Qed.

Lemma pad_4 (y : Z) : pad 4 y = pad 2 (y / 100) +:+ pad 2 (y mod 100).
Proof.
  assert (Hdc : forall a b, a mod 10 = b mod 10 -> digit_char a = digit_char b).
  { intros a b H. unfold digit_char. now rewrite H. }
  cbn [pad String.append].
  rewrite (Hdc (y / 10 / 10 / 10) (y / 100 / 10)),
          (Hdc (y / 10 / 10) (y / 100)),
          (Hdc (y / 10) (y mod 100 / 10)),
          (Hdc y (y mod 100)); [reflexivity| | | |];
    Z.div_mod_to_equations; lia.
Qed.

Lemma re_Y_pad (y : Z) (rest : string) :
  0 <= y <= 9999 -> first_match re_Y (pad 4 y +:+ rest) y rest.
Proof.
  intros Hy. rewrite pad_4, append_assoc. unfold re_Y.
  apply (seq_first _ _ _ (y / 100) (pad 2 (y mod 100) +:+ rest)).
  { apply two_pad. Z.div_mod_to_equations; lia. }
  apply (seq_first _ _ _ (y mod 100) rest).
  { apply two_pad. Z.div_mod_to_equations; lia. }
  exists []. unfold ret. do 2 f_equal. Z.div_mod_to_equations; lia.
Qed.

Lemma frac_nonempty (n : nat) (scale acc : Z) (s : string) :
  frac n scale acc s <> [].
Proof.
  destruct n as [|n]; [discriminate|]. destruct s as [|c r]; [discriminate|].
  cbn [frac]. destruct (digit c); [|discriminate].
  intros H. apply app_eq_nil in H as [_ H]. discriminate.
Qed.

Lemma frac_pad (k : nat) :
  forall (n : nat) (scale acc c v : Z) (rest : string),
    (k <= n)%nat -> 0 <= v < 10 ^ Z.of_nat k ->
    scale * 10 = c * 10 ^ Z.of_nat k ->
    exists tail,
      frac n scale acc (pad k v +:+ rest)
      = frac (n - k) (c / 10) (acc + v * c) rest ++ tail.
Proof.
  induction k as [|k IH]; intros n scale acc c v rest Hk Hv Hscale.
  - exists []. cbn [pad String.append]. rewrite Nat.sub_0_r, app_nil_r.
    change (10 ^ Z.of_nat 0) with 1 in *.
    assert (v = 0) as -> by lia.
    assert (c / 10 = scale) as -> by (Z.div_mod_to_equations; lia).
    f_equal. lia.
  - rewrite Nat2Z.inj_succ, Z.pow_succ_r in * by lia.
    cbn [pad]. rewrite append_assoc. cbn [String.append].
    destruct (IH n scale acc (10 * c) (v / 10)
                (String (digit_char v) rest)) as [tail Htail];
      [lia | Z.div_mod_to_equations; nia | lia |].
    rewrite Htail.
    destruct (n - k)%nat as [|n'] eqn:Hn; [lia|].
    assert (n - S k = n')%nat as -> by lia.
    cbn [frac]. rewrite digit_digit_char.
    eexists. rewrite <- app_assoc. f_equal.
    + f_equal; [Z.div_mod_to_equations; lia|].
      Z.div_mod_to_equations; nia.
Qed.

Lemma pad_head (k : nat) (v : Z) :
  exists (d : Z) (r : string), pad (S k) v = String (digit_char d) r.
Proof.
  revert v. induction k as [|k IH]; intros v.
  - exists v, EmptyString. reflexivity.
  - destruct (IH (v / 10)) as (d & r & Hd).
    exists d, (r +:+ String (digit_char v) EmptyString).
    change (pad (S (S k)) v)
      with (pad (S k) (v / 10) +:+ String (digit_char v) EmptyString).
    now rewrite Hd.
Qed.

Lemma re_f_pad (k : nat) (v : Z) (rest : string) :
  (1 <= k <= 6)%nat -> 0 <= v < 10 ^ Z.of_nat k ->
  first_match re_f (pad k v +:+ String "Z"%char rest)
    (v * 10 ^ Z.of_nat (6 - k)) (String "Z"%char rest).
Proof.
  intros Hk Hv.
  destruct (frac_pad k 6 100000 0 (10 ^ Z.of_nat (6 - k)) v
              (String "Z"%char rest)) as [tail Htail]; [lia | exact Hv | |].
  { rewrite <- Z.pow_add_r by lia.
    replace (Z.of_nat (6 - k) + Z.of_nat k) with 6 by lia. reflexivity. }
  assert (Hstop : forall n scale acc,
             frac n scale acc (String "Z"%char rest)
             = [(acc, String "Z"%char rest)]).
  { intros [|n] scale acc; reflexivity. }
  rewrite Hstop in Htail. cbn [app] in Htail.
  destruct k as [|k]; [lia|].
  destruct (pad_head k v) as (d & r & Hpad). rewrite Hpad in *.
  cbn [String.append] in *.
  assert (Hre : frac 6 100000 0 (String (digit_char d) (r +:+ String "Z"%char rest))
                = re_f (String (digit_char d) (r +:+ String "Z"%char rest))
                  ++ [(0, String (digit_char d) (r +:+ String "Z"%char rest))]).
  { unfold re_f, DateTime.seq, one. cbn [frac]. rewrite digit_digit_char.
    cbn [any1 flat_map]. now rewrite app_nil_r. }
  rewrite Hre in Htail.
  destruct (re_f (String (digit_char d) (r +:+ String "Z"%char rest)))
    as [|x l] eqn:Hf.
  { exfalso. unfold re_f, DateTime.seq, one in Hf. rewrite digit_digit_char in Hf.
    cbn [any1 flat_map] in Hf. rewrite app_nil_r in Hf.
    exact (frac_nonempty _ _ _ _ Hf). }
  cbn [app] in Htail. injection Htail as -> _. exists l. rewrite Hf. reflexivity.
Qed.

Lemma lit_first (c : ascii) (rest : string) :
  first_match (lit c) (String c rest) tt rest.
Proof. exists []. unfold lit. now rewrite Ascii.eqb_refl. Qed.

Lemma days_in_month_le (y m : Z) : days_in_month y m <= 31.
Proof.
  unfold days_in_month.
  repeat match goal with
         | |- context [match ?x with _ => _ end] => destruct x
         end; lia.
Qed.

Lemma strptime_item_iso (k : nat) (d : datetime) :
  (1 <= k <= 6)%nat ->
  in_range d = true ->
  microsecond d mod 10 ^ Z.of_nat (6 - k) = 0 ->
  strptime_item (iso k d) = Ok d.
Proof.
  intros Hk Hrange Hmicro. unfold in_range, valid in Hrange.
  repeat (apply andb_prop in Hrange as [Hrange ?]).
  pose proof (days_in_month_le (year d) (month d)) as Hdays.
  assert (Hpow : 0 < 10 ^ Z.of_nat (6 - k)) by (apply Z.pow_pos_nonneg; lia).
  assert (Hsix : 10 ^ Z.of_nat (6 - k) * 10 ^ Z.of_nat k = 1000000).
  { rewrite <- Z.pow_add_r by lia.
    replace (Z.of_nat (6 - k) + Z.of_nat k) with 6 by lia. reflexivity. }
  assert (Hmatch : first_match re_item (iso k d) d EmptyString).
  { unfold re_item, iso.
    eapply seq_first; [apply re_Y_pad; lia|]. cbn [String.append].
    eapply seq_first; [apply lit_first|].
    eapply seq_first; [apply re_m_pad; lia|]. cbn [String.append].
    eapply seq_first; [apply lit_first|].
    eapply seq_first; [apply re_d_pad; lia|]. cbn [String.append].
    eapply seq_first; [apply lit_first|].
    eapply seq_first; [apply re_H_pad; lia|]. cbn [String.append].
    eapply seq_first; [apply lit_first|].
    eapply seq_first; [apply re_M_pad; lia|]. cbn [String.append].
    eapply seq_first; [apply lit_first|].
    eapply seq_first; [apply re_S_pad; lia|]. cbn [String.append].
    eapply seq_first; [apply lit_first|].
    eapply seq_first.
    { apply (re_f_pad k _ EmptyString); [exact Hk|].
      split; [apply Z.div_pos; lia|].
      apply Z.div_lt_upper_bound; [lia|]. rewrite Hsix. lia. }
    eapply seq_first; [apply lit_first|].
    exists []. unfold ret. do 2 f_equal. destruct d as [y m dd h mi s us].
    cbn [year month day hour minute second microsecond] in *. f_equal.
    rewrite Z.mul_comm. symmetry. apply Z.div_exact; [lia|].
    exact Hmicro. }
  destruct Hmatch as [more Hmatch]. unfold strptime_item, finish.
  rewrite Hmatch. unfold valid.
  repeat match goal with
         | H : (_ <=? _) = true |- _ => rewrite H; clear H
         end.
  reflexivity.
Qed.

Lemma re_b_name (m : Z) (rest : string) :
  1 <= m <= 12 -> first_match re_b (month_name m +:+ rest) m rest.
Proof. intros Hm. assert (Hb := Hm). revert Hm. enumerate m 13%nat. Qed.

Lemma re_d_short (n : Z) (rest : string) :
  1 <= n <= 9 ->
  first_match re_d (pad 1 n +:+ String "-"%char rest) n (String "-"%char rest).
Proof. intros Hn. assert (Hb := Hn). revert Hn. enumerate n 10%nat. Qed.

Lemma strptime_cutoff_text (w : nat) (d : datetime) :
  valid d = true -> midnight d = true ->
  w = 2%nat \/ (w = 1%nat /\ day d <= 9) ->
  strptime_cutoff (cutoff_text w d) = Ok d
  /\ parse_after_date (Some (cutoff_text w d)) = Ok (Some d).
Proof.
  intros Hvalid Hmid Hw. pose proof Hvalid as Hv. unfold valid in Hv.
  repeat (apply andb_prop in Hv as [Hv ?]).
  unfold midnight in Hmid. repeat (apply andb_prop in Hmid as [Hmid ?]).
  pose proof (days_in_month_le (year d) (month d)) as Hdays.
  assert (Hmatch : first_match re_cutoff (cutoff_text w d) d EmptyString).
  { unfold re_cutoff, cutoff_text.
    apply (seq_first _ _ _ (day d)
             ("-" +:+ month_name (month d) +:+ "-" +:+ pad 4 (year d))).
    { destruct Hw as [-> | [-> Hday]];
        [apply re_d_pad; lia | apply re_d_short; lia]. }
    cbn [String.append].
    eapply seq_first; [apply lit_first|].
    eapply seq_first; [apply re_b_name; lia|]. cbn [String.append].
    eapply seq_first; [apply lit_first|].
    eapply seq_first.
    { rewrite <- (append_nil_r (pad 4 (year d))). apply re_Y_pad. lia. }
    exists []. unfold ret. do 2 f_equal. destruct d as [y m dd h mi s us].
    cbn [year month day hour minute second microsecond] in *. f_equal; lia. }
  destruct Hmatch as [more Hmatch].
  assert (Hparse : strptime_cutoff (cutoff_text w d) = Ok d).
  { unfold strptime_cutoff, finish. now rewrite Hmatch, Hvalid. }
  split; [exact Hparse|].
  unfold parse_after_date. rewrite Hparse.
  destruct (cutoff_text w d) eqn:Htext; [|reflexivity].
  exfalso. unfold cutoff_text in Htext.
  destruct Hw as [-> | [-> _]]; cbn [pad String.append] in Htext; discriminate.
Qed.

End DateTimeFacts.

(** X18: the timestamp format of the items accepts the text
    [YYYY-MM-DDTHH:MM:SS.f..fZ] of every date-time, written with one to
    six digits for the fraction of the second, and gives that date-time
    back; an item so stamped is therefore kept under a cutoff exactly
    when its date-time is later than the cutoff. *)
Theorem X18_iso_timestamp_parses :
  forall (k : nat) (d : DateTime.datetime) (fields : list (string * json)),
    (1 <= k <= 6)%nat ->
    in_range d = true ->
    DateTime.microsecond d mod 10 ^ Z.of_nat (6 - k) = 0 ->
    Py.lookup "time" fields = Some (JStr (iso k d)) ->
    DateTime.strptime_item (iso k d) = Ok d
    /\ item_time (JObj fields) = Ok d
    /\ (forall cutoff, kept (Some cutoff) (JObj fields) = DateTime.gt d cutoff).
Proof.
  intros k d fields Hk Hrange Hmicro Htime.
  pose proof (DateTimeFacts.strptime_item_iso k d Hk Hrange Hmicro) as Hparse.
  assert (Hitem : item_time (JObj fields) = Ok d).
  { unfold item_time. cbn [Py.getitem]. rewrite Htime.
    cbn [mbind result_bind bind strptime]. exact Hparse. }
  refine (conj Hparse (conj Hitem _)).
  intros cutoff. unfold kept. now rewrite Hitem.
Qed.

Lemma X18_iso_timestamp_parses_witness :
  iso 3 (DateTime.mk_datetime 2019 1 1 13 5 59 250000) = "2019-01-01T13:05:59.250Z"
  /\ DateTime.strptime_item "2019-01-01T13:05:59.250Z"
     = Ok (DateTime.mk_datetime 2019 1 1 13 5 59 250000).
Proof.
  refine (conj eq_refl _).
  refine (proj1 (X18_iso_timestamp_parses 3
                   (DateTime.mk_datetime 2019 1 1 13 5 59 250000)
                   [("time", JStr "2019-01-01T13:05:59.250Z")]
                   _ eq_refl eq_refl eq_refl)).
  lia.
Defined.

(** X19: the cutoff format accepts the text [D-Mon-YYYY] of every calendar
    date, the day written with two digits or, below ten, with one, and
    gives the midnight that starts that date; the configured cutoff
    [1-Jul-2018] is such a text. *)
Theorem X19_cutoff_date_parses :
  forall (w : nat) (d : DateTime.datetime),
    DateTime.valid d = true ->
    midnight d = true ->
    w = 2%nat \/ (w = 1%nat /\ DateTime.day d <= 9) ->
    DateTime.strptime_cutoff (cutoff_text w d) = Ok d
    /\ parse_after_date (Some (cutoff_text w d)) = Ok (Some d).
Proof. exact DateTimeFacts.strptime_cutoff_text. Qed.

Lemma X19_cutoff_date_parses_witness :
  AFTER_DATE = Some (cutoff_text 1 (DateTime.mk_datetime 2018 7 1 0 0 0 0))
  /\ parse_after_date AFTER_DATE
     = Ok (Some (DateTime.mk_datetime 2018 7 1 0 0 0 0)).
Proof.
  refine (conj eq_refl _).
  refine (proj2 (X19_cutoff_date_parses 1
                   (DateTime.mk_datetime 2018 7 1 0 0 0 0) eq_refl eq_refl _)).
  right. split; [reflexivity|]. discriminate.
Defined.



(** X21: two ways in which a feed that answers every request still makes
    the traversal fail, in both cases without a snapshot.  When the first
    page carries an [_items] value that is not a list and a cursor that is
    followed, the second page is fetched and then [extend] raises
    [AttributeError]; when a page carries a cursor that is true but not a
    string, the next [get_items] raises before any request is sent. *)
Theorem X21_traversal_needs_list_and_string_cursor :
  (forall (fuel : nat) (net : network) (feed_url filename u : string)
          (w : world) (data data' items new_items prev' : json),
      api net feed_url = Ok data ->
      page data = Ok (items, JStr u) ->
      is_list items = false ->
      follows feed_url (JStr u) = true ->
      api net u = Ok data' ->
      page data' = Ok (new_items, prev') ->
      scrape (S fuel) net feed_url filename w
      = Some (Raise AttributeError, log_request u (log_request feed_url w)))
  /\ (forall (fuel : nat) (net : network) (feed_url filename : string)
             (w : world) (data items prev : json),
         api net feed_url = Ok data ->
         page data = Ok (items, prev) ->
         Py.truthy prev = true ->
         (forall u, prev <> JStr u) ->
         scrape (S fuel) net feed_url filename w
         = Some (Raise RequestException, log_request feed_url w)).
Proof.
  split.
  - intros fuel net feed_url filename u w data data' items new_items prev'
      Hapi Hpage Hlist Hgo Hapi' Hpage'.
    unfold scrape. cbn [get_items]. rewrite Hapi, Hpage.
    cbn [scrape_loop]. rewrite Hgo. cbn [get_items]. rewrite Hapi', Hpage'.
    destruct items; try reflexivity. discriminate.
  - intros fuel net feed_url filename w data items prev Hapi Hpage Htrue Hstr.
    unfold scrape. cbn [get_items]. rewrite Hapi, Hpage.
    cbn [scrape_loop]. unfold follows. rewrite Htrue.
    destruct prev; try reflexivity. now destruct (Hstr s).
Qed.

Lemma X21_traversal_needs_list_and_string_cursor_witness :
  scrape 1 net_dict_items "A" "data.json" empty_world
  = Some (Raise AttributeError, log_request "B" (log_request "A" empty_world))
  /\ scrape 1 net_numeric_cursor "A" "data.json" empty_world
     = Some (Raise RequestException, log_request "A" empty_world).
Proof.
  split.
  - exact (proj1 X21_traversal_needs_list_and_string_cursor 0%nat net_dict_items
             "A" "data.json" "B" empty_world
             (JObj [("_items", JObj [("a", JInt 1)]);
                    ("_links", JObj [("prev", JObj [("href", JStr "B")])])])
             (JObj [("_items", JObj [("a", JInt 1)]);
                    ("_links", JObj [("prev", JObj [("href", JStr "B")])])])
             (JObj [("a", JInt 1)]) (JObj [("a", JInt 1)]) (JStr "B")
             eq_refl eq_refl eq_refl eq_refl eq_refl eq_refl).
  - refine (proj2 X21_traversal_needs_list_and_string_cursor 0%nat net_numeric_cursor
              "A" "data.json" empty_world
              (JObj [("_items", JArr [JInt 1]);
                     ("_links", JObj [("prev", JObj [("href", JInt 5)])])])
              (JArr [JInt 1]) (JInt 5) eq_refl eq_refl eq_refl _).
    intros u. discriminate.
Defined.

Lemma plain_text_app (a b : string) :
  plain_text (a +:+ b) = plain_text a && plain_text b.
Proof.
  unfold plain_text. induction a as [|c a IH]; [reflexivity|].
  cbn [String.append Str.chars forallb]. now rewrite IH, andb_assoc.
Qed.

Lemma escape_plain (c : ascii) : plain_text (Json.escape c) = true.
Proof. destruct c as [[] [] [] [] [] [] [] []]; reflexivity. Qed.

Lemma encode_string_plain (s : string) : plain_text (Json.encode_string s) = true.
Proof.
  unfold Json.encode_string.
  change (plain_text (String Json.quote (Json.encode_chars s
                                         +:+ String Json.quote EmptyString)))
    with (plain_text (Json.encode_chars s +:+ String Json.quote EmptyString)).
  rewrite plain_text_app, andb_true_r.
  induction s as [|c s IH]; [reflexivity|].
  cbn [Json.encode_chars]. now rewrite plain_text_app, escape_plain, IH.
Qed.

Lemma string_of_uint_plain (u : uint) :
  plain_text (NilEmpty.string_of_uint u) = true.
Proof. induction u; [reflexivity| exact IHu ..]. Qed.

Lemma int_str_plain (z : Z) : plain_text (Py.int_str z) = true.
Proof. destruct z; [reflexivity | apply string_of_uint_plain ..]. Qed.

Lemma newline_indent_plain (level : nat) :
  plain_text (Json.newline_indent level) = true.
Proof.
  unfold Json.newline_indent.
  change (plain_text (String Json.newline (Json.spaces (4 * level))))
    with (plain_text (Json.spaces (4 * level))).
  induction (4 * level)%nat as [|k IH]; [reflexivity | exact IH].
Qed.

Lemma encode_rest_plain {A} (enc : A -> string) (sep close : string)
    (xs : list A) :
  Forall (fun x => plain_text (enc x) = true) xs ->
  plain_text sep = true -> plain_text close = true ->
  plain_text (Json.encode_rest enc sep close xs) = true.
Proof.
  intros Hxs Hsep Hclose. induction Hxs as [|x xs Hx _ IH]; [exact Hclose|].
  cbn [Json.encode_rest]. now rewrite !plain_text_app, Hsep, Hx, IH.
Qed.

Lemma encode_plain (v : json) :
  forall level : nat, plain_text (Json.encode level v) = true.
Proof.
  induction v as [| b | z | s | l IH | d IH] using json_ind'; intros level.
  - reflexivity.
  - now destruct b.
  - apply int_str_plain.
  - apply encode_string_plain.
  - destruct l as [|x xs]; [reflexivity|].
    apply Forall_cons in IH as [Hx Hxs].
    cbn [Json.encode]. rewrite !plain_text_app, newline_indent_plain, (Hx (S level)).
    cbn [andb]. apply andb_true_intro. split; [reflexivity|].
    apply encode_rest_plain.
    + eapply Forall_impl; [exact Hxs|]. intros y Hy. apply Hy.
    + now rewrite plain_text_app, newline_indent_plain.
    + now rewrite plain_text_app, newline_indent_plain.
  - destruct d as [|kv kvs]; [reflexivity|].
    apply Forall_cons in IH as [Hx Hxs].
    assert (Hmember : forall kv' : string * json,
               (forall level, plain_text (Json.encode level (snd kv')) = true) ->
               plain_text (Json.encode_member (Json.encode (S level)) kv') = true).
    { intros kv' Hkv. unfold Json.encode_member.
      now rewrite !plain_text_app, encode_string_plain, (Hkv (S level)). }
    cbn [Json.encode]. rewrite !plain_text_app, newline_indent_plain, (Hmember kv Hx).
    cbn [andb]. apply andb_true_intro. split; [reflexivity|].
    apply encode_rest_plain.
    + eapply Forall_impl; [exact Hxs|]. intros y Hy. now apply Hmember.
    + now rewrite plain_text_app, newline_indent_plain.
    + now rewrite plain_text_app, newline_indent_plain.
Qed.

(** X22: the snapshot is plain text whatever the items hold: the file that
    [save_json] writes consists of printable ASCII characters and line
    feeds only, every other character of a string being written as an
    escape. *)
Theorem X22_snapshot_is_plain_ascii :
  forall (items : json) (filename : string) (w : world),
    plain_text (Json.dumps items) = true
    /\ exists text,
         files (snd (save_json items filename w)) !! filename = Some text
         /\ plain_text text = true.
Proof.
  intros items filename w. pose proof (encode_plain items 0) as Hplain.
  split; [exact Hplain|].
  unfold save_json, Json.try_dumps.
  destruct (Py.within_limit items); cbn [snd write_file files].
  - exists (Json.dumps items). split; [apply lookup_insert_eq | exact Hplain].
  - exists EmptyString. split; [apply lookup_insert_eq | reflexivity].
Qed.

(** X23: what the code never looks at.  An item enters the Resolver only
    through its [time], [contents] and [headerSubtext] values, an
    attachment only through [path] and [metadata], and a response enters
    [get_items] only through [_links] and [_items]: two dicts that agree
    on these keys are treated alike, whatever else they hold and in
    whatever order. *)
Theorem X23_only_the_named_keys_are_read :
  (forall (dest : string) (dt : option DateTime.datetime)
          (fields fields' : list (string * json)) (urls : list task),
      Py.lookup "time" fields = Py.lookup "time" fields' ->
      Py.lookup "contents" fields = Py.lookup "contents" fields' ->
      Py.lookup "headerSubtext" fields = Py.lookup "headerSubtext" fields' ->
      item_step dest dt (JObj fields) urls = item_step dest dt (JObj fields') urls)
  /\ (forall (dest group date : string) (fields fields' : list (string * json)),
         Py.lookup "path" fields = Py.lookup "path" fields' ->
         Py.lookup "metadata" fields = Py.lookup "metadata" fields' ->
         attachment_task dest group date (JObj fields)
         = attachment_task dest group date (JObj fields'))
  /\ (forall fields fields' : list (string * json),
         Py.lookup "_links" fields = Py.lookup "_links" fields' ->
         Py.lookup "_items" fields = Py.lookup "_items" fields' ->
         page (JObj fields) = page (JObj fields')).
Proof.
  refine (conj _ (conj _ _)).
  - intros dest dt fields fields' urls Htime Hcontents Hheader.
    unfold item_step, keep_item. cbn [Py.getitem].
    now rewrite Htime, Hcontents, Hheader.
  - intros dest group date fields fields' Hpath Hmd.
    unfold attachment_task, attachment_filename. cbn [Py.getitem Py.in_keys].
    now rewrite Hpath, Hmd.
  - intros fields fields' Hlinks Hitems.
    unfold page. cbn [Py.getitem Py.get]. now rewrite Hlinks, Hitems.
Qed.

Lemma X23_only_the_named_keys_are_read_witness :
  item_step "out" None
    (JObj [("id", JInt 7); ("headerSubtext", JStr "A");
           ("contents", JObj [("attachments", JArr [attachment_plain "https://h/b/a"])]);
           ("time", JStr "2019-01-01T00:00:00.000Z")]) []
  = item_step "out" None
      (feed_item "2019-01-01T00:00:00.000Z" "A" [attachment_plain "https://h/b/a"]) [].
Proof.
  exact (proj1 X23_only_the_named_keys_are_read "out" None
           [("id", JInt 7); ("headerSubtext", JStr "A");
            ("contents", JObj [("attachments", JArr [attachment_plain "https://h/b/a"])]);
            ("time", JStr "2019-01-01T00:00:00.000Z")]
           [("time", JStr "2019-01-01T00:00:00.000Z"); ("headerSubtext", JStr "A");
            ("contents", JObj [("attachments", JArr [attachment_plain "https://h/b/a"])])]
           [] eq_refl eq_refl eq_refl).
Defined.

Lemma skip_ws_blank_app (lead text : string) :
  blank lead = true -> Json.skip_ws (lead +:+ text) = Json.skip_ws text.
Proof.
  unfold blank. induction lead as [|c lead IH]; [reflexivity|].
  cbn [Str.chars forallb String.append Json.skip_ws].
  intros [Hc Hrest]%andb_prop. rewrite Hc. now apply IH.
Qed.




